(** * BrewMe: recipe scaling, costing and batch commit

    A shallow embedding of [services.py], [db.py] and the two callbacks of
    [gui.py] that quote and log a batch, together with the properties of
    the specification that concern them; then of the inventory tab of
    [gui.py] with its two dialogs, and of the seeding of a new database
    from the objects of [models.py], with further properties of the code.

    Numbers.  SQLite [REAL] columns and Python floats are modelled as exact
    rationals ([Q]); rounding of binary floating point is outside the model.
    [INTEGER] keys are [Z].

    Effects.  The functions of [services.py] open a connection, query or
    update the database file, and may raise.  They are modelled in a small
    state-and-exception monad over a [World]: the database file, whether it
    can be opened, how many connection attempts were made, and the clock. *)

From Stdlib Require Import ZArith QArith Qround Qabs Qminmax Lqa Lia.
From Stdlib Require Import Ascii String DecimalString DecimalN DecimalPos.
From Stdlib Require Import List Permutation.
From stdpp Require Import gmap strings list sorting.

Local Open Scope Z_scope.

(* ===================================================================== *)
(** * Data model *)
(* ===================================================================== *)

(** A row of [Ingredients], keyed by its [id INTEGER PRIMARY KEY].  Every
    insertion of the repository supplies [inventory_qty], so the column is
    modelled as never [NULL]. *)
Record IngredientRow := mkIngredient {
  ing_name : string;
  ing_type : string;
  ing_cost : Q;
  ing_detail1 : Q;
  ing_unit : string;
  inventory_qty : Q
}.

(** A row of [Recipe_Details]. *)
Record DetailRow := mkDetail {
  recipe_id : Z;
  ingredient_id : Z;
  quantity : Q
}.

(** A row of [Batch_Log]. *)
Record BatchRow := mkBatch {
  batch_id : Z;
  recipe_name : string;
  volume_BBL : Q;
  final_cost : Q;
  date_brewed : string
}.

(** The database file: the three tables the core reads and writes.
    [Recipe_Details] and [Batch_Log] are kept in storage order. *)
Record Database := mkDatabase {
  Ingredients : gmap Z IngredientRow;
  Recipe_Details : list DetailRow;
  Batch_Log : list BatchRow
}.

(** One scaled ingredient: the dict with keys ['id'], ['name'],
    ['quantity'], ['unit'] built by [scale_recipe]. *)
Record Item := mkItem {
  item_id : Z;
  item_name : string;
  item_quantity : Q;
  item_unit : string
}.

(** The exceptions the modelled code can raise. *)
Inductive PyExc :=
| ValueError (msg : string)
| TypeError (msg : string)
| IntegrityError (msg : string).

Inductive Outcome (A : Type) :=
| Returns (a : A)
| Raises (e : PyExc).
Arguments Returns {A} a.
Arguments Raises {A} e.

(** The environment of a call.  Whether the file can be opened is a
    property of the environment: no operation changes it. *)
Record World := mkWorld {
  reachable : bool;      (* does [sqlite3.connect] succeed? *)
  store : Database;      (* contents of the database file *)
  connects : nat;        (* calls of [db.connect_db] so far *)
  clock : string         (* [datetime.now().strftime('%Y-%m-%d %H:%M')] *)
}.

Definition set_store (d : Database) (w : World) : World :=
  mkWorld (reachable w) d (connects w) (clock w).

Definition set_Ingredients (m : gmap Z IngredientRow) (d : Database) : Database :=
  mkDatabase m (Recipe_Details d) (Batch_Log d).

Definition set_Batch_Log (l : list BatchRow) (d : Database) : Database :=
  mkDatabase (Ingredients d) (Recipe_Details d) l.

Definition set_inventory_qty (q : Q) (r : IngredientRow) : IngredientRow :=
  mkIngredient (ing_name r) (ing_type r) (ing_cost r) (ing_detail1 r)
               (ing_unit r) q.

Definition set_ing_cost (c : Q) (r : IngredientRow) : IngredientRow :=
  mkIngredient (ing_name r) (ing_type r) c (ing_detail1 r)
               (ing_unit r) (inventory_qty r).

(* ===================================================================== *)
(** * The monad of the service functions *)
(* ===================================================================== *)

Definition M (A : Type) : Type := World -> Outcome A * World.

Definition ret {A} (a : A) : M A := fun w => (Returns a, w).

Definition raise {A} (e : PyExc) : M A := fun w => (Raises e, w).

Definition bind {A B} (m : M A) (k : A -> M B) : M B :=
  fun w =>
    match m w with
    | (Returns a, w') => k a w'
    | (Raises e, w') => (Raises e, w')
    end.

Notation "'let*' x ':=' m 'in' k" := (bind m (fun x => k))
  (at level 10, x pattern, m at level 100, k at level 200).

(** Read the database through an open connection. *)
Definition query {A} (f : Database -> A) : M A :=
  fun w => (Returns (f (store w)), w).

(** Write the database and [conn.commit()]. *)
Definition execute (f : Database -> Database) : M unit :=
  fun w => (Returns tt, set_store (f (store w)) w).

(** [datetime.datetime.now().strftime('%Y-%m-%d %H:%M')] *)
Definition datetime_now : M string := fun w => (Returns (clock w), w).

(* ===================================================================== *)
(** * Python primitives used by the code *)
(* ===================================================================== *)

Module Py.

(** Nearest integer, ties to the even one: the rounding of [%.2f].  A tie
    here is a tie of the exact rational. *)
Definition round_half_even (q : Q) : Z :=
  let n := Qfloor q in
  match Qcompare (q - inject_Z n) (1 # 2) with
  | Lt => n
  | Gt => n + 1
  | Eq => if Z.even n then n else n + 1
  end.

(** Decimal digits of a natural number, ["0"] for zero. *)
Definition dec (z : Z) : string :=
  NilZero.string_of_uint (N.to_uint (Z.to_N z)).

Definition digit (z : Z) : ascii :=
  match z with
  | 0 => "0" | 1 => "1" | 2 => "2" | 3 => "3" | 4 => "4"
  | 5 => "5" | 6 => "6" | 7 => "7" | 8 => "8" | _ => "9"
  end%char.

Definition two_digits (z : Z) : string :=
  String (digit (z / 10)) (String (digit (z mod 10)) EmptyString).

(** Hundredths of [x] after rounding its magnitude to two decimals. *)
Definition cents (x : Q) : Z := round_half_even (Qabs x * 100).

(** [f"{x:.2f}"]: sign, integer part, a dot and exactly two decimals. *)
Definition format_2f (x : Q) : string :=
  let c := cents x in
  let body := dec (c / 100) +:+ "." +:+ two_digits (c mod 100) in
  if Qnum x <? 0 then String "-" body else body.

(** Split at the first dot: the part before it and, when there is a dot,
    the part after it. *)
Fixpoint split_dot (s : string) : string * option string :=
  match s with
  | EmptyString => (EmptyString, None)
  | String c s' =>
      if Ascii.eqb c "." then (EmptyString, Some s')
      else let (a, b) := split_dot s' in (String c a, b)
  end.

Definition pow10 (n : nat) : positive := Nat.iter n (Pos.mul 10) 1%positive.

Definition digits_value (s : string) : option N :=
  option_map N.of_uint (NilEmpty.uint_of_string s).

(** An unsigned decimal literal: digits, optionally a dot and more digits,
    with at least one digit overall. *)
Definition unsigned_literal (s : string) : option Q :=
  match split_dot s with
  | (ip, None) =>
      match ip with
      | EmptyString => None
      | _ => option_map (fun n => inject_Z (Z.of_N n)) (digits_value ip)
      end
  | (ip, Some fp) =>
      match ip, fp with
      | EmptyString, EmptyString => None
      | _, _ =>
          match digits_value ip, digits_value fp with
          | Some i, Some f =>
              Some (inject_Z (Z.of_N i) + (Z.of_N f # pow10 (String.length fp)))%Q
          | _, _ => None
          end
      end
  end.

(** [float(s)] on plain decimal literals with an optional sign; [None]
    stands for [ValueError].  Exponents, surrounding blanks, underscores,
    [inf] and [nan] are not covered: the code only applies [float] this way
    to text it has produced itself with [format_2f]. *)
Definition float (s : string) : option Q :=
  match s with
  | String c s' =>
      if Ascii.eqb c "-" then option_map Qopp (unsigned_literal s')
      else if Ascii.eqb c "+" then unsigned_literal s'
      else unsigned_literal s
  | EmptyString => None
  end.

(** [s.replace(old, new)]: every non-overlapping occurrence, leftmost
    first.  [skip] counts the characters of a matched occurrence still to
    be dropped. *)
Fixpoint replace_from (old new s : string) (skip : nat) : string :=
  match s with
  | EmptyString => EmptyString
  | String c s' =>
      match skip with
      | S k => replace_from old new s' k
      | O =>
          if String.prefix old s
          then new +:+ replace_from old new s' (String.length old - 1)
          else String c (replace_from old new s' 0)
      end
  end.

Fixpoint intersperse (new s : string) : string :=
  match s with
  | EmptyString => new
  | String c s' => new +:+ String c (intersperse new s')
  end.

Definition replace (old new s : string) : string :=
  match old with
  | EmptyString => intersperse new s
  | _ => replace_from old new s 0
  end.

End Py.

(* ===================================================================== *)
(** * db.py: the persistence gateway *)
(* ===================================================================== *)

(** [db.connect_db]: the connection, or [None] when [sqlite3.connect]
    fails.  The connection carries no state of its own in the model. *)
Definition connected (w : World) : World :=
  mkWorld (reachable w) (store w) (S (connects w)) (clock w).

Definition connect_db : M (option unit) :=
  fun w => (Returns (if reachable w then Some tt else None), connected w).

Definition close_db : M unit := ret tt.

(** SQL scalar [MAX(a, b)]. *)
Definition sql_max (a b : Q) : Q := if Qle_bool a b then b else a.

(** The rowid SQLite gives to a row inserted without one: one more than
    the largest in use, 1 for an empty table. *)
Definition next_rowid (ids : list Z) : Z := foldr Z.max 0 ids + 1.

(** The order of the index of the primary key
    [(recipe_id, ingredient_id)] within one recipe. *)
Definition by_ingredient_id (a b : DetailRow) : Prop :=
  ingredient_id a <= ingredient_id b.

#[global] Instance by_ingredient_id_dec (a b : DetailRow) :
  Decision (by_ingredient_id a b).
Proof. unfold by_ingredient_id. apply _. Defined.

(** [SELECT ingredient_id, quantity FROM Recipe_Details WHERE recipe_id = ?].
    The statement has no [ORDER BY]; SQLite answers it by searching the
    index of the primary key [(recipe_id, ingredient_id)], so the rows of
    the recipe come out by ascending [ingredient_id], not in the order
    they were inserted.  The primary key leaves no two rows of a recipe
    with the same [ingredient_id]. *)
Definition select_recipe_details (rid : Z) (d : Database) : list (Z * Q) :=
  map (fun r => (ingredient_id r, quantity r))
      (merge_sort by_ingredient_id
         (List.filter (fun r => recipe_id r =? rid) (Recipe_Details d))).

(** [SELECT name, unit FROM Ingredients WHERE id = ?], [fetchone()] *)
Definition select_name_unit (id : Z) (d : Database) : option (string * string) :=
  match Ingredients d !! id with
  | Some r => Some (ing_name r, ing_unit r)
  | None => None
  end.

(** [SELECT cost FROM Ingredients WHERE id = ?], [fetchone()] *)
Definition select_cost (id : Z) (d : Database) : option Q :=
  match Ingredients d !! id with
  | Some r => Some (ing_cost r)
  | None => None
  end.

(** [SELECT inventory_qty FROM Ingredients WHERE id = ?], [fetchone()] *)
Definition select_inventory_qty (id : Z) (d : Database) : option Q :=
  match Ingredients d !! id with
  | Some r => Some (inventory_qty r)
  | None => None
  end.

(** [UPDATE Ingredients SET inventory_qty = MAX(0, inventory_qty + ?)
    WHERE id = ?], for a delta and a stored quantity that are finite
    numbers.  [Ieee.update_inventory_qty] below follows the same statement
    when the delta is an infinity or not-a-number, or the stored value is
    [NULL]. *)
Definition adjust_row (delta_qty : Q) (r : IngredientRow) : IngredientRow :=
  set_inventory_qty (sql_max 0 (inventory_qty r + delta_qty)) r.

Definition rowcount (id : Z) (d : Database) : Z :=
  match Ingredients d !! id with Some _ => 1 | None => 0 end.

Definition update_inventory_qty (ingredient_id : Z) (delta_qty : Q) : M Z :=
  let* n := query (rowcount ingredient_id) in
  let* _ := execute (fun d =>
    set_Ingredients (alter (adjust_row delta_qty) ingredient_id (Ingredients d)) d) in
  ret n.

(** What [db.add_ingredient] returns: [cursor.lastrowid] or the string
    ["DUPLICATE_NAME"]. *)
Inductive AddResult :=
| LastRowId (id : Z)
| DUPLICATE_NAME.

Definition name_taken (name : string) (d : Database) : bool :=
  existsb (fun kr => String.eqb (ing_name (snd kr)) name)
          (map_to_list (Ingredients d)).

Definition ingredient_ids (d : Database) : list Z :=
  map fst (map_to_list (Ingredients d)).

Definition add_ingredient (name ingredient_type : string) (cost detail : Q)
    (unit : string) (qty : Q) : M AddResult :=
  let* taken := query (name_taken name) in
  if taken then ret DUPLICATE_NAME
  else
    let* id := query (fun d => next_rowid (ingredient_ids d)) in
    let* _ := execute (fun d =>
      set_Ingredients
        (<[id := mkIngredient name ingredient_type cost detail unit qty]>
           (Ingredients d)) d) in
    ret (LastRowId id).

(** [DELETE FROM Ingredients WHERE id = ?] under
    [FOREIGN KEY (ingredient_id) ... ON DELETE RESTRICT]. *)
Definition referenced (id : Z) (d : Database) : bool :=
  existsb (fun r => ingredient_id r =? id) (Recipe_Details d).

Definition delete_ingredient (ingredient_id : Z) : M Z :=
  let* n := query (rowcount ingredient_id) in
  let* used := query (referenced ingredient_id) in
  if (0 <? n) && used
  then raise (IntegrityError "FOREIGN KEY constraint failed")
  else
    let* _ := execute (fun d =>
      set_Ingredients (delete ingredient_id (Ingredients d)) d) in
    ret n.

(** [INSERT INTO Batch_Log (recipe_name, volume_BBL, final_cost,
    date_brewed) VALUES (?, ?, ?, ?)] *)
Definition log_batch (recipe_name : string) (volume final_cost : Q)
    (date_brewed : string) : M Z :=
  let* id := query (fun d => next_rowid (map batch_id (Batch_Log d))) in
  let* _ := execute (fun d =>
    set_Batch_Log
      (Batch_Log d ++ [mkBatch id recipe_name volume final_cost date_brewed]) d) in
  ret id.

(** [UPDATE Ingredients SET cost = ? WHERE id = ?], the statement of
    [EditDialog._update_ingredient]. *)
Definition update_cost (ingredient_id : Z) (new_cost : Q) : M unit :=
  execute (fun d =>
    set_Ingredients (alter (set_ing_cost new_cost) ingredient_id (Ingredients d)) d).

(* ===================================================================== *)
(** * services.py: scaling, costing and batch commit *)
(* ===================================================================== *)

Definition MIN_VOLUME_BBL : Q := 1 # 2.
Definition COST_MARKUP : Q := 115 # 100.

(** The body of the [for] loop of [scale_recipe], over the fetched rows;
    [scaled_ingredients] is the list being appended to. *)
Fixpoint scale_rows (scale_factor : Q) (original_quantities : list (Z * Q))
    (scaled_ingredients : list Item) : M (list Item) :=
  match original_quantities with
  | [] => ret scaled_ingredients
  | (ing_id, original_qty) :: rest =>
      let scaled_qty := (original_qty * scale_factor)%Q in
      let* row := query (select_name_unit ing_id) in
      match row with
      | None => raise (TypeError "cannot unpack non-iterable NoneType object")
      | Some (ing_name, ing_unit) =>
          scale_rows scale_factor rest
            (scaled_ingredients ++ [mkItem ing_id ing_name scaled_qty ing_unit])
      end
  end.

(** [scale_recipe].  The value [({}, 0)] returned without a connection is
    the empty collection of items and the factor 0. *)
Definition scale_recipe (recipe_id : Z) (original_volume new_volume : Q)
    : M (list Item * Q) :=
  if Qle_bool original_volume MIN_VOLUME_BBL || Qle_bool new_volume MIN_VOLUME_BBL
  then raise (ValueError "Volumes must be greater than zero for scaling.")
  else
    let scale_factor := (new_volume / original_volume)%Q in
    let* conn := connect_db in
    match conn with
    | None => ret ([], 0%Q)
    | Some _ =>
        let* original_quantities := query (select_recipe_details recipe_id) in
        let* scaled_ingredients := scale_rows scale_factor original_quantities [] in
        let* _ := close_db in
        ret (scaled_ingredients, scale_factor)
    end.

(** [calculate_recipe_cost]: the head is [ingredient_list[0]], the
    recursive call is on [ingredient_list[1:]]. *)
Fixpoint calculate_recipe_cost (ingredient_list : list Item) : M Q :=
  match ingredient_list with
  | [] => ret 0%Q
  | head_ingredient :: tail =>
      let ing_id := item_id head_ingredient in
      let qty := item_quantity head_ingredient in
      let* conn := connect_db in
      match conn with
      | None => ret 0%Q
      | Some _ =>
          let* row := query (select_cost ing_id) in
          match row with
          | None => raise (TypeError "'NoneType' object is not subscriptable")
          | Some cost_per_unit =>
              let* _ := close_db in
              let current_cost := (cost_per_unit * qty)%Q in
              let* rest := calculate_recipe_cost tail in
              ret (current_cost + rest)%Q
          end
      end
  end.

Definition insufficient_message (name : string) (qty_needed current_qty : Q)
    : string :=
  "Insufficient inventory of " +:+ name +:+ "! Needs " +:+
  Py.format_2f qty_needed +:+ ", has " +:+ Py.format_2f current_qty +:+ ".".

(** First loop of [calculate_and_log_batch]: [Some message] when the loop
    returns early on a shortfall, [None] when it runs to its end. *)
Fixpoint check_inventory (ingredient_list : list Item) : M (option string) :=
  match ingredient_list with
  | [] => ret None
  | ing :: rest =>
      let ing_id := item_id ing in
      let qty_needed := item_quantity ing in
      let* row := query (select_inventory_qty ing_id) in
      match row with
      | None => raise (TypeError "'NoneType' object is not subscriptable")
      | Some current_qty =>
          if Qlt_le_dec current_qty qty_needed
          then
            let* _ := close_db in
            ret (Some (insufficient_message (item_name ing) qty_needed current_qty))
          else check_inventory rest
      end
  end.

(** Second loop: one [db.update_inventory_qty] per item. *)
Fixpoint consume_inventory (ingredient_list : list Item) : M unit :=
  match ingredient_list with
  | [] => ret tt
  | ing :: rest =>
      let ing_id := item_id ing in
      let qty_consumed := (- item_quantity ing)%Q in
      let* _ := update_inventory_qty ing_id qty_consumed in
      consume_inventory rest
  end.

Definition calculate_and_log_batch (recipe_name : string) (volume final_cost : Q)
    (ingredient_list : list Item) : M (bool * string) :=
  let* conn := connect_db in
  match conn with
  | None => ret (false, "Database connection failed.")
  | Some _ =>
      let* shortfall := check_inventory ingredient_list in
      match shortfall with
      | Some message => ret (false, message)
      | None =>
          let* _ := consume_inventory ingredient_list in
          let* date_str := datetime_now in
          let* _ := log_batch recipe_name volume final_cost date_str in
          let* _ := close_db in
          ret (true, "Batch successfully logged and inventory updated.")
      end
  end.

(* ===================================================================== *)
(** * gui.py: quoting and logging a batch *)
(* ===================================================================== *)

(** A [messagebox] call: title and message. *)
Inductive Dialog :=
| showerror (title message : string)
| showinfo (title message : string).

(** The part of [BreweryApp] the two callbacks read and write.  The text
    of the volume entry is represented by what [float] makes of it ([None]
    when it raises [ValueError]); the list widgets and the cached tables
    are left out.  A text that [float] reads as an infinity or as
    not-a-number has no counterpart here: what follows is about entries
    that are finite numbers or are refused. *)
Record BreweryApp := mkApp {
  current_recipe_id : option Z;
  current_recipe_volume : Q;
  recipe_var : string;
  volume_entry : option Q;
  output_cost_var : string;
  output_scale_factor_var : string;
  output_scaling_details : string;
  scaled_ingredients : option (list Item);
  dialogs : list Dialog
}.

Definition show (d : Dialog) (app : BreweryApp) : BreweryApp :=
  mkApp (current_recipe_id app) (current_recipe_volume app) (recipe_var app)
        (volume_entry app) (output_cost_var app) (output_scale_factor_var app)
        (output_scaling_details app) (scaled_ingredients app)
        (dialogs app ++ [d]).

Definition newline : string := String (ascii_of_nat 10) EmptyString.

(** The loop building [requirements_str]. *)
Fixpoint requirement_lines (acc : string) (items : list Item) : string :=
  match items with
  | [] => acc
  | ing :: rest =>
      requirement_lines
        (acc +:+ "- " +:+ item_name ing +:+ ": " +:+
         Py.format_2f (item_quantity ing) +:+ " " +:+ item_unit ing +:+ newline)
        rest
  end.

(** [str(e)] *)
Definition exc_message (e : PyExc) : string :=
  match e with
  | ValueError m | TypeError m | IntegrityError m => m
  end.

(** [not self.current_recipe_id] *)
Definition no_recipe (id : option Z) : bool :=
  match id with
  | None => true
  | Some i => i =? 0
  end.

(** Steps 1 to 3 inside the [try] of [_scale_and_cost], after the volume
    has been read and checked. *)
Definition quote (app : BreweryApp) (new_volume : Q) : M BreweryApp :=
  let* result :=
    scale_recipe (default 0 (current_recipe_id app))
                 (current_recipe_volume app) new_volume in
  let '(scaled, scale_factor) := result in
  let* total_cost := calculate_recipe_cost scaled in
  let cost_with_markup := (total_cost * COST_MARKUP)%Q in
  let requirements_str := requirement_lines ("Ingredient Requirements:" +:+ newline) scaled in
  ret (mkApp (current_recipe_id app) (current_recipe_volume app)
             (recipe_var app) (volume_entry app)
             ("Final Estimated Cost: $" +:+ Py.format_2f cost_with_markup)
             ("Scaling Factor: " +:+ Py.format_2f scale_factor +:+
              " | Raw Ingredient Cost: $" +:+ Py.format_2f total_cost)
             requirements_str
             (Some scaled)
             (dialogs app)).

(** [BreweryApp._scale_and_cost]: both [except] clauses end in a dialog,
    so the callback itself never raises. *)
Definition _scale_and_cost (app : BreweryApp) : M BreweryApp :=
  if no_recipe (current_recipe_id app)
  then ret (show (showerror "Error" "Please select a recipe first.") app)
  else
    match volume_entry app with
    | None =>
        ret (show (showerror "Input Error"
                     "Please enter a valid numeric value for volume.") app)
    | Some new_volume =>
        if Qle_bool new_volume MIN_VOLUME_BBL
        then ret (show (showerror "Error"
                          "New volume must be greater than 0.5 BBL.") app)
        else
          fun w =>
            match quote app new_volume w with
            | (Returns app', w') => (Returns app', w')
            | (Raises (ValueError _), w') =>
                (Returns (show (showerror "Input Error"
                     "Please enter a valid numeric value for volume.") app), w')
            | (Raises e, w') =>
                (Returns (show (showerror "Process Error"
                     ("An unexpected error occurred: " +:+ exc_message e)) app), w')
            end
    end.

(** The two refreshes after a successful commit: each opens a
    connection and reads. *)
Definition _display_batch_log : M unit := let* _ := connect_db in ret tt.
Definition _load_data : M unit := let* _ := connect_db in ret tt.

(** [BreweryApp._log_batch].  The two [float] calls are outside any
    [try]: their [ValueError] leaves the callback. *)
Definition _log_batch (app : BreweryApp) : M BreweryApp :=
  match scaled_ingredients app with
  | None =>
      ret (show (showerror "Error"
                   "Please scale a recipe before logging a batch.") app)
  | Some items =>
      let recipe_name := recipe_var app in
      match volume_entry app with
      | None => raise (ValueError "could not convert string to float")
      | Some volume =>
          let final_cost_str :=
            Py.replace "," EmptyString
              (Py.replace "Final Estimated Cost: $" EmptyString
                 (output_cost_var app)) in
          match Py.float final_cost_str with
          | None => raise (ValueError "could not convert string to float")
          | Some final_cost =>
              let* result :=
                calculate_and_log_batch recipe_name volume final_cost items in
              let '(success, message) := result in
              if (success : bool)
              then
                let* _ := _display_batch_log in
                let* _ := _load_data in
                ret (show (showinfo "Success" message) app)
              else ret (show (showerror "Batch Failed" message) app)
          end
      end
  end.

(** [calculate_recipe_cost] with the depth of the call stack made
    explicit: [None] when [depth] nested calls do not suffice.  The list is
    taken apart as the source does, by [ingredient_list[0]] and the slice
    [ingredient_list[1:]].  How deep the interpreter lets the stack grow is
    left as the parameter [depth]. *)
Fixpoint calculate_recipe_cost_within (depth : nat) (ingredient_list : list Item)
    (w : World) : option (Outcome Q * World) :=
  match depth with
  | O => None
  | S depth' =>
      match head ingredient_list with
      | None => Some (Returns 0%Q, w)
      | Some head_ingredient =>
          let ing_id := item_id head_ingredient in
          let qty := item_quantity head_ingredient in
          if reachable w then
            match select_cost ing_id (store w) with
            | None =>
                Some (Raises (TypeError "'NoneType' object is not subscriptable"),
                      connected w)
            | Some cost_per_unit =>
                let current_cost := (cost_per_unit * qty)%Q in
                match calculate_recipe_cost_within depth' (drop 1 ingredient_list)
                        (connected w) with
                | None => None
                | Some (Returns rest, w') => Some (Returns (current_cost + rest)%Q, w')
                | Some (Raises e, w') => Some (Raises e, w')
                end
            end
          else Some (Returns 0%Q, connected w)
      end
  end.

(* ===================================================================== *)
(** * Specification vocabulary *)
(* ===================================================================== *)

(** The item's ingredient is stored and its on-hand quantity covers the
    quantity required. *)
Definition covered (d : Database) (it : Item) : Prop :=
  exists row, Ingredients d !! item_id it = Some row /\
              (item_quantity it <= inventory_qty row)%Q.

(** The item's ingredient is stored. *)
Definition known (d : Database) (it : Item) : Prop :=
  is_Some (Ingredients d !! item_id it).

(** Unit cost of a stored ingredient. *)
Definition unit_cost (d : Database) (id : Z) : Q :=
  match Ingredients d !! id with
  | Some row => ing_cost row
  | None => 0%Q
  end.

(** The sum of unit cost times quantity over the items. *)
Definition cost_sum (d : Database) (items : list Item) : Q :=
  foldr (fun it acc => (unit_cost d (item_id it) * item_quantity it + acc)%Q)
        0%Q items.

(** Every composition row references a stored ingredient: the
    [FOREIGN KEY (ingredient_id) REFERENCES Ingredients(id)] constraint. *)
Definition foreign_keys_ok (d : Database) : Prop :=
  forall r, In r (Recipe_Details d) -> is_Some (Ingredients d !! ingredient_id r).

(** No ingredient has a negative on-hand quantity. *)
Definition stock_nonneg (d : Database) : Prop :=
  forall id row, Ingredients d !! id = Some row -> (0 <= inventory_qty row)%Q.

(** Two outcomes agree: the same exception, or equal numbers. *)
Definition same_outcome (a b : Outcome Q) : Prop :=
  match a, b with
  | Returns x, Returns y => (x == y)%Q
  | Raises e, Raises e' => e = e'
  | _, _ => False
  end.

(** A price rounded to whole cents, as [format_2f] prints it. *)
Definition round_2 (p : Q) : Q :=
  ((if Qnum p <? 0 then - Py.cents p else Py.cents p) # 100)%Q.

(** What the second loop does to the table of ingredients. *)
Definition consume (items : list Item) (m : gmap Z IngredientRow)
    : gmap Z IngredientRow :=
  foldl (fun m it => alter (adjust_row (- item_quantity it)) (item_id it) m)
        m items.

(** ** The operations of the system

    The three operations of the core and the gateway mutations the dialogs
    perform.  The dialogs open a connection first and do nothing without
    one. *)
Definition with_connection {A} (m : M A) : M (option A) :=
  let* conn := connect_db in
  match conn with
  | None => ret None
  | Some _ =>
      let* a := m in
      let* _ := close_db in
      ret (Some a)
  end.

Inductive Operation :=
| Scale (recipe_id : Z) (original_volume new_volume : Q)
| TotalCost (items : list Item)
| CommitBatch (recipe_name : string) (volume final_cost : Q) (items : list Item)
| AdjustStock (ingredient_id : Z) (delta_qty : Q)
| UpdateCost (ingredient_id : Z) (new_cost : Q)
| AddIngredient (name ingredient_type : string) (cost detail : Q)
                (unit : string) (qty : Q)
| DeleteIngredient (ingredient_id : Z).

Definition perform (op : Operation) (w : World) : World :=
  match op with
  | Scale r o n => snd (scale_recipe r o n w)
  | TotalCost items => snd (calculate_recipe_cost items w)
  | CommitBatch name v c items => snd (calculate_and_log_batch name v c items w)
  | AdjustStock id delta => snd (with_connection (update_inventory_qty id delta) w)
  | UpdateCost id c => snd (with_connection (update_cost id c) w)
  | AddIngredient n t c d u q => snd (with_connection (add_ingredient n t c d u q) w)
  | DeleteIngredient id => snd (with_connection (delete_ingredient id) w)
  end.

(** The quantity check of [AddDialog._save_ingredient] ([qty < 0] is
    refused before [db.add_ingredient] is reached); the seed data uses 10
    and 20. *)
Definition accepted (op : Operation) : Prop :=
  match op with
  | AddIngredient _ _ _ _ _ qty => (0 <= qty)%Q
  | _ => True
  end.

Definition perform_all (ops : list Operation) (w : World) : World :=
  foldl (fun w op => perform op w) w ops.

(** The output item for one composition row: the row's id, the
    ingredient's stored name and unit, and the scaled quantity. *)
Definition scaled_item (d : Database) (scale_factor : Q) (pair : Z * Q) : Item :=
  mkItem (fst pair)
         (match Ingredients d !! fst pair with
          | Some r => ing_name r
          | None => EmptyString
          end)
         (snd pair * scale_factor)%Q
         (match Ingredients d !! fst pair with
          | Some r => ing_unit r
          | None => EmptyString
          end).

(** How an output item answers a composition pair. *)
Definition scales_pair (d : Database) (scale_factor : Q) (pair : Z * Q)
    (it : Item) : Prop :=
  item_id it = fst pair /\
  item_quantity it = (snd pair * scale_factor)%Q /\
  exists r, Ingredients d !! fst pair = Some r /\
            item_name it = ing_name r /\ item_unit it = ing_unit r.

(** ** Characters of a printed price *)

Definition is_digit (c : ascii) : bool :=
  match c with
  | "0" | "1" | "2" | "3" | "4" | "5" | "6" | "7" | "8" | "9" => true
  | _ => false
  end%char.

Definition price_char (c : ascii) : bool :=
  is_digit c || Ascii.eqb c "." || Ascii.eqb c "-".

Fixpoint all_chars (f : ascii -> bool) (s : string) : bool :=
  match s with
  | EmptyString => true
  | String c s' => f c && all_chars f s'
  end.

(** The two clicks in turn: "Scale & Estimate Cost", then "Log as
    Completed Batch". *)
Definition quote_then_log (app : BreweryApp) : M BreweryApp :=
  let* app1 := _scale_and_cost app in
  _log_batch app1.

(** ** Concrete databases used in the examples *)

Definition pale_malt (qty : Q) : IngredientRow :=
  mkIngredient "Pale Malt" "Fermentable" (99 # 100) 4 "lb" qty.

Definition cascade (qty : Q) : IngredientRow :=
  mkIngredient "Cascade Hops" "Hop" (3 # 2) 6 "oz" qty.

Definition cellar : Database :=
  mkDatabase (<[1 := pale_malt 10]> (<[2 := cascade 5]> ∅))
             [mkDetail 1 1 1; mkDetail 1 2 (5 # 2); mkDetail 2 1 4]
             [].

Definition brewery : World := mkWorld true cellar 0 "2024-05-01 10:00".

Definition brewery_offline : World := mkWorld false cellar 0 "2024-05-01 10:00".


(** The application with recipe 1 selected (base volume 15) and "15"
    typed as the new volume, before any quote. *)
Definition fresh_app : BreweryApp :=
  mkApp (Some 1) 15 "Pale Ale" (Some 15%Q) "Final Cost: $0.00" "--"
        "Select a recipe and enter a volume in BBL to scale." None [].

(** The same application after "Scale & Estimate Cost" in the example
    brewery, and the world it leaves. *)
Definition quoted_app : BreweryApp :=
  match fst (_scale_and_cost fresh_app brewery) with
  | Returns app => app
  | Raises _ => fresh_app
  end.

Definition quoted_world : World := snd (_scale_and_cost fresh_app brewery).

(** The application and the world after "Log as Completed Batch"
    following that quote. *)
Definition logged_app : BreweryApp :=
  match fst (_log_batch quoted_app quoted_world) with
  | Returns app => app
  | Raises _ => quoted_app
  end.

Definition logged_world : World := snd (_log_batch quoted_app quoted_world).

(** The items of recipe 1 scaled from 15 to 15 barrels. *)
Definition pale_ale_items : list Item :=
  [mkItem 1 "Pale Malt" (15 # 15) "lb"; mkItem 2 "Cascade Hops" (75 # 30) "oz"].

(** Eight pounds of malt, which the cellar has, and 5.01 ounces of hops,
    of which it has 5. *)
Definition malt_item : Item := mkItem 1 "Pale Malt" 8 "lb".
Definition hops_item (qty : Q) : Item := mkItem 2 "Cascade Hops" qty "oz".

(** The scenarios of the specification: one malt at 1.00 per unit, 500
    units on hand, 600 units in the recipe at a base volume of 15. *)
Definition malt_a (qty : Q) : IngredientRow :=
  mkIngredient "MaltA" "Fermentable" 1 3 "lb" qty.

Definition scenario : World :=
  mkWorld true (mkDatabase {[ 1 := malt_a 500 ]} [mkDetail 1 1 600] [])
          0 "2024-05-01 10:00".


(** ** Further vocabulary for the gateway *)

(** No two stored ingredients share a name: the [UNIQUE] constraint on
    [Ingredients.name]. *)
Definition names_unique (d : Database) : Prop :=
  forall i j ri rj,
    Ingredients d !! i = Some ri -> Ingredients d !! j = Some rj ->
    ing_name ri = ing_name rj -> i = j.

(** ** The ingredient list as the inventory tab reads it *)

(** [ORDER BY name] under the default [BINARY] collation: the names are
    compared byte by byte in their UTF-8 encoding, a proper prefix coming
    first, which is the order of their characters' codes. *)
Definition by_name (a b : Z * IngredientRow) : Prop :=
  String.leb (ing_name (snd a)) (ing_name (snd b)) = true.

#[global] Instance by_name_dec (a b : Z * IngredientRow) : Decision (by_name a b).
Proof. unfold by_name. apply _. Defined.

(** [db.read_ingredients]:
    [SELECT id, name, type, cost, detail1, unit, inventory_qty
     FROM Ingredients ORDER BY name].  A row is the id with the other six
    columns.  The order among rows of equal name, which SQLite leaves
    open, is that of the scan; [name] is [UNIQUE], so there are none. *)
Definition read_ingredients (d : Database) : list (Z * IngredientRow) :=
  merge_sort by_name (map_to_list (Ingredients d)).

(** ** The batch log as the export and the log tab read it *)

(** [a] comes no later than [b] under [ORDER BY id DESC]. *)
Definition newer (a b : BatchRow) : Prop := batch_id b <= batch_id a.

#[global] Instance newer_dec (a b : BatchRow) : Decision (newer a b).
Proof. unfold newer. apply _. Defined.

(** [db.get_batch_log]:
    [SELECT id, recipe_name, volume_BBL, final_cost, date_brewed
     FROM Batch_Log ORDER BY id DESC]. *)
Definition get_batch_log (d : Database) : list BatchRow :=
  merge_sort newer (Batch_Log d).

(** The ids of the log grow in storage order. *)
Definition log_ids_increasing (d : Database) : Prop :=
  StronglySorted Z.lt (map batch_id (Batch_Log d)).

(** ** Further vocabulary for scaling, costing and commit *)

(** The quantity of ingredient [id] that the items require in all. *)
Definition total_required (id : Z) (items : list Item) : Q :=
  foldr (fun it acc =>
           if item_id it =? id then (item_quantity it + acc)%Q else acc)
        0%Q items.

(** The cost of a composition at its base quantities. *)
Definition composition_cost (d : Database) (pairs : list (Z * Q)) : Q :=
  foldr (fun pair acc => (unit_cost d (fst pair) * snd pair + acc)%Q) 0%Q pairs.

(** ** More Python text primitives, for the dialogs and the list boxes *)

Module PyStr.

(** [c.isspace()] for a character below 256. *)
Definition is_space (c : ascii) : bool :=
  let n := nat_of_ascii c in
  ((9 <=? n) && (n <=? 13) || (28 <=? n) && (n <=? 32) ||
   (n =? 133) || (n =? 160))%nat.

(** [s.lstrip()] *)
Fixpoint lstrip (s : string) : string :=
  match s with
  | EmptyString => EmptyString
  | String c s' => if is_space c then lstrip s' else s
  end.

(** [s.rstrip()] *)
Fixpoint rstrip (s : string) : string :=
  match s with
  | EmptyString => EmptyString
  | String c s' =>
      match rstrip s' with
      | EmptyString => if is_space c then EmptyString else String c EmptyString
      | r => String c r
      end
  end.

(** [s.strip()] *)
Definition strip (s : string) : string := rstrip (lstrip s).

(** [s.split(sep)[0]] for a one-character [sep]: the text before its
    first occurrence, all of [s] when there is none. *)
Fixpoint before (sep : ascii) (s : string) : string :=
  match s with
  | EmptyString => EmptyString
  | String c s' => if Ascii.eqb c sep then EmptyString else String c (before sep s')
  end.

(** The text after the first occurrence of [sep]; [None] without one. *)
Fixpoint after (sep : ascii) (s : string) : option string :=
  match s with
  | EmptyString => None
  | String c s' => if Ascii.eqb c sep then Some s' else after sep s'
  end.

(** [s.split(sep)[1]]: [None] stands for [IndexError]. *)
Definition second_field (sep : ascii) (s : string) : option string :=
  option_map (before sep) (after sep s).

(** [str(z)] and [f"{z}"] for an integer. *)
Definition int_str (z : Z) : string :=
  if z <? 0 then String "-" (Py.dec (- z)) else Py.dec z.

(** [int(s)] on an optional sign followed by decimal digits; [None]
    stands for [ValueError].  Underscores and surrounding blanks are not
    covered: the code strips the text before it converts it. *)
Definition int (s : string) : option Z :=
  match s with
  | EmptyString => None
  | String c s' =>
      if Ascii.eqb c "-" then
        match s' with
        | EmptyString => None
        | _ => option_map (fun n => - Z.of_N n) (Py.digits_value s')
        end
      else if Ascii.eqb c "+" then
        match s' with
        | EmptyString => None
        | _ => option_map Z.of_N (Py.digits_value s')
        end
      else option_map Z.of_N (Py.digits_value s)
  end.

Fixpoint spaces (n : nat) : string :=
  match n with
  | O => EmptyString
  | S n' => String " " (spaces n')
  end.

(** [f"{s:<n}"]: [s] padded with blanks on the right to [n] characters. *)
Definition ljust (n : nat) (s : string) : string :=
  s +:+ spaces (n - String.length s).

End PyStr.

(** ** gui.py: the inventory list box *)

(** The line [_display_inventory] builds for one row of
    [read_ingredients]. *)
Definition display_str (ing_id : Z) (name type_str : string) (cost : Q)
    (unit : string) (qty : Q) : string :=
  "ID:" +:+ PyStr.ljust 3 (PyStr.int_str ing_id) +:+ " | " +:+
  PyStr.ljust 20 name +:+ " (" +:+ type_str +:+ ") | Cost: $" +:+
  Py.format_2f cost +:+ "/" +:+ PyStr.ljust 4 unit +:+ " | Stock: " +:+
  Py.format_2f qty +:+ " " +:+ unit.

(** The id [_on_inventory_edit] and [_delete_selected_ingredient] read
    back from a selected line:
    [int(s.split('|')[0].replace('ID:', '').strip())]. *)
Definition selected_id (selected_item_str : string) : option Z :=
  PyStr.int
    (PyStr.strip
       (Py.replace "ID:" EmptyString (PyStr.before "|" selected_item_str))).

(** The name [_delete_selected_ingredient] reads back:
    [s.split('|')[1].strip().split('(')[0].strip()]. *)
Definition selected_name (selected_item_str : string) : option string :=
  option_map (fun field => PyStr.strip (PyStr.before "(" (PyStr.strip field)))
             (PyStr.second_field "|" selected_item_str).

(** ** gui.py: the dialogs of the inventory tab *)

Module PyCase.

Definition is_upper (c : ascii) : bool :=
  let n := nat_of_ascii c in ((65 <=? n) && (n <=? 90))%nat.

Definition is_lower (c : ascii) : bool :=
  let n := nat_of_ascii c in ((97 <=? n) && (n <=? 122))%nat.

Definition lower_char (c : ascii) : ascii :=
  if is_upper c then ascii_of_nat (nat_of_ascii c + 32) else c.

Definition upper_char (c : ascii) : ascii :=
  if is_lower c then ascii_of_nat (nat_of_ascii c - 32) else c.

(** [s.lower()] on the letters A to Z.  Characters outside ASCII are left
    as they are; the code only compares the result with three ASCII
    words, which no such character can produce. *)
Fixpoint lower (s : string) : string :=
  match s with
  | EmptyString => EmptyString
  | String c s' => String (lower_char c) (lower s')
  end.

(** [s.capitalize()]: first character upper case, the rest lower case. *)
Definition capitalize (s : string) : string :=
  match s with
  | EmptyString => EmptyString
  | String c s' => String (upper_char c) (lower s')
  end.

End PyCase.

(** A [messagebox] call of the inventory tab. *)
Inductive Message :=
| error_box (title message : string)
| info_box (title message : string)
| warning_box (title message : string).

(** The six entries of [AddDialog].  The three numeric entries are
    represented by what [float] makes of their text: a number, or [None]
    for [ValueError].  Texts that [float] reads as an infinity or as
    not-a-number have no counterpart among the rationals and are outside
    the model. *)
Record AddDialog := mkAddDialog {
  entry_Name : string;
  entry_Cost : option Q;
  entry_Unit : string;
  entry_Type : string;
  entry_Detail : option Q;
  entry_Qty : option Q
}.

Definition ingredient_types : list string := ["Fermentable"; "Hop"; "Other"].

Definition is_empty (s : string) : bool :=
  match s with EmptyString => true | _ => false end.

(** [_display_inventory], also the [refresh_callback] of the dialogs:
    the lines of the list box after the call, one for each row read;
    none without a connection. *)
Definition _display_inventory : M (list string) :=
  let* conn := connect_db in
  match conn with
  | None => ret []
  | Some _ =>
      let* inventory := query read_ingredients in
      let* _ := close_db in
      ret (map (fun ing =>
                  let '(ing_id, row) := ing in
                  display_str ing_id (ing_name row) (ing_type row)
                    (ing_cost row) (ing_unit row) (inventory_qty row))
               inventory)
  end.

(** [AddDialog._save_ingredient]: the message box shown, if any. *)
Definition _save_ingredient (e : AddDialog) : M (option Message) :=
  let name := PyStr.strip (entry_Name e) in
  match entry_Cost e, entry_Detail e, entry_Qty e with
  | Some cost, Some detail, Some qty =>
      let unit := PyStr.strip (entry_Unit e) in
      let ing_type := PyStr.strip (entry_Type e) in
      if is_empty name || is_empty unit || is_empty ing_type
      then ret (Some (error_box "Validation Error"
                        "Name, Unit, and Type are required fields."))
      else if Qle_bool cost 0 || negb (Qle_bool 0 qty)
      then ret (Some (error_box "Validation Error"
                        "Cost must be positive and Quantity cannot be negative."))
      else
        let ing_type := PyCase.capitalize (PyCase.lower ing_type) in
        if negb (existsb (String.eqb ing_type) ingredient_types)
        then ret (Some (error_box "Validation Error"
                          "Type must be 'Fermentable', 'Hop', or 'Other'."))
        else
          let* conn := connect_db in
          match conn with
          | None => ret None
          | Some _ =>
              let* result := add_ingredient name ing_type cost detail unit qty in
              let* _ := close_db in
              match result with
              | DUPLICATE_NAME =>
                  ret (Some (error_box "Database Error"
                               ("Ingredient '" +:+ name +:+ "' already exists.")))
              | LastRowId _ =>
                  let* _ := _display_inventory in
                  ret (Some (info_box "Success"
                               ("Ingredient '" +:+ name +:+ "' added successfully.")))
              end
          end
  | _, _, _ =>
      ret (Some (error_box "Input Error"
                   "Please enter valid numbers for Cost, Detail, and Quantity."))
  end.

(** [EditDialog]: the ingredient being edited and its two entries, read
    as those of [AddDialog]. *)
Record EditDialog := mkEditDialog {
  ing_id : Z;
  cost_entry : option Q;
  delta_entry : option Q
}.

(** [EditDialog._update_ingredient]: the message box shown. *)
Definition _update_ingredient (e : EditDialog) : M Message :=
  match cost_entry e, delta_entry e with
  | Some new_cost, Some delta_qty =>
      if Qle_bool new_cost 0
      then ret (error_box "Validation Error" "New cost must be positive.")
      else
        let* conn := connect_db in
        match conn with
        | None => ret (error_box "Error" "Database connection failed.")
        | Some _ =>
            let* _ := update_cost (ing_id e) new_cost in
            let* rows_updated := update_inventory_qty (ing_id e) delta_qty in
            let* _ := close_db in
            if 0 <? rows_updated
            then
              let* _ := _display_inventory in
              ret (info_box "Success"
                     ("Ingredient ID " +:+ PyStr.int_str (ing_id e) +:+
                      " updated successfully."))
            else ret (warning_box "Failed" "Ingredient could not be updated.")
        end
  | _, _ =>
      ret (error_box "Input Error"
             "Please enter valid numbers for cost and stock adjustment.")
  end.

(** [BreweryApp._delete_selected_ingredient], given the selected line of
    the list ([None] without a selection) and the answer to the
    confirmation.  The two [None] branches of the parsers stand for the
    [ValueError] of [int] and the [IndexError] of [split(...)[1]], which
    the [except] clause turns into a dialog. *)
Definition _delete_selected_ingredient (selection : option string)
    (confirmed : bool) : M (option Message) :=
  match selection with
  | None =>
      ret (Some (warning_box "Warning" "Please select an ingredient to delete."))
  | Some selected_item_str =>
      match selected_id selected_item_str with
      | None =>
          ret (Some (error_box "Error"
                 ("An error occurred during deletion: " +:+
                  "invalid literal for int() with base 10: '" +:+
                  PyStr.strip (Py.replace "ID:" EmptyString
                                 (PyStr.before "|" selected_item_str)) +:+ "'")))
      | Some ing_id =>
          match selected_name selected_item_str with
          | None =>
              ret (Some (error_box "Error"
                     "An error occurred during deletion: list index out of range"))
          | Some ing_name =>
              if confirmed then
                let* conn := connect_db in
                match conn with
                | None => ret (Some (error_box "Error" "Database connection failed."))
                | Some _ =>
                    fun w =>
                      match delete_ingredient ing_id w with
                      | (Raises e, w') =>
                          (Returns (Some (error_box "Error"
                             ("An error occurred during deletion: " +:+
                              exc_message e))), w')
                      | (Returns rows_deleted, w') =>
                          if 0 <? rows_deleted
                          then
                            (let* _ := _display_inventory in
                             ret (Some (info_box "Success"
                                    (ing_name +:+ " deleted successfully.")))) w'
                          else
                            (Returns (Some (warning_box "Failed"
                               "Ingredient not found or could not be deleted.")), w')
                      end
                end
              else ret None
          end
      end
  end.

(** Every stored ingredient has a positive cost. *)
Definition costs_positive (d : Database) : Prop :=
  forall id row, Ingredients d !! id = Some row -> (0 < ing_cost row)%Q.

(* ===================================================================== *)
(** * models.py: the ingredient classes and the seed data *)
(* ===================================================================== *)

Module models.

(** An instance of [Ingredient] or of one of its two subclasses, by the
    constructor that made it, with its private attributes. *)
Inductive AnyIngredient :=
| Ingredient (name unit_type : string) (cost_per_unit : Q)
| Fermentable (name unit_type : string) (cost_per_unit color_srm : Q)
| Hop (name unit_type : string) (cost_per_unit alpha_acid : Q).

Definition get_name (self : AnyIngredient) : string :=
  match self with
  | Ingredient name _ _ | Fermentable name _ _ _ | Hop name _ _ _ => name
  end.

Definition get_unit (self : AnyIngredient) : string :=
  match self with
  | Ingredient _ unit _ | Fermentable _ unit _ _ | Hop _ unit _ _ => unit
  end.

Definition get_cost (self : AnyIngredient) : Q :=
  match self with
  | Ingredient _ _ cost | Fermentable _ _ cost _ | Hop _ _ cost _ => cost
  end.

Definition set_cost (new_cost : Q) (self : AnyIngredient) : AnyIngredient :=
  match self with
  | Ingredient name unit _ => Ingredient name unit new_cost
  | Fermentable name unit _ color_srm => Fermentable name unit new_cost color_srm
  | Hop name unit _ alpha_acid => Hop name unit new_cost alpha_acid
  end.

(** [get_details], overridden in both subclasses: name, type, cost,
    detail and unit. *)
Definition get_details (self : AnyIngredient)
    : string * string * Q * Q * string :=
  match self with
  | Ingredient name unit cost => (name, "Base", cost, 0.0%Q, unit)
  | Fermentable _ _ _ color_srm =>
      (get_name self, "Fermentable", get_cost self, color_srm, get_unit self)
  | Hop _ _ _ alpha_acid =>
      (get_name self, "Hop", get_cost self, alpha_acid, get_unit self)
  end.

(** A [Recipe]; [ingredients] is the dict from ingredient id to quantity,
    as its items in insertion order. *)
Record Recipe := mkRecipe {
  __name : string;
  __target_volume_BBL : Q;
  __ingredients : list (Z * Q)
}.

(** [Recipe.get_name]; the plain [get_name] is the one of the ingredient
    classes. *)
Definition Recipe_get_name (self : Recipe) : string := __name self.
Definition get_target_volume (self : Recipe) : Q := __target_volume_BBL self.
Definition get_ingredients (self : Recipe) : list (Z * Q) := __ingredients self.

Definition set_target_volume (new_volume : Q) (self : Recipe) : Recipe :=
  mkRecipe (__name self) new_volume (__ingredients self).

(** [d[k] = v] on the items of a dict: a key already present keeps its
    place and takes the new value, a new key goes last. *)
Fixpoint dict_set (k : Z) (v : Q) (d : list (Z * Q)) : list (Z * Q) :=
  match d with
  | [] => [(k, v)]
  | (k', v') :: rest =>
      if k' =? k then (k', v) :: rest else (k', v') :: dict_set k v rest
  end.

(** A dict display [{ingredient_id_map[n1]: q1, ...}]: the names are
    looked up from left to right; the first one missing from
    [ingredient_id_map] raises [KeyError], returned on the left. *)
Fixpoint dict_display (ingredient_id_map : gmap string Z)
    (entries : list (string * Q)) (d : list (Z * Q)) : string + list (Z * Q) :=
  match entries with
  | [] => inr d
  | (name, qty) :: rest =>
      match ingredient_id_map !! name with
      | None => inl name
      | Some id => dict_display ingredient_id_map rest (dict_set id qty d)
      end
  end.

Definition create_initial_ingredients : list AnyIngredient :=
  [
    Fermentable "Pilsner Malt" "lb" 1.00 2.0;
    Fermentable "Pale Malt" "lb" 1.10 4.0;
    Fermentable "Munich Malt" "lb" 1.20 10.0;
    Fermentable "Crystal Malt 40L" "lb" 1.30 40.0;
    Fermentable "Chocolate Malt" "lb" 1.50 350.0;
    Fermentable "Pumpkin Puree" "lb" 0.75 0.0;
    Fermentable "Oats" "lb" 0.90 1.0;
    Fermentable "Wheat Malt" "lb" 1.15 2.5;
    Fermentable "Flaked Barley" "lb" 0.95 1.0;
    Fermentable "Lactose" "lb" 1.80 0.0;
    Hop "Saaz Hops" "oz" 0.50 3.0;
    Hop "Magnum Hops" "oz" 0.45 12.0;
    Hop "Cascade Hops" "oz" 0.40 5.5;
    Hop "Centennial Hops" "oz" 0.55 10.0;
    Hop "Citra Hops" "oz" 0.60 12.0;
    Hop "Willamette Hops" "oz" 0.48 5.0;
    Hop "Coriander" "oz" 0.30 0.0;
    Hop "Orange Peel" "oz" 0.35 0.0;
    Ingredient "Lager Yeast" "packet" 5.50;
    Ingredient "Ale Yeast" "packet" 5.00;
    Ingredient "Belgian Yeast" "packet" 6.00;
    Ingredient "Coffee Beans" "oz" 0.15;
    Ingredient "Pumpkin Spice Blend" "oz" 0.10;
    Ingredient "Mango Puree" "gal" 12.00
  ]%Q.

Definition base_volume : Q := 15.0.

(** The eleven [recipes.append(Recipe(name, base_volume, {...}))] of
    [create_initial_recipes]: each name with the entries of its dict
    display. *)
Definition menu : list (string * list (string * Q)) :=
  [
    ("Bohemian Pilsner",
      [
       ("Pilsner Malt", 600.0);
       ("Saaz Hops", 15.0);
       ("Lager Yeast", 4.0)
      ]);
    ("American Lager",
      [
       ("Pale Malt", 550.0);
       ("Magnum Hops", 5.0);
       ("Cascade Hops", 8.0);
       ("Lager Yeast", 4.0)
      ]);
    ("Imperial Pumpkin Ale",
      [
       ("Pale Malt", 800.0);
       ("Munich Malt", 120.0);
       ("Pumpkin Puree", 25.0);
       ("Magnum Hops", 10.0);
       ("Willamette Hops", 15.0);
       ("Lactose", 30.0);
       ("Pumpkin Spice Blend", 5.0);
       ("Ale Yeast", 4.0)
      ]);
    ("IPA",
      [
       ("Pale Malt", 750.0);
       ("Crystal Malt 40L", 40.0);
       ("Magnum Hops", 8.0);
       ("Centennial Hops", 30.0);
       ("Citra Hops", 20.0);
       ("Ale Yeast", 4.0)
      ]);
    ("Belgian Witbier",
      [
       ("Wheat Malt", 400.0);
       ("Pale Malt", 250.0);
       ("Coriander", 3.0);
       ("Orange Peel", 3.0);
       ("Magnum Hops", 3.0);
       ("Belgian Yeast", 4.0)
      ]);
    ("Imperial Stout-Nitro",
      [
       ("Pale Malt", 1000.0);
       ("Chocolate Malt", 150.0);
       ("Flaked Barley", 75.0);
       ("Magnum Hops", 15.0);
       ("Ale Yeast", 5.0)
      ]);
    ("Coffee Stout-Nitro",
      [
       ("Pale Malt", 700.0);
       ("Oats", 70.0);
       ("Chocolate Malt", 100.0);
       ("Lactose", 20.0);
       ("Magnum Hops", 6.0);
       ("Coffee Beans", 10.0);
       ("Ale Yeast", 4.0)
      ]);
    ("Oktoberfest",
      [
       ("Munich Malt", 750.0);
       ("Pilsner Malt", 150.0);
       ("Magnum Hops", 8.0);
       ("Saaz Hops", 5.0);
       ("Lager Yeast", 4.0)
      ]);
    ("Mango Wheat",
      [
       ("Wheat Malt", 400.0);
       ("Pale Malt", 300.0);
       ("Citra Hops", 12.0);
       ("Mango Puree", 1.5);
       ("Ale Yeast", 4.0)
      ]);
    ("Bomb Pop Blonde",
      [
       ("Pale Malt", 650.0);
       ("Wheat Malt", 70.0);
       ("Cascade Hops", 10.0);
       ("Ale Yeast", 3.0)
      ]);
    ("Schwarzbier (Coming Soon)",
      [
       ("Pilsner Malt", 450.0);
       ("Munich Malt", 200.0);
       ("Chocolate Malt", 50.0);
       ("Magnum Hops", 7.0);
       ("Lager Yeast", 4.0)
      ])
  ]%Q.

Fixpoint append_recipes (ingredient_id_map : gmap string Z)
    (todo : list (string * list (string * Q))) (recipes : list Recipe)
    : string + list Recipe :=
  match todo with
  | [] => inr recipes
  | (name, entries) :: rest =>
      match dict_display ingredient_id_map entries [] with
      | inl key => inl key
      | inr d =>
          append_recipes ingredient_id_map rest
            (recipes ++ [mkRecipe name base_volume d])
      end
  end.

(** [create_initial_recipes]: the recipes, or the key of the [KeyError]. *)
Definition create_initial_recipes (ingredient_id_map : gmap string Z)
    : string + list Recipe :=
  append_recipes ingredient_id_map menu [].

End models.

(* ===================================================================== *)
(** * db.py: recipes and seeding *)
(* ===================================================================== *)

(** A row of [Recipes], keyed by its [id INTEGER PRIMARY KEY]. *)
Record RecipeRow := mkRecipeRow {
  recipe_row_name : string;
  target_volume_BBL : Q;
  base_cost : Q
}.

(** The database file with its fourth table, which only seeding
    writes. *)
Record Catalog := mkCatalog {
  Recipes : gmap Z RecipeRow;
  file : World
}.

Definition set_file (w : World) (c : Catalog) : Catalog :=
  mkCatalog (Recipes c) w.

Definition set_Recipe_Details (l : list DetailRow) (d : Database) : Database :=
  mkDatabase (Ingredients d) l (Batch_Log d).

Definition recipe_name_taken (name : string) (c : Catalog) : bool :=
  existsb (fun kr => String.eqb (recipe_row_name (snd kr)) name)
          (map_to_list (Recipes c)).

Definition recipe_ids (c : Catalog) : list Z :=
  map fst (map_to_list (Recipes c)).

(** The [for] loop of [add_recipe]: one
    [INSERT INTO Recipe_Details (recipe_id, ingredient_id, quantity)] per
    item.  A pair of ids already stored violates the primary key, an
    ingredient id not stored the foreign key; the row being checked for
    uniqueness when it is written and the foreign key when the statement
    ends, the first takes precedence. *)
Fixpoint insert_details (rid : Z) (ingredient_details : list (Z * Q))
    (d : Database) : PyExc + Database :=
  match ingredient_details with
  | [] => inr d
  | (ing_id, qty) :: rest =>
      if existsb (fun r => (recipe_id r =? rid) && (ingredient_id r =? ing_id))
                 (Recipe_Details d)
      then inl (IntegrityError
                  ("UNIQUE constraint failed: " +:+
                   "Recipe_Details.recipe_id, Recipe_Details.ingredient_id"))
      else
        match Ingredients d !! ing_id with
        | None => inl (IntegrityError "FOREIGN KEY constraint failed")
        | Some _ =>
            insert_details rid rest
              (set_Recipe_Details
                 (Recipe_Details d ++ [mkDetail rid ing_id qty]) d)
        end
  end.

(** [db.add_recipe]: the master row and its details in one transaction.
    An error of SQLite rolls the transaction back and is raised again;
    every other function commits what it writes, so the rollback restores
    the state in which [add_recipe] was called. *)
Definition add_recipe (name : string) (volume base_cost : Q)
    (ingredient_details : list (Z * Q)) (c : Catalog) : Outcome Z * Catalog :=
  if recipe_name_taken name c
  then (Raises (IntegrityError "UNIQUE constraint failed: Recipes.name"), c)
  else
    let recipe_id := next_rowid (recipe_ids c) in
    match insert_details recipe_id ingredient_details (store (file c)) with
    | inl e => (Raises e, c)
    | inr d =>
        (Returns recipe_id,
         mkCatalog (<[recipe_id := mkRecipeRow name volume base_cost]> (Recipes c))
                   (set_store d (file c)))
    end.

(** How [seed_initial_data] can end: it returns [None], or one of the
    lookups or statements raises. *)
Inductive SeedOutcome :=
| ReturnsNone
| SeedRaises (e : PyExc)
| SeedKeyError (key : string).

(** Step 1 of [seed_initial_data]: the loop over the ingredient objects,
    filling [ingredient_id_map]. *)
Fixpoint seed_ingredients (initial_ingredients : list models.AnyIngredient)
    (ingredient_id_map : gmap string Z) : M (gmap string Z) :=
  match initial_ingredients with
  | [] => ret ingredient_id_map
  | ing :: rest =>
      let '(name, type_str, cost, detail, unit) := models.get_details ing in
      let initial_qty := if String.eqb type_str "Base" then 20.0%Q else 10.0%Q in
      let* ing_id := add_ingredient name type_str cost detail unit initial_qty in
      match ing_id with
      | DUPLICATE_NAME => seed_ingredients rest ingredient_id_map
      | LastRowId id => seed_ingredients rest (<[name := id]> ingredient_id_map)
      end
  end.

(** The inner loop of step 2: [base_cost += ing_cost * qty] over the
    items of the recipe. *)
Fixpoint sum_base_cost (items : list (Z * Q)) (base_cost : Q) : M Q :=
  match items with
  | [] => ret base_cost
  | (ing_id, qty) :: rest =>
      let* row := query (select_cost ing_id) in
      match row with
      | None => raise (TypeError "'NoneType' object is not subscriptable")
      | Some ing_cost => sum_base_cost rest (base_cost + ing_cost * qty)%Q
      end
  end.

(** Step 2: one [add_recipe] per recipe object. *)
Fixpoint seed_recipes (initial_recipes : list models.Recipe) (c : Catalog)
    : SeedOutcome * Catalog :=
  match initial_recipes with
  | [] => (ReturnsNone, c)
  | recipe :: rest =>
      match sum_base_cost (models.get_ingredients recipe) 0 (file c) with
      | (Raises e, w) => (SeedRaises e, set_file w c)
      | (Returns base_cost, w) =>
          match add_recipe (models.Recipe_get_name recipe)
                           (models.get_target_volume recipe) base_cost
                           (models.get_ingredients recipe) (set_file w c) with
          | (Raises e, c') => (SeedRaises e, c')
          | (Returns _, c') => seed_recipes rest c'
          end
      end
  end.

(** [db.seed_initial_data], on an open connection. *)
Definition seed_initial_data (c : Catalog) : SeedOutcome * Catalog :=
  match read_ingredients (store (file c)) with
  | _ :: _ => (ReturnsNone, c)
  | [] =>
      match seed_ingredients models.create_initial_ingredients ∅ (file c) with
      | (Raises e, w) => (SeedRaises e, set_file w c)
      | (Returns ingredient_id_map, w) =>
          match models.create_initial_recipes ingredient_id_map with
          | inl key => (SeedKeyError key, set_file w c)
          | inr initial_recipes => seed_recipes initial_recipes (set_file w c)
          end
      end
  end.

(** Every composition row belongs to a stored recipe: the
    [FOREIGN KEY (recipe_id) REFERENCES Recipes(id)] constraint. *)
Definition recipe_keys_ok (c : Catalog) : Prop :=
  forall r, In r (Recipe_Details (store (file c))) ->
            is_Some (Recipes c !! recipe_id r).

(** The id of the stored ingredient with a given name. *)
Definition ingredient_named (name : string) (d : Database) : option Z :=
  option_map fst
    (List.find (fun kr => String.eqb (ing_name (snd kr)) name)
               (read_ingredients d)).

(** Two rationals are the same fraction, numerator and denominator. *)
#[global] Instance Q_eq_dec : EqDecision Q.
Proof. solve_decision. Defined.

(** A database file whose four tables are empty. *)
Definition new_database (c : Catalog) : Prop :=
  Recipes c = ∅ /\ Ingredients (store (file c)) = ∅ /\
  Recipe_Details (store (file c)) = [].

(** A database file just created, with a connection to it, and the same
    after [seed_initial_data]. *)
Definition pristine : Catalog :=
  mkCatalog ∅ (mkWorld true (mkDatabase ∅ [] []) 0 "2024-05-01 10:00").

Definition seeded_catalog : Catalog := snd (seed_initial_data pristine).

(** ** Further examples *)

(** The example brewery with a third ingredient that no recipe uses. *)
Definition coriander (qty : Q) : IngredientRow :=
  mkIngredient "Coriander" "Hop" (3 # 10) 0 "oz" qty.

Definition pantry : World :=
  mkWorld true
    (mkDatabase (<[3 := coriander 2]> (Ingredients cellar))
                (Recipe_Details cellar) [])
    0 "2024-05-01 10:00".

(** The example brewery with the master rows of its two recipes. *)
Definition taproom : Catalog :=
  mkCatalog (<[1 := mkRecipeRow "Pale Ale" 15 (474 # 100)]>
               (<[2 := mkRecipeRow "Malt Bomb" 15 (396 # 100)]> ∅))
            brewery.

(** The application holding the items of an earlier quote while the cost
    display shows its reset text. *)
Definition stale_app : BreweryApp :=
  mkApp (Some 1) 15 "Pale Ale" (Some 15%Q) "Final Cost: $0.00" "--"
        "Select a recipe and enter a volume in BBL to scale."
        (Some pale_ale_items) [].

(** The "Add New Ingredient" and the edit dialog, filled in. *)
Definition citra_dialog : AddDialog :=
  mkAddDialog " Citra Hops " (Some 2%Q) "oz" "hop" (Some 12%Q) (Some 0%Q).

Definition malt_edit : EditDialog := mkEditDialog 1 (Some (5 # 4)) (Some (-3)%Q).

(* ===================================================================== *)
(** * Values that are not rational numbers

    Everywhere else a float and a [REAL] value is a rational.  Python's
    [float] also reads ['inf'], ['-inf'] and ['nan'], the comparisons of
    the dialogs let some of them through, and a column without
    [NOT NULL] can hold [NULL].  This module follows the stock
    adjustment over those values too. *)
(* ===================================================================== *)

Module Ieee.

(** A float that is a number: finite, or one of the two infinities. *)
Inductive Number :=
| Finite (q : Q)
| PosInf
| NegInf.

(** A Python float. *)
Inductive PyFloat :=
| Num (n : Number)
| NaN.

(** The column [inventory_qty REAL DEFAULT 0] is a map from ingredient
    id to its value, [None] for [NULL]; this is the column of a database
    of the rational model. *)
Definition stock_column (d : Database) : gmap Z (option Number) :=
  (fun r => Some (Finite (inventory_qty r))) <$> Ingredients d.

(** A float bound to a [?]: SQLite has no not-a-number and binds it as
    [NULL]. *)
Definition bind_double (x : PyFloat) : option Number :=
  match x with
  | Num n => Some n
  | NaN => None
  end.

(** SQL [a + b] on [REAL] values: [NULL] when either is [NULL] and when
    the sum of the floats is not a number. *)
Definition sql_add (a b : option Number) : option Number :=
  match a, b with
  | Some (Finite x), Some (Finite y) => Some (Finite (x + y))
  | Some PosInf, Some NegInf | Some NegInf, Some PosInf => None
  | Some PosInf, Some _ | Some _, Some PosInf => Some PosInf
  | Some NegInf, Some _ | Some _, Some NegInf => Some NegInf
  | _, _ => None
  end.

(** SQL scalar [MAX(0, x)]: [NULL] when [x] is [NULL]. *)
Definition sql_max_0 (x : option Number) : option Number :=
  match x with
  | None => None
  | Some (Finite q) => Some (Finite (sql_max 0 q))
  | Some PosInf => Some PosInf
  | Some NegInf => Some (Finite 0)
  end.

(** [db.update_inventory_qty] on the column: [cursor.rowcount] and the
    column after the [UPDATE]. *)
Definition update_inventory_qty (ingredient_id : Z) (delta_qty : PyFloat)
    (stock : gmap Z (option Number))
    : Z * gmap Z (option Number) :=
  (match stock !! ingredient_id with Some _ => 1 | None => 0 end,
   alter (fun inventory_qty => sql_max_0 (sql_add inventory_qty (bind_double delta_qty)))
         ingredient_id stock).

(** Python's [x <= 0] on a float: false for not-a-number. *)
Definition le_0 (x : PyFloat) : bool :=
  match x with
  | Num (Finite q) => Qle_bool q 0
  | Num NegInf => true
  | Num PosInf => false
  | NaN => false
  end.

(** What [EditDialog._update_ingredient] does to the column, given what
    [float] makes of its two entries ([None] for [ValueError]) and
    whether the database can be opened.  The cost is checked, the delta
    is not.  A cost that is not a number is bound as [NULL] and, when the
    row exists, violates [cost REAL NOT NULL]: the [UPDATE] raises and
    the stock adjustment is not reached. *)
Definition _update_ingredient (ing_id : Z) (cost_entry delta_entry : option PyFloat)
    (reachable : bool) (stock : gmap Z (option Number))
    : gmap Z (option Number) :=
  match cost_entry, delta_entry with
  | Some new_cost, Some delta_qty =>
      if le_0 new_cost then stock
      else if negb reachable then stock
      else
        match bind_double new_cost, stock !! ing_id with
        | None, Some _ => stock
        | _, _ => snd (update_inventory_qty ing_id delta_qty stock)
        end
  | _, _ => stock
  end.

(** A stored quantity that is a number and at least zero. *)
Definition at_least_zero (x : option Number) : Prop :=
  match x with
  | Some (Finite q) => (0 <= q)%Q
  | Some PosInf => True
  | Some NegInf => False
  | None => False
  end.

End Ieee.

(** ** Proof steps used throughout *)

(** Unfold the monadic plumbing. *)
Ltac munfold :=
  unfold with_connection, update_inventory_qty, update_cost, log_batch,
    bind, ret, raise, query, execute, datetime_now, close_db.

Ltac munfold_in H :=
  unfold with_connection, update_inventory_qty, update_cost, log_batch,
    bind, ret, raise, query, execute, datetime_now, close_db in H.

(** Closed comparisons of rationals, by computation. *)
Ltac qclosed :=
  unfold Qle, Qlt; vm_compute; first [reflexivity | discriminate].

(* ===================================================================== *)
(** * Basic facts about the gateway *)
(* ===================================================================== *)

Lemma connect_db_up w :
  reachable w = true -> connect_db w = (Returns (Some tt), connected w).
Proof. intros H. unfold connect_db. now rewrite H. Qed.

Lemma connect_db_down w :
  reachable w = false -> connect_db w = (Returns None, connected w).
Proof. intros H. unfold connect_db. now rewrite H. Qed.

Lemma sql_max_floor (x : Q) : (0 <= sql_max 0 x)%Q.
Proof.
  unfold sql_max. destruct (Qle_bool 0 x) eqn:E.
  - now apply Qle_bool_iff.
  - apply Qle_refl.
Qed.

Lemma sql_max_nonneg (x : Q) : (0 <= x)%Q -> sql_max 0 x = x.
Proof.
  intros H. unfold sql_max. apply Qle_bool_iff in H. now rewrite H.
Qed.

Lemma sql_max_neg (x : Q) : (x < 0)%Q -> sql_max 0 x = 0%Q.
Proof.
  intros H. unfold sql_max. destruct (Qle_bool 0 x) eqn:E; [|reflexivity].
  apply Qle_bool_iff in E. exfalso. apply (Qlt_not_le _ _ H E).
Qed.

Lemma scale_rows_world sf rows acc w :
  snd (scale_rows sf rows acc w) = w.
Proof.
  revert acc. induction rows as [|[id q] rows IH]; intros acc; simpl.
  - reflexivity.
  - munfold. simpl. destruct (select_name_unit id (store w)) as [[n u]|]; simpl.
    + apply IH.
    + reflexivity.
Qed.

Lemma check_inventory_world items w :
  snd (check_inventory items w) = w.
Proof.
  induction items as [|it items IH]; simpl.
  - reflexivity.
  - munfold. simpl.
    destruct (select_inventory_qty (item_id it) (store w)) as [cur|]; simpl.
    + destruct (Qlt_le_dec cur (item_quantity it)); simpl; [reflexivity|apply IH].
    + reflexivity.
Qed.

Lemma connected_store w : store (connected w) = store w.
Proof. reflexivity. Qed.

Lemma connected_reachable w : reachable (connected w) = reachable w.
Proof. reflexivity. Qed.

(** One step of the recursion of [calculate_recipe_cost]. *)
Lemma calculate_recipe_cost_cons it items w :
  calculate_recipe_cost (it :: items) w =
  if reachable w then
    match select_cost (item_id it) (store w) with
    | None => (Raises (TypeError "'NoneType' object is not subscriptable"),
               connected w)
    | Some c =>
        match calculate_recipe_cost items (connected w) with
        | (Returns rest, w') => (Returns (c * item_quantity it + rest)%Q, w')
        | (Raises e, w') => (Raises e, w')
        end
    end
  else (Returns 0%Q, connected w).
Proof.
  simpl. unfold bind at 1. unfold connect_db.
  destruct (reachable w); [|reflexivity].
  munfold. simpl.
  destruct (select_cost (item_id it) (store w)); reflexivity.
Qed.

(** Costing only reads: the file, its availability and the clock are as
    before. *)
Lemma calculate_recipe_cost_reads items w :
  store (snd (calculate_recipe_cost items w)) = store w /\
  reachable (snd (calculate_recipe_cost items w)) = reachable w /\
  clock (snd (calculate_recipe_cost items w)) = clock w.
Proof.
  revert w. induction items as [|it items IH]; intros w.
  - simpl. auto.
  - rewrite calculate_recipe_cost_cons.
    destruct (reachable w) eqn:Hr; [|simpl; auto].
    destruct (select_cost (item_id it) (store w)) as [c|]; [|simpl; auto].
    specialize (IH (connected w)).
    destruct (calculate_recipe_cost items (connected w)) as [[r|e] w'];
      simpl in *; rewrite Hr in IH; exact IH.
Qed.

Lemma check_inventory_cons it items w :
  check_inventory (it :: items) w =
  match select_inventory_qty (item_id it) (store w) with
  | None => (Raises (TypeError "'NoneType' object is not subscriptable"), w)
  | Some cur =>
      if Qlt_le_dec cur (item_quantity it)
      then (Returns (Some (insufficient_message (item_name it)
                             (item_quantity it) cur)), w)
      else check_inventory items w
  end.
Proof.
  simpl. munfold. simpl.
  destruct (select_inventory_qty (item_id it) (store w)) as [cur|]; [|reflexivity].
  destruct (Qlt_le_dec cur (item_quantity it)); reflexivity.
Qed.

Lemma consume_inventory_run items w :
  consume_inventory items w =
  (Returns tt,
   set_store (set_Ingredients (consume items (Ingredients (store w))) (store w)) w).
Proof.
  revert w. induction items as [|it items IH]; intros w.
  - simpl. unfold ret. destruct w as [r [i rd bl] c k]. reflexivity.
  - simpl. munfold. simpl. rewrite IH. simpl. reflexivity.
Qed.

(** The whole of [calculate_and_log_batch] on a reachable database, in
    terms of its first loop. *)
Lemma calculate_and_log_batch_up name volume cost items w :
  reachable w = true ->
  calculate_and_log_batch name volume cost items w =
  match check_inventory items (connected w) with
  | (Raises e, _) => (Raises e, connected w)
  | (Returns (Some message), _) => (Returns (false, message), connected w)
  | (Returns None, _) =>
      (Returns (true, "Batch successfully logged and inventory updated."),
       set_store
         (mkDatabase
            (consume items (Ingredients (store w)))
            (Recipe_Details (store w))
            (Batch_Log (store w) ++
               [mkBatch (next_rowid (map batch_id (Batch_Log (store w))))
                        name volume cost (clock w)]))
         (connected w))
  end.
Proof.
  intros Hr. unfold calculate_and_log_batch. unfold bind at 1.
  rewrite (connect_db_up w Hr). unfold bind at 1.
  pose proof (check_inventory_world items (connected w)) as Hw.
  destruct (check_inventory items (connected w)) as [[[msg|]|e] w']; simpl in Hw; subst w'.
  - reflexivity.
  - unfold bind at 1. rewrite consume_inventory_run. munfold. simpl. reflexivity.
  - reflexivity.
Qed.

Lemma calculate_and_log_batch_down name volume cost items w :
  reachable w = false ->
  calculate_and_log_batch name volume cost items w =
  (Returns (false, "Database connection failed."), connected w).
Proof.
  intros Hr. unfold calculate_and_log_batch. unfold bind at 1.
  rewrite (connect_db_down w Hr). reflexivity.
Qed.

(* ===================================================================== *)
(** * Batch commit: the insufficient-stock guard *)
(* ===================================================================== *)

Lemma select_inventory_qty_Some d id row :
  Ingredients d !! id = Some row ->
  select_inventory_qty id d = Some (inventory_qty row).
Proof. intros H. unfold select_inventory_qty. now rewrite H. Qed.

(** The first loop stops at the first item whose stock falls short. *)
Lemma check_inventory_first_short pre it post row w :
  Forall (covered (store w)) pre ->
  Ingredients (store w) !! item_id it = Some row ->
  (inventory_qty row < item_quantity it)%Q ->
  check_inventory (pre ++ it :: post) w =
  (Returns (Some (insufficient_message (item_name it) (item_quantity it)
                    (inventory_qty row))), w).
Proof.
  intros Hpre Hrow Hlt. induction Hpre as [|p pre [r [Hr Hle]] _ IH].
  - simpl app. rewrite check_inventory_cons.
    rewrite (select_inventory_qty_Some _ _ _ Hrow).
    destruct (Qlt_le_dec (inventory_qty row) (item_quantity it)) as [_|Hge].
    + reflexivity.
    + exfalso. apply (Qlt_not_le _ _ Hlt Hge).
  - simpl app. rewrite check_inventory_cons.
    rewrite (select_inventory_qty_Some _ _ _ Hr).
    destruct (Qlt_le_dec (inventory_qty r) (item_quantity p)) as [Hlt'|_].
    + exfalso. apply (Qlt_not_le _ _ Hlt' Hle).
    + exact IH.
Qed.


(** Whatever the outcome, a commit that does not report success has left
    the database as it was. *)
Lemma calculate_and_log_batch_all_or_nothing name volume cost items w :
  fst (calculate_and_log_batch name volume cost items w) <>
    Returns (true, "Batch successfully logged and inventory updated.") ->
  store (snd (calculate_and_log_batch name volume cost items w)) = store w.
Proof.
  destruct (reachable w) eqn:Hr.
  - rewrite (calculate_and_log_batch_up _ _ _ _ _ Hr).
    destruct (check_inventory items (connected w)) as [[[msg|]|e] w']; simpl;
      intros H; try reflexivity.
    now contradiction H.
  - rewrite (calculate_and_log_batch_down _ _ _ _ _ Hr). reflexivity.
Qed.


(* ===================================================================== *)
(** * Batch commit: the successful path *)
(* ===================================================================== *)


Lemma consume_cons it items m :
  consume (it :: items) m =
  consume items (alter (adjust_row (- item_quantity it)) (item_id it) m).
Proof. reflexivity. Qed.






(* ===================================================================== *)
(** * Scaling *)
(* ===================================================================== *)

Lemma scale_rows_cons sf id q rest acc w :
  scale_rows sf ((id, q) :: rest) acc w =
  match select_name_unit id (store w) with
  | None => (Raises (TypeError "cannot unpack non-iterable NoneType object"), w)
  | Some (n, u) => scale_rows sf rest (acc ++ [mkItem id n (q * sf)%Q u]) w
  end.
Proof.
  simpl. munfold. simpl.
  destruct (select_name_unit id (store w)) as [[n u]|]; reflexivity.
Qed.

Lemma scale_rows_known sf rows acc w :
  (forall pair, In pair rows -> is_Some (Ingredients (store w) !! fst pair)) ->
  scale_rows sf rows acc w =
  (Returns (acc ++ map (scaled_item (store w) sf) rows), w).
Proof.
  revert acc. induction rows as [|[id q] rows IH]; intros acc Hknown.
  - simpl. unfold ret. now rewrite app_nil_r.
  - rewrite scale_rows_cons. destruct (Hknown (id, q)) as [r Hr]; [now left|].
    simpl in Hr. unfold select_name_unit. rewrite Hr.
    rewrite IH by (intros pair Hin; apply Hknown; now right).
    rewrite <- app_assoc. simpl. unfold scaled_item at 2. simpl. rewrite Hr.
    reflexivity.
Qed.

Lemma select_recipe_details_known rid d :
  foreign_keys_ok d ->
  forall pair, In pair (select_recipe_details rid d) ->
               is_Some (Ingredients d !! fst pair).
Proof.
  intros Hfk pair Hin. unfold select_recipe_details in Hin.
  apply in_map_iff in Hin. destruct Hin as [r [<- Hin]].
  apply list_elem_of_In in Hin.
  rewrite (merge_sort_Permutation by_ingredient_id) in Hin.
  apply list_elem_of_In, filter_In in Hin. destruct Hin as [Hin _].
  simpl. now apply Hfk.
Qed.

(** The rows the query returns are the rows of [Recipe_Details] for the
    recipe, each once. *)
Lemma select_recipe_details_rows rid d :
  Permutation (select_recipe_details rid d)
    (map (fun r => (ingredient_id r, quantity r))
         (List.filter (fun r => recipe_id r =? rid) (Recipe_Details d))).
Proof.
  unfold select_recipe_details. apply Permutation_map.
  apply (merge_sort_Permutation by_ingredient_id).
Qed.

Lemma by_ingredient_id_trans : Transitive by_ingredient_id.
Proof. intros a b c. unfold by_ingredient_id. lia. Qed.

Lemma by_ingredient_id_total : Total by_ingredient_id.
Proof. intros a b. unfold by_ingredient_id. lia. Qed.

(** They come by ascending ingredient id. *)
Lemma select_recipe_details_sorted rid d :
  StronglySorted (fun a b => fst a <= fst b) (select_recipe_details rid d).
Proof.
  unfold select_recipe_details.
  apply (StronglySorted_fmap _ by_ingredient_id); [auto|].
  pose proof by_ingredient_id_trans. pose proof by_ingredient_id_total.
  now apply (StronglySorted_merge_sort by_ingredient_id).
Qed.

Lemma volume_guard_passes ov nv :
  (MIN_VOLUME_BBL < ov)%Q -> (MIN_VOLUME_BBL < nv)%Q ->
  Qle_bool ov MIN_VOLUME_BBL || Qle_bool nv MIN_VOLUME_BBL = false.
Proof.
  intros Ho Hn. apply orb_false_iff. split.
  - destruct (Qle_bool ov MIN_VOLUME_BBL) eqn:E; [|reflexivity].
    apply Qle_bool_iff in E. exfalso. apply (Qlt_not_le _ _ Ho E).
  - destruct (Qle_bool nv MIN_VOLUME_BBL) eqn:E; [|reflexivity].
    apply Qle_bool_iff in E. exfalso. apply (Qlt_not_le _ _ Hn E).
Qed.

Lemma volume_guard_trips ov nv :
  (ov <= MIN_VOLUME_BBL)%Q \/ (nv <= MIN_VOLUME_BBL)%Q ->
  Qle_bool ov MIN_VOLUME_BBL || Qle_bool nv MIN_VOLUME_BBL = true.
Proof.
  intros [H|H]; apply Qle_bool_iff in H; rewrite H; [reflexivity|].
  apply orb_true_r.
Qed.

(** C3.  On a reachable database whose composition rows reference stored
    ingredients, with both volumes strictly above 0.5, [scale_recipe]
    returns the factor [new_volume / original_volume] and, pair by pair
    of the recipe's composition, an item with the pair's ingredient id,
    the quantity [base_qty * scale_factor], and the name and unit stored
    for that ingredient in the database of the call; the database is left
    as it was.  The composition is the rows of [Recipe_Details] with the
    recipe's id, each taken once: every such row has its item, and there
    are as many items as rows. *)
Theorem scale_recipe_scales (rid : Z) (ov nv : Q) (w : World) :
  reachable w = true ->
  foreign_keys_ok (store w) ->
  (MIN_VOLUME_BBL < ov)%Q ->
  (MIN_VOLUME_BBL < nv)%Q ->
  exists items,
    scale_recipe rid ov nv w = (Returns (items, (nv / ov)%Q), connected w) /\
    store (snd (scale_recipe rid ov nv w)) = store w /\
    Forall2 (scales_pair (store w) (nv / ov))
            (select_recipe_details rid (store w)) items /\
    Permutation
      (select_recipe_details rid (store w))
      (map (fun r => (ingredient_id r, quantity r))
           (List.filter (fun r => recipe_id r =? rid)
                        (Recipe_Details (store w)))) /\
    (forall r, In r (Recipe_Details (store w)) -> recipe_id r = rid ->
       exists it row,
         In it items /\
         item_id it = ingredient_id r /\
         item_quantity it = (quantity r * (nv / ov))%Q /\
         Ingredients (store w) !! ingredient_id r = Some row /\
         item_name it = ing_name row /\ item_unit it = ing_unit row) /\
    length items =
      length (List.filter (fun r => recipe_id r =? rid)
                          (Recipe_Details (store w))).
Proof.
  intros Hr Hfk Ho Hn.
  exists (map (scaled_item (store w) (nv / ov))
              (select_recipe_details rid (store w))).
  assert (Hrun : scale_recipe rid ov nv w =
    (Returns (map (scaled_item (store w) (nv / ov))
                  (select_recipe_details rid (store w)), (nv / ov)%Q),
     connected w)).
  { unfold scale_recipe. rewrite (volume_guard_passes _ _ Ho Hn).
    unfold bind at 1. rewrite (connect_db_up w Hr).
    unfold bind at 1. unfold query at 1. unfold bind at 1.
    rewrite scale_rows_known.
    - reflexivity.
    - now apply select_recipe_details_known. }
  rewrite Hrun. split; [reflexivity|]. split; [reflexivity|].
  split; [|split; [apply select_recipe_details_rows|split]].
  - apply Forall2_fmap_r, Forall_Forall2_diag, Forall_forall.
    intros pair Hin. apply list_elem_of_In in Hin.
    destruct (select_recipe_details_known rid _ Hfk pair Hin) as [r Hrow].
    unfold scales_pair, scaled_item. simpl. rewrite Hrow.
    split; [reflexivity|]. split; [reflexivity|]. exists r. auto.
  - intros r Hin Hrid. destruct (Hfk r Hin) as [row Hrow].
    exists (scaled_item (store w) (nv / ov) (ingredient_id r, quantity r)), row.
    split.
    + apply in_map. apply list_elem_of_In.
      rewrite (select_recipe_details_rows rid (store w)).
      apply list_elem_of_In.
      apply (in_map (fun r => (ingredient_id r, quantity r))).
      apply filter_In. split; [exact Hin|now apply Z.eqb_eq].
    + unfold scaled_item. simpl. rewrite Hrow. auto.
  - rewrite length_map.
    rewrite (Permutation_length (select_recipe_details_rows rid (store w))).
    apply length_map.
Qed.

(** C3, an instance: recipe 1 of the example cellar scaled from 15 to 30
    barrels. *)
Lemma scale_recipe_scales_witness :
  exists items,
    scale_recipe 1 15 30 brewery = (Returns (items, (30 / 15)%Q), connected brewery) /\
    store (snd (scale_recipe 1 15 30 brewery)) = store brewery /\
    Forall2 (scales_pair (store brewery) (30 / 15))
            (select_recipe_details 1 (store brewery)) items /\
    map (fun it => (item_id it, item_name it, item_unit it)) items =
      [(1, "Pale Malt", "lb"); (2, "Cascade Hops", "oz")] /\
    length items = 2%nat.
Proof.
  destruct (scale_recipe_scales 1 15 30 brewery)
    as [items (Hrun & Hstore & Hpairs & _ & _ & Hlen)].
  - reflexivity.
  - intros r Hin. simpl in Hin.
    destruct Hin as [<-|[<-|[<-|[]]]]; vm_compute; eauto.
  - reflexivity.
  - reflexivity.
  - exists items. split; [exact Hrun|]. split; [exact Hstore|].
    split; [exact Hpairs|]. split; [|exact Hlen].
    assert (E : fst (scale_recipe 1 15 30 brewery) = Returns (items, (30 / 15)%Q))
      by now rewrite Hrun.
    vm_compute in E. injection E as <-. reflexivity.
Defined.

(** C4.  When either volume is at or below 0.5, [scale_recipe] raises the
    [ValueError] of the volume guard and returns the world untouched: no
    connection was attempted, nothing was read or written.  When both
    volumes are strictly above 0.5 it raises no [ValueError] at all. *)
Theorem scale_recipe_volume_guard (rid : Z) (ov nv : Q) (w : World) :
  ((ov <= MIN_VOLUME_BBL)%Q \/ (nv <= MIN_VOLUME_BBL)%Q ->
   scale_recipe rid ov nv w =
   (Raises (ValueError "Volumes must be greater than zero for scaling."), w)) /\
  ((MIN_VOLUME_BBL < ov)%Q /\ (MIN_VOLUME_BBL < nv)%Q ->
   forall msg, fst (scale_recipe rid ov nv w) <> Raises (ValueError msg)).
Proof.
  split.
  - intros H. unfold scale_recipe. now rewrite (volume_guard_trips _ _ H).
  - intros [Ho Hn] msg. unfold scale_recipe.
    rewrite (volume_guard_passes _ _ Ho Hn).
    unfold bind at 1. unfold connect_db.
    destruct (reachable w); [|simpl; discriminate].
    unfold bind at 1. unfold query at 1. unfold bind at 1.
    pose proof (scale_rows_world (nv / ov)
                  (select_recipe_details rid (store (connected w))) []
                  (connected w)) as Hw.
    generalize (select_recipe_details rid (store (connected w))).
    intros rows. generalize (@nil Item). clear Hw.
    induction rows as [|[id q] rows IH]; intros acc.
    + simpl. discriminate.
    + rewrite scale_rows_cons.
      destruct (select_name_unit id (store (connected w))) as [[n u]|].
      * apply IH.
      * simpl. discriminate.
Qed.

(* ===================================================================== *)
(** * Costing *)
(* ===================================================================== *)

Lemma same_outcome_refl a : same_outcome a a.
Proof. destruct a; simpl; [apply Qeq_refl|reflexivity]. Qed.

Lemma same_outcome_trans a b c :
  same_outcome a b -> same_outcome b c -> same_outcome a c.
Proof.
  destruct a, b, c; simpl; try tauto.
  - apply Qeq_trans.
  - congruence.
Qed.

Lemma select_cost_known d id :
  is_Some (Ingredients d !! id) -> select_cost id d = Some (unit_cost d id).
Proof.
  intros [r Hr]. unfold select_cost, unit_cost. now rewrite Hr.
Qed.

(** On a reachable database holding every ingredient of the list, the
    recursion returns the sum, and has opened one connection per item. *)
Lemma calculate_recipe_cost_sum items w :
  reachable w = true ->
  Forall (known (store w)) items ->
  calculate_recipe_cost items w =
  (Returns (cost_sum (store w) items),
   mkWorld (reachable w) (store w) (length items + connects w) (clock w)).
Proof.
  intros Hr Hknown. revert w Hr Hknown.
  induction items as [|it items IH]; intros w Hr Hknown.
  - simpl. unfold ret. now destruct w.
  - rewrite calculate_recipe_cost_cons, Hr.
    inversion Hknown as [|? ? Hit Hrest]; subst.
    rewrite (select_cost_known _ _ Hit).
    rewrite (IH (connected w)) by assumption. simpl.
    rewrite Hr, Nat.add_succ_r. reflexivity.
Qed.

(** The outcome of costing does not depend on the order of the items:
    permuted lists give equal totals, or fail alike. *)
Lemma calculate_recipe_cost_permutation items items' :
  Permutation items items' ->
  forall w, same_outcome (fst (calculate_recipe_cost items w))
                         (fst (calculate_recipe_cost items' w)).
Proof.
  induction 1 as [|x l l' _ IH|x y l|l l' l'' _ IH1 _ IH2]; intros w.
  - apply same_outcome_refl.
  - rewrite !calculate_recipe_cost_cons.
    destruct (reachable w); [|apply same_outcome_refl].
    destruct (select_cost (item_id x) (store w)) as [c|];
      [|apply same_outcome_refl].
    specialize (IH (connected w)).
    destruct (calculate_recipe_cost l (connected w)) as [[r|e] w1],
             (calculate_recipe_cost l' (connected w)) as [[r'|e'] w2];
      simpl in *; try tauto.
    now rewrite IH.
  - rewrite !calculate_recipe_cost_cons. rewrite !connected_reachable.
    rewrite !connected_store.
    destruct (reachable w); [|apply same_outcome_refl].
    destruct (select_cost (item_id x) (store w)) as [cx|],
             (select_cost (item_id y) (store w)) as [cy|];
      try apply same_outcome_refl.
    destruct (calculate_recipe_cost l (connected (connected w))) as [[r|e] w1];
      simpl; [ring|reflexivity].
  - eapply same_outcome_trans; [apply IH1|apply IH2].
Qed.

(** C5.  [calculate_recipe_cost] of the empty list is 0 and touches
    nothing.  On a reachable database holding every ingredient of the
    list it returns the sum, over the items, of the ingredient's unit
    cost in that database times the item's quantity, and leaves the
    database as it was.  Reordering the items does not change the
    outcome. *)
Theorem calculate_recipe_cost_is_sum (items : list Item) (w : World) :
  calculate_recipe_cost [] w = (Returns 0%Q, w) /\
  (reachable w = true -> Forall (known (store w)) items ->
   fst (calculate_recipe_cost items w) = Returns (cost_sum (store w) items) /\
   store (snd (calculate_recipe_cost items w)) = store w) /\
  (forall items', Permutation items items' ->
   same_outcome (fst (calculate_recipe_cost items w))
                (fst (calculate_recipe_cost items' w))).
Proof.
  split; [reflexivity|]. split.
  - intros Hr Hknown. rewrite (calculate_recipe_cost_sum items w Hr Hknown).
    split; reflexivity.
  - intros items' Hperm. now apply calculate_recipe_cost_permutation.
Qed.

(* ===================================================================== *)
(** * Stock never goes below zero *)
(* ===================================================================== *)

Lemma sql_max_is_max (x : Q) : (sql_max 0 x == Qmax 0 x)%Q.
Proof.
  destruct (Qlt_le_dec x 0) as [Hneg|Hpos].
  - rewrite (sql_max_neg _ Hneg). symmetry. apply Q.max_l.
    now apply Qlt_le_weak.
  - rewrite (sql_max_nonneg _ Hpos). symmetry. now apply Q.max_r.
Qed.

Lemma update_inventory_qty_run id delta w :
  update_inventory_qty id delta w =
  (Returns (rowcount id (store w)),
   set_store (set_Ingredients
                (alter (adjust_row delta) id (Ingredients (store w)))
                (store w)) w).
Proof. reflexivity. Qed.

(** A row seen after a stock adjustment was there before, and either
    kept its quantity or has one at or above zero. *)
Lemma alter_adjust_row_cases delta id (m : gmap Z IngredientRow) k r' :
  alter (adjust_row delta) id m !! k = Some r' ->
  exists r, m !! k = Some r /\
            (inventory_qty r' = inventory_qty r \/ (0 <= inventory_qty r')%Q).
Proof.
  destruct (decide (id = k)) as [->|Hne].
  - rewrite lookup_alter_eq. destruct (m !! k) as [r0|]; simpl; [|discriminate].
    intros [= <-]. exists r0. split; [reflexivity|]. right. apply sql_max_floor.
  - rewrite lookup_alter_ne by exact Hne. intros H. exists r'. auto.
Qed.

Lemma consume_cases items (m : gmap Z IngredientRow) k r' :
  consume items m !! k = Some r' ->
  exists r, m !! k = Some r /\
            (inventory_qty r' = inventory_qty r \/ (0 <= inventory_qty r')%Q).
Proof.
  revert m. induction items as [|it items IH]; intros m.
  - intros H. exists r'. auto.
  - rewrite consume_cons. intros H. apply IH in H.
    destruct H as [r1 [H1 Hq1]]. apply alter_adjust_row_cases in H1.
    destruct H1 as [r [Hr Hq]]. exists r. split; [exact Hr|].
    destruct Hq1 as [Hq1|Hq1]; [|now right].
    rewrite Hq1. exact Hq.
Qed.

Lemma next_rowid_above (ids : list Z) k : In k ids -> k < next_rowid ids.
Proof.
  unfold next_rowid. induction ids as [|i ids IH]; [intros []|].
  simpl. intros [->|Hin]; [lia|]. specialize (IH Hin). lia.
Qed.

(** The rowid given to a new ingredient is not in use. *)
Lemma next_rowid_fresh d :
  Ingredients d !! next_rowid (ingredient_ids d) = None.
Proof.
  destruct (Ingredients d !! next_rowid (ingredient_ids d)) as [r|] eqn:E;
    [|reflexivity].
  exfalso. apply elem_of_map_to_list in E.
  assert (Hin : In (next_rowid (ingredient_ids d)) (ingredient_ids d)).
  { unfold ingredient_ids at 2. apply in_map_iff.
    exists (next_rowid (ingredient_ids d), r). split; [reflexivity|].
    now apply list_elem_of_In. }
  apply next_rowid_above in Hin. lia.
Qed.

Lemma scale_recipe_store rid ov nv w :
  store (snd (scale_recipe rid ov nv w)) = store w.
Proof.
  unfold scale_recipe.
  destruct (Qle_bool ov MIN_VOLUME_BBL || Qle_bool nv MIN_VOLUME_BBL);
    [reflexivity|].
  unfold bind at 1. unfold connect_db.
  destruct (reachable w); [|reflexivity].
  unfold bind at 1. unfold query at 1. unfold bind at 1.
  pose proof (scale_rows_world (nv / ov)
                (select_recipe_details rid (store (connected w))) []
                (connected w)) as Hw.
  destruct (scale_rows (nv / ov)
              (select_recipe_details rid (store (connected w))) []
              (connected w)) as [[l|e] w']; simpl in Hw; subst w'; reflexivity.
Qed.

Lemma with_connection_down {A} (m : M A) w :
  reachable w = false -> with_connection m w = (Returns None, connected w).
Proof.
  intros Hr. unfold with_connection. unfold bind at 1.
  now rewrite (connect_db_down w Hr).
Qed.

Lemma with_connection_up {A} (m : M A) w :
  reachable w = true ->
  snd (with_connection m w) = snd (m (connected w)).
Proof.
  intros Hr. unfold with_connection. unfold bind at 1.
  rewrite (connect_db_up w Hr). munfold.
  destruct (m (connected w)) as [[a|e] w']; reflexivity.
Qed.

(** What an operation can do to the table of ingredients: a row seen
    afterwards was there before with the same quantity, or has a quantity
    at or above zero, or is the row just added. *)
Lemma perform_row_cases op w k r' :
  Ingredients (store (perform op w)) !! k = Some r' ->
  (exists r, Ingredients (store w) !! k = Some r /\
             (inventory_qty r' = inventory_qty r \/ (0 <= inventory_qty r')%Q)) \/
  (Ingredients (store w) !! k = None /\
   exists n t c d u, op = AddIngredient n t c d u (inventory_qty r')).
Proof.
  assert (Hsame : forall w', store w' = store w ->
            Ingredients (store w') !! k = Some r' ->
            (exists r, Ingredients (store w) !! k = Some r /\
               (inventory_qty r' = inventory_qty r \/ (0 <= inventory_qty r')%Q)) \/
            (Ingredients (store w) !! k = None /\
             exists n t c d u, op = AddIngredient n t c d u (inventory_qty r'))).
  { intros w' -> H. left. exists r'. auto. }
  destruct op as [rid ov nv|items|name v c items|id delta|id c
                 |n t c d u q|id]; simpl.
  - apply Hsame, scale_recipe_store.
  - apply Hsame, calculate_recipe_cost_reads.
  - destruct (reachable w) eqn:Hr.
    + rewrite (calculate_and_log_batch_up _ _ _ _ _ Hr).
      destruct (check_inventory items (connected w)) as [[[msg|]|e] w'];
        simpl; try (apply Hsame; reflexivity).
      intros H. left. now apply consume_cases in H.
    + rewrite (calculate_and_log_batch_down _ _ _ _ _ Hr).
      apply Hsame. reflexivity.
  - destruct (reachable w) eqn:Hr.
    + rewrite (with_connection_up _ _ Hr), update_inventory_qty_run. simpl.
      intros H. left. now apply alter_adjust_row_cases in H.
    + rewrite (with_connection_down _ _ Hr). apply Hsame. reflexivity.
  - destruct (reachable w) eqn:Hr.
    + rewrite (with_connection_up _ _ Hr). unfold update_cost, execute. simpl.
      destruct (decide (id = k)) as [->|Hne].
      * rewrite lookup_alter_eq.
        destruct (Ingredients (store w) !! k) as [r0|] eqn:Hk; simpl;
          [|discriminate].
        intros [= <-]. left. exists r0. auto.
      * rewrite lookup_alter_ne by exact Hne. intros H. left. exists r'. auto.
    + rewrite (with_connection_down _ _ Hr). apply Hsame. reflexivity.
  - destruct (reachable w) eqn:Hr.
    + rewrite (with_connection_up _ _ Hr). unfold add_ingredient.
      unfold bind at 1. unfold query at 1.
      destruct (name_taken n (store (connected w)));
        [apply Hsame; reflexivity|].
      munfold. simpl.
      destruct (decide (next_rowid (ingredient_ids (store w)) = k)) as [<-|Hne].
      * rewrite lookup_insert_eq. intros [= <-]. right.
        split; [apply next_rowid_fresh|]. simpl. eauto 10.
      * rewrite lookup_insert_ne by exact Hne. intros H. left. exists r'. auto.
    + rewrite (with_connection_down _ _ Hr). apply Hsame. reflexivity.
  - destruct (reachable w) eqn:Hr.
    + rewrite (with_connection_up _ _ Hr). unfold delete_ingredient.
      unfold bind at 1. unfold query at 1. unfold bind at 1. unfold query at 1.
      destruct ((0 <? rowcount id (store (connected w))) &&
                referenced id (store (connected w)));
        [apply Hsame; reflexivity|].
      munfold. simpl.
      rewrite lookup_delete_Some. intros [_ Hk]. left. exists r'. auto.
    + rewrite (with_connection_down _ _ Hr). apply Hsame. reflexivity.
Qed.

(** Every operation keeps all stocks at or above zero. *)
Lemma perform_keeps_stock_nonneg op w :
  accepted op ->
  stock_nonneg (store w) ->
  stock_nonneg (store (perform op w)).
Proof.
  intros Hacc Hinv k r' H. apply perform_row_cases in H.
  destruct H as [[r [Hr [Hq|Hq]]]|[_ [n [t [c [d [u ->]]]]]]].
  - rewrite Hq. now apply (Hinv k).
  - exact Hq.
  - exact Hacc.
Qed.

Lemma perform_all_keeps_stock_nonneg ops w :
  Forall accepted ops ->
  stock_nonneg (store w) ->
  stock_nonneg (store (perform_all ops w)).
Proof.
  intros Hacc. revert w. induction Hacc as [|op ops Hop _ IH]; intros w Hinv.
  - exact Hinv.
  - simpl. apply IH. now apply perform_keeps_stock_nonneg.
Qed.

Lemma consume_is_Some items (m : gmap Z IngredientRow) k :
  is_Some (m !! k) -> is_Some (consume items m !! k).
Proof.
  revert m. induction items as [|it items IH]; intros m Hk; [exact Hk|].
  rewrite consume_cons. apply IH. apply lookup_alter_is_Some. exact Hk.
Qed.

Lemma perform_Recipe_Details op w :
  Recipe_Details (store (perform op w)) = Recipe_Details (store w).
Proof.
  destruct op as [rid ov nv|items|name v c items|id delta|id c
                 |n t c d u q|id]; simpl.
  - now rewrite scale_recipe_store.
  - now rewrite (proj1 (calculate_recipe_cost_reads items w)).
  - destruct (reachable w) eqn:Hr.
    + rewrite (calculate_and_log_batch_up _ _ _ _ _ Hr).
      now destruct (check_inventory items (connected w)) as [[[msg|]|e] w'].
    + now rewrite (calculate_and_log_batch_down _ _ _ _ _ Hr).
  - destruct (reachable w) eqn:Hr.
    + now rewrite (with_connection_up _ _ Hr).
    + now rewrite (with_connection_down _ _ Hr).
  - destruct (reachable w) eqn:Hr.
    + now rewrite (with_connection_up _ _ Hr).
    + now rewrite (with_connection_down _ _ Hr).
  - destruct (reachable w) eqn:Hr.
    + rewrite (with_connection_up _ _ Hr). unfold add_ingredient.
      unfold bind at 1. unfold query at 1.
      now destruct (name_taken n (store (connected w))).
    + now rewrite (with_connection_down _ _ Hr).
  - destruct (reachable w) eqn:Hr.
    + rewrite (with_connection_up _ _ Hr). unfold delete_ingredient.
      unfold bind at 1. unfold query at 1. unfold bind at 1. unfold query at 1.
      now destruct ((0 <? rowcount id (store (connected w))) &&
                    referenced id (store (connected w))).
    + now rewrite (with_connection_down _ _ Hr).
Qed.

Lemma referenced_In r d : In r (Recipe_Details d) -> referenced (ingredient_id r) d = true.
Proof.
  intros Hin. unfold referenced. apply existsb_exists. exists r.
  split; [exact Hin|]. apply Z.eqb_refl.
Qed.

(** The foreign key of [Recipe_Details] holds after every operation:
    [ON DELETE RESTRICT] keeps referenced ingredients in place. *)
Lemma perform_keeps_foreign_keys op w :
  foreign_keys_ok (store w) -> foreign_keys_ok (store (perform op w)).
Proof.
  intros Hfk r. rewrite perform_Recipe_Details. intros Hin.
  specialize (Hfk r Hin). pose proof (referenced_In r _ Hin) as Href.
  destruct op as [rid ov nv|items|name v c items|id delta|id c
                 |n t c d u q|id]; simpl.
  - now rewrite scale_recipe_store.
  - now rewrite (proj1 (calculate_recipe_cost_reads items w)).
  - destruct (reachable w) eqn:Hr.
    + rewrite (calculate_and_log_batch_up _ _ _ _ _ Hr).
      destruct (check_inventory items (connected w)) as [[[msg|]|e] w'];
        simpl; try exact Hfk.
      now apply consume_is_Some.
    + now rewrite (calculate_and_log_batch_down _ _ _ _ _ Hr).
  - destruct (reachable w) eqn:Hr.
    + rewrite (with_connection_up _ _ Hr), update_inventory_qty_run. simpl.
      now apply lookup_alter_is_Some.
    + now rewrite (with_connection_down _ _ Hr).
  - destruct (reachable w) eqn:Hr.
    + rewrite (with_connection_up _ _ Hr). unfold update_cost, execute. simpl.
      now apply lookup_alter_is_Some.
    + now rewrite (with_connection_down _ _ Hr).
  - destruct (reachable w) eqn:Hr.
    + rewrite (with_connection_up _ _ Hr). unfold add_ingredient.
      unfold bind at 1. unfold query at 1.
      destruct (name_taken n (store (connected w))); [exact Hfk|].
      munfold. simpl. rewrite lookup_insert_is_Some'. now right.
    + now rewrite (with_connection_down _ _ Hr).
  - destruct (reachable w) eqn:Hr.
    + rewrite (with_connection_up _ _ Hr). unfold delete_ingredient.
      unfold bind at 1. unfold query at 1. unfold bind at 1. unfold query at 1.
      destruct ((0 <? rowcount id (store (connected w))) &&
                referenced id (store (connected w))) eqn:Hguard;
        [exact Hfk|].
      munfold. simpl. destruct (decide (id = ingredient_id r)) as [->|Hne].
      * exfalso. simpl in Hguard. rewrite Href in Hguard.
        unfold rowcount in Hguard. destruct Hfk as [x Hx].
        rewrite Hx in Hguard. discriminate.
      * rewrite lookup_delete_ne by exact Hne. exact Hfk.
    + now rewrite (with_connection_down _ _ Hr).
Qed.

(** On the column of a database of rationals and with a finite delta,
    the adjustment over all float values is the adjustment of the
    rational model. *)
Lemma update_inventory_qty_finite id delta w :
  Ieee.update_inventory_qty id (Ieee.Num (Ieee.Finite delta))
    (Ieee.stock_column (store w)) =
  (rowcount id (store w),
   Ieee.stock_column (store (snd (update_inventory_qty id delta w)))).
Proof.
  rewrite update_inventory_qty_run.
  unfold Ieee.update_inventory_qty, Ieee.stock_column.
  f_equal.
  - unfold rowcount. rewrite lookup_fmap.
    now destruct (Ingredients (store w) !! id).
  - simpl. apply map_eq. intros k.
    destruct (decide (id = k)) as [->|Hne].
    + rewrite lookup_alter_eq, !lookup_fmap, lookup_alter_eq.
      now destruct (Ingredients (store w) !! k).
    + now rewrite lookup_alter_ne, !lookup_fmap, lookup_alter_ne by exact Hne.
Qed.

(** C6, as amended.  For a delta that is a finite number and stocks that
    are numbers, [update_inventory_qty] sets the on-hand quantity of a
    stored ingredient to the maximum of 0 and the old quantity plus the
    delta; when the delta takes the stock below zero the new quantity is
    exactly 0.  Whatever the operation, given finite numbers, an
    ingredient whose stock was at or above zero before it still has a
    stock at or above zero after it; and after any sequence of such
    operations every stock is at or above zero, given every stock was so
    before and no ingredient was added with a negative quantity.  The
    rationals of these statements are the finite floats: on them the
    adjustment over all float values, [Ieee.update_inventory_qty], does
    what [update_inventory_qty] does. *)
Theorem stock_floored_at_zero
    (id : Z) (delta : Q) (row : IngredientRow) (op : Operation)
    (ops : list Operation) (w : World) :
  (Ingredients (store w) !! id = Some row ->
   exists row',
     Ingredients (store (snd (update_inventory_qty id delta w))) !! id = Some row' /\
     (inventory_qty row' == Qmax 0 (inventory_qty row + delta))%Q /\
     ((inventory_qty row + delta < 0)%Q -> inventory_qty row' = 0%Q)) /\
  (Ingredients (store w) !! id = Some row -> (0 <= inventory_qty row)%Q ->
   forall row', Ingredients (store (perform op w)) !! id = Some row' ->
                (0 <= inventory_qty row')%Q) /\
  (Forall accepted ops -> stock_nonneg (store w) ->
   stock_nonneg (store (perform_all ops w))) /\
  (Ingredients (store w) !! id = Some row ->
   exists q,
     snd (Ieee.update_inventory_qty id (Ieee.Num (Ieee.Finite delta))
            (Ieee.stock_column (store w))) !! id
       = Some (Some (Ieee.Finite q)) /\
     (q == Qmax 0 (inventory_qty row + delta))%Q /\
     snd (Ieee.update_inventory_qty id (Ieee.Num (Ieee.Finite delta))
            (Ieee.stock_column (store w))) =
       Ieee.stock_column (store (snd (update_inventory_qty id delta w)))).
Proof.
  split; [|split; [|split]].
  - intros Hrow. rewrite update_inventory_qty_run. simpl.
    rewrite lookup_alter_eq, Hrow. simpl.
    eexists. split; [reflexivity|]. simpl. split.
    + apply sql_max_is_max.
    + apply sql_max_neg.
  - intros Hrow Hq row' H. apply perform_row_cases in H.
    destruct H as [[r [Hr [Hq'|Hq']]]|[Hnone _]].
    + rewrite Hq'. rewrite Hrow in Hr. injection Hr as <-. exact Hq.
    + exact Hq'.
    + rewrite Hrow in Hnone. discriminate.
  - apply perform_all_keeps_stock_nonneg.
  - intros Hrow. rewrite update_inventory_qty_finite. cbn [snd].
    exists (sql_max 0 (inventory_qty row + delta)).
    split; [|split; [apply sql_max_is_max|reflexivity]].
    rewrite update_inventory_qty_run. unfold Ieee.stock_column. simpl.
    now rewrite lookup_fmap, lookup_alter_eq, Hrow.
Qed.

(** C6, counterexample.  The edit dialog checks the new cost and not the
    stock adjustment, and [float] reads ['nan'].  With 1.25 as the cost
    and ['nan'] as the adjustment of ingredient 1, whose stock is 10, the
    [UPDATE] stores [NULL]: the quantity is no longer a number at or
    above zero, and it is not the maximum of 0 and anything.  Adding
    ['inf'] and then ['-inf'] ends in [NULL] as well. *)
Lemma nan_delta_stores_null :
  let stock := Ieee.stock_column cellar in
  stock !! 1 = Some (Some (Ieee.Finite 10)) /\
  Ieee.at_least_zero (Some (Ieee.Finite 10)) /\
  Ieee.update_inventory_qty 1 Ieee.NaN stock = (1, <[1 := None]> stock) /\
  Ieee._update_ingredient 1 (Some (Ieee.Num (Ieee.Finite (5 # 4))))
    (Some Ieee.NaN) true stock !! 1 = Some None /\
  snd (Ieee.update_inventory_qty 1 (Ieee.Num Ieee.NegInf)
         (snd (Ieee.update_inventory_qty 1 (Ieee.Num Ieee.PosInf) stock))) !! 1
    = Some None /\
  ~ Ieee.at_least_zero None /\
  ~ (forall delta q q',
       stock !! 1 = Some q -> Ieee.at_least_zero q ->
       snd (Ieee.update_inventory_qty 1 delta stock) !! 1 = Some q' ->
       Ieee.at_least_zero q').
Proof.
  intros stock.
  split; [reflexivity|]. split; [simpl; qclosed|].
  split; [vm_compute; reflexivity|].
  split; [vm_compute; reflexivity|].
  split; [vm_compute; reflexivity|].
  split; [intros []|].
  intros Hall.
  apply (Hall Ieee.NaN (Some (Ieee.Finite 10)) None);
    [reflexivity|simpl; qclosed|vm_compute; reflexivity].
Qed.

(* ===================================================================== *)
(** * An unreachable database *)
(* ===================================================================== *)

Lemma calculate_recipe_cost_down it items w :
  reachable w = false ->
  calculate_recipe_cost (it :: items) w = (Returns 0%Q, connected w).
Proof. intros Hr. now rewrite calculate_recipe_cost_cons, Hr. Qed.

Lemma scale_recipe_down rid ov nv w :
  reachable w = false ->
  (MIN_VOLUME_BBL < ov)%Q -> (MIN_VOLUME_BBL < nv)%Q ->
  scale_recipe rid ov nv w = (Returns ([], 0%Q), connected w).
Proof.
  intros Hr Ho Hn. unfold scale_recipe.
  rewrite (volume_guard_passes _ _ Ho Hn). unfold bind at 1.
  now rewrite (connect_db_down w Hr).
Qed.

(** C8, counterexample.  With the database file out of reach, scaling
    recipe 1 from 15 to 30 barrels returns an empty collection of items
    and the factor 0, and costing one item returns 0: ordinary results,
    not errors. *)
Lemma offline_results_are_ordinary :
  reachable brewery_offline = false /\
  fst (scale_recipe 1 15 30 brewery_offline) = Returns ([], 0%Q) /\
  fst (calculate_recipe_cost [mkItem 1 "Pale Malt" 8 "lb"] brewery_offline)
    = Returns 0%Q.
Proof. repeat split. Qed.

(** C8, as amended.  When the database cannot be opened, none of the
    three operations changes the database.  [calculate_and_log_batch]
    reports failure with the message "Database connection failed.";
    [scale_recipe], given volumes above 0.5, returns no items and the
    factor 0, and [calculate_recipe_cost] of a non-empty list returns 0,
    both as ordinary results. *)
Theorem unreachable_database
    (rid : Z) (ov nv : Q) (name : string) (volume cost : Q)
    (items : list Item) (w : World) :
  reachable w = false ->
  (store (snd (scale_recipe rid ov nv w)) = store w /\
   store (snd (calculate_recipe_cost items w)) = store w /\
   store (snd (calculate_and_log_batch name volume cost items w)) = store w) /\
  calculate_and_log_batch name volume cost items w =
    (Returns (false, "Database connection failed."), connected w) /\
  ((MIN_VOLUME_BBL < ov)%Q -> (MIN_VOLUME_BBL < nv)%Q ->
   scale_recipe rid ov nv w = (Returns ([], 0%Q), connected w)) /\
  (items <> [] -> calculate_recipe_cost items w = (Returns 0%Q, connected w)).
Proof.
  intros Hr. repeat split.
  - apply scale_recipe_store.
  - apply calculate_recipe_cost_reads.
  - now rewrite (calculate_and_log_batch_down _ _ _ _ _ Hr).
  - now apply calculate_and_log_batch_down.
  - now apply scale_recipe_down.
  - intros Hne. destruct items as [|it items]; [contradiction|].
    now apply calculate_recipe_cost_down.
Qed.

(* ===================================================================== *)
(** * Ingredient ids missing from the database *)
(* ===================================================================== *)



(* ===================================================================== *)
(** * Termination of the recursive costing *)
(* ===================================================================== *)

Lemma calculate_recipe_cost_within_enough depth items w :
  (length items < depth)%nat ->
  calculate_recipe_cost_within depth items w =
  Some (calculate_recipe_cost items w).
Proof.
  revert items w. induction depth as [|depth IH]; intros items w Hlt; [lia|].
  destruct items as [|it items].
  - reflexivity.
  - rewrite calculate_recipe_cost_cons. simpl.
    destruct (reachable w); [|reflexivity].
    destruct (select_cost (item_id it) (store w)) as [c|]; [|reflexivity].
    rewrite drop_0, IH by (simpl in Hlt; lia).
    destruct (calculate_recipe_cost items (connected w)) as [[r|e] w'];
      reflexivity.
Qed.

(** C10.  [calculate_recipe_cost] terminates on every list: the slice
    [ingredient_list[1:]] passed to the recursive call is strictly
    shorter than a non-empty list, and a call stack one deeper than the
    list is long is enough for the call to return, with the outcome of
    [calculate_recipe_cost]. *)
Theorem calculate_recipe_cost_terminates (items : list Item) (w : World) :
  (items <> [] -> (length (drop 1 items) < length items)%nat) /\
  calculate_recipe_cost_within (S (length items)) items w =
  Some (calculate_recipe_cost items w).
Proof.
  split.
  - destruct items as [|it items]; [contradiction|].
    intros _. simpl. rewrite drop_0. lia.
  - apply calculate_recipe_cost_within_enough. lia.
Qed.

(* ===================================================================== *)
(** * The text of a price *)
(* ===================================================================== *)

Lemma all_chars_app f a b :
  all_chars f (a +:+ b) = all_chars f a && all_chars f b.
Proof.
  induction a as [|c a IH]; simpl; [reflexivity|].
  now rewrite IH, andb_assoc.
Qed.

Lemma all_chars_impl (f g : ascii -> bool) s :
  (forall c, f c = true -> g c = true) ->
  all_chars f s = true -> all_chars g s = true.
Proof.
  intros Hfg. induction s as [|c s IH]; simpl; [reflexivity|].
  intros H. apply andb_true_iff in H. destruct H as [Hc Hs].
  now rewrite (Hfg c Hc), IH.
Qed.

Lemma string_of_uint_digits d :
  all_chars is_digit (NilEmpty.string_of_uint d) = true.
Proof. induction d; simpl; auto. Qed.

Lemma to_uint_nonnil (n : N) : N.to_uint n <> Decimal.Nil.
Proof.
  destruct n; simpl; [discriminate|].
  apply DecimalPos.Unsigned.to_uint_nonnil.
Qed.

Lemma dec_NilEmpty z :
  Py.dec z = NilEmpty.string_of_uint (N.to_uint (Z.to_N z)).
Proof.
  unfold Py.dec, NilZero.string_of_uint.
  pose proof (to_uint_nonnil (Z.to_N z)) as H.
  destruct (N.to_uint (Z.to_N z)); [contradiction|reflexivity..].
Qed.

Lemma dec_digits z : all_chars is_digit (Py.dec z) = true.
Proof. rewrite dec_NilEmpty. apply string_of_uint_digits. Qed.

Lemma dec_value z : Py.digits_value (Py.dec z) = Some (Z.to_N z).
Proof.
  rewrite dec_NilEmpty. unfold Py.digits_value.
  rewrite NilEmpty.usu. simpl. f_equal. apply DecimalN.Unsigned.of_to.
Qed.

(** The integer part is never empty and begins with a digit. *)
Lemma dec_head z :
  exists c s, Py.dec z = String c s /\ is_digit c = true.
Proof.
  pose proof (dec_digits z) as Hd. rewrite dec_NilEmpty in *.
  pose proof (to_uint_nonnil (Z.to_N z)) as Hn.
  destruct (N.to_uint (Z.to_N z)); [contradiction|..]; simpl in *; eauto.
Qed.

Lemma digit_is_digit z : is_digit (Py.digit z) = true.
Proof.
  destruct z as [|p|p]; [reflexivity| |reflexivity].
  do 4 (destruct p as [p|p|]; try reflexivity).
Qed.

Lemma two_digits_digits z : all_chars is_digit (Py.two_digits z) = true.
Proof.
  unfold Py.two_digits. simpl. now rewrite !digit_is_digit.
Qed.

Lemma two_digits_length z : String.length (Py.two_digits z) = 2%nat.
Proof. reflexivity. Qed.

Lemma two_digits_value z :
  0 <= z < 100 -> Py.digits_value (Py.two_digits z) = Some (Z.to_N z).
Proof.
  intros Hz.
  assert (Hall : forallb
            (fun k => match Py.digits_value (Py.two_digits (Z.of_nat k)) with
                      | Some n => N.eqb n (N.of_nat k)
                      | None => false
                      end) (seq 0 100) = true) by (vm_compute; reflexivity).
  rewrite forallb_forall in Hall.
  specialize (Hall (Z.to_nat z)). rewrite Z2Nat.id in Hall by lia.
  destruct (Py.digits_value (Py.two_digits z)) as [n|].
  - f_equal. rewrite <- Z_nat_N.
    apply N.eqb_eq. apply Hall. apply in_seq. lia.
  - assert (false = true); [|discriminate]. apply Hall. apply in_seq. lia.
Qed.

Lemma digit_not_dot c : is_digit c = true -> Ascii.eqb c "." = false.
Proof.
  destruct c as [[] [] [] [] [] [] [] []]; simpl; intros H;
    solve [reflexivity | discriminate].
Qed.

Lemma digit_not_sign c :
  is_digit c = true -> Ascii.eqb c "-" = false /\ Ascii.eqb c "+" = false.
Proof.
  destruct c as [[] [] [] [] [] [] [] []]; simpl; intros H;
    solve [split; reflexivity | discriminate].
Qed.

Lemma split_dot_digits a b :
  all_chars is_digit a = true ->
  Py.split_dot (a +:+ "." +:+ b) = (a, Some b).
Proof.
  induction a as [|c a IH]; simpl; [reflexivity|].
  intros H. apply andb_true_iff in H. destruct H as [Hc Ha].
  now rewrite (digit_not_dot c Hc), (IH Ha).
Qed.

Lemma round_half_even_nonneg q : (0 <= q)%Q -> 0 <= Py.round_half_even q.
Proof.
  intros Hq. unfold Py.round_half_even.
  assert (Hf : 0 <= Qfloor q).
  { change 0 with (Qfloor 0). now apply Qfloor_resp_le. }
  destruct (Qcompare (q - inject_Z (Qfloor q)) (1 # 2)); [|lia..].
  destruct (Z.even (Qfloor q)); lia.
Qed.

Lemma cents_nonneg p : 0 <= Py.cents p.
Proof.
  apply round_half_even_nonneg.
  apply Qmult_le_0_compat; [apply Qabs_nonneg|discriminate].
Qed.

(** Reading back the digits of a whole number of cents. *)
Lemma unsigned_literal_cents c :
  0 <= c ->
  exists y,
    Py.unsigned_literal (Py.dec (c / 100) +:+ "." +:+ Py.two_digits (c mod 100))
      = Some y /\
    (y == c # 100)%Q.
Proof.
  intros Hc. unfold Py.unsigned_literal.
  rewrite split_dot_digits by apply dec_digits.
  destruct (dec_head (c / 100)) as [c0 [s0 [Hdec _]]].
  assert (Hi : 0 <= c / 100) by (apply Z.div_pos; lia).
  assert (Hf : 0 <= c mod 100 < 100) by (apply Z.mod_pos_bound; lia).
  pose proof (dec_value (c / 100)) as Hv. rewrite Hdec in *.
  rewrite Hv, (two_digits_value _ Hf), two_digits_length.
  eexists. split; [reflexivity|].
  rewrite !Z2N.id by lia.
  unfold Qeq, Qplus, inject_Z. simpl.
  pose proof (Z_div_mod_eq_full c 100). lia.
Qed.

(** [float] gives back the price that [format_2f] printed: the rounded
    one. *)
Lemma float_format_2f p :
  exists y, Py.float (Py.format_2f p) = Some y /\ (y == round_2 p)%Q.
Proof.
  destruct (unsigned_literal_cents (Py.cents p) (cents_nonneg p))
    as [y [Hy Hval]].
  unfold Py.format_2f, round_2. destruct (Qnum p <? 0).
  - exists (- y)%Q. split.
    + simpl. now rewrite Hy.
    + rewrite Hval. reflexivity.
  - exists y. split; [|exact Hval].
    destruct (dec_head (Py.cents p / 100)) as [c0 [s0 [Hdec Hdig]]].
    rewrite Hdec in *. simpl in *.
    destruct (digit_not_sign c0 Hdig) as [-> ->]. exact Hy.
Qed.

Lemma format_2f_chars p : all_chars price_char (Py.format_2f p) = true.
Proof.
  assert (Hbody : all_chars price_char
            (Py.dec (Py.cents p / 100) +:+ "." +:+
             Py.two_digits (Py.cents p mod 100)) = true).
  { rewrite !all_chars_app.
    rewrite (all_chars_impl is_digit price_char (Py.dec _)),
            (all_chars_impl is_digit price_char (Py.two_digits _)).
    - reflexivity.
    - intros c Hc. unfold price_char. now rewrite Hc.
    - apply two_digits_digits.
    - intros c Hc. unfold price_char. now rewrite Hc.
    - apply dec_digits. }
  unfold Py.format_2f. destruct (Qnum p <? 0); [|exact Hbody].
  simpl. exact Hbody.
Qed.

Lemma prefix_app a b : String.prefix a (a +:+ b) = true.
Proof.
  induction a as [|c a IH]; simpl.
  - now destruct b.
  - destruct (ascii_dec c c); [exact IH|contradiction].
Qed.

Lemma replace_from_skip old new a b :
  Py.replace_from old new (a +:+ b) (String.length a) =
  Py.replace_from old new b 0.
Proof. induction a as [|c a IH]; simpl; [reflexivity|exact IH]. Qed.

(** An occurrence at the very start is replaced. *)
Lemma replace_from_prefix c old' new body :
  Py.replace_from (String c old') new (String c old' +:+ body) 0 =
  new +:+ Py.replace_from (String c old') new body 0.
Proof.
  change (String c old' +:+ body) with (String c (old' +:+ body)).
  cbn [Py.replace_from].
  change (String c (old' +:+ body)) with (String c old' +:+ body).
  rewrite prefix_app. cbn [String.length].
  replace (S (String.length old') - 1)%nat with (String.length old') by lia.
  now rewrite replace_from_skip.
Qed.

(** Text without the first character of [old] has no occurrence of it. *)
Lemma replace_from_absent c old' new s :
  all_chars (fun x => negb (Ascii.eqb x c)) s = true ->
  Py.replace_from (String c old') new s 0 = s.
Proof.
  induction s as [|x s IH]; [reflexivity|].
  simpl. intros H. apply andb_true_iff in H. destruct H as [Hx Hs].
  destruct (ascii_dec c x) as [->|_].
  - rewrite Ascii.eqb_refl in Hx. discriminate.
  - now rewrite (IH Hs).
Qed.

(** The two [replace] calls of [_log_batch] strip the label from a
    displayed quote and leave the printed price. *)
Lemma displayed_price_text p :
  Py.replace "," EmptyString
    (Py.replace "Final Estimated Cost: $" EmptyString
       ("Final Estimated Cost: $" +:+ Py.format_2f p)) =
  Py.format_2f p.
Proof.
  unfold Py.replace.
  rewrite (replace_from_prefix "F" "inal Estimated Cost: $" EmptyString
             (Py.format_2f p)).
  change (EmptyString +:+ ?x) with x.
  rewrite (replace_from_absent "F").
  - apply replace_from_absent.
    apply (all_chars_impl price_char); [|apply format_2f_chars].
    intros c. destruct c as [[] [] [] [] [] [] [] []]; simpl; intros H;
      solve [reflexivity | discriminate].
  - apply (all_chars_impl price_char); [|apply format_2f_chars].
    intros c. destruct c as [[] [] [] [] [] [] [] []]; simpl; intros H;
      solve [reflexivity | discriminate].
Qed.

(* ===================================================================== *)
(** * The quoted price and the logged cost *)
(* ===================================================================== *)

(** The outcome of costing depends on the world only through the
    database and its availability. *)
Lemma calculate_recipe_cost_env items w1 w2 :
  reachable w1 = reachable w2 -> store w1 = store w2 ->
  fst (calculate_recipe_cost items w1) = fst (calculate_recipe_cost items w2).
Proof.
  revert w1 w2. induction items as [|it items IH]; intros w1 w2 Hr Hs.
  - reflexivity.
  - specialize (IH (connected w1) (connected w2) Hr Hs).
    rewrite !calculate_recipe_cost_cons, Hr, Hs.
    destruct (reachable w2); [|reflexivity].
    destruct (select_cost (item_id it) (store w2)); [|reflexivity].
    destruct (calculate_recipe_cost items (connected w1)) as [[r1|e1] w1'],
             (calculate_recipe_cost items (connected w2)) as [[r2|e2] w2'];
      simpl in *; congruence.
Qed.

Lemma scale_recipe_reachable rid ov nv w :
  reachable (snd (scale_recipe rid ov nv w)) = reachable w.
Proof.
  unfold scale_recipe.
  destruct (Qle_bool ov MIN_VOLUME_BBL || Qle_bool nv MIN_VOLUME_BBL);
    [reflexivity|].
  unfold bind at 1. unfold connect_db.
  destruct (reachable w) eqn:Hr; [|simpl; now rewrite Hr].
  unfold bind at 1. unfold query at 1. unfold bind at 1.
  pose proof (scale_rows_world (nv / ov)
                (select_recipe_details rid (store (connected w))) []
                (connected w)) as Hw.
  destruct (scale_rows (nv / ov)
              (select_recipe_details rid (store (connected w))) []
              (connected w)) as [[l|e] w']; simpl in Hw; subst w'; simpl;
    now rewrite Hr.
Qed.

(** What a successful quote leaves in the application. *)
Lemma quote_success app nv w app1 w1 :
  quote app nv w = (Returns app1, w1) ->
  exists items sf total,
    fst (scale_recipe (default 0 (current_recipe_id app))
                      (current_recipe_volume app) nv w) = Returns (items, sf) /\
    fst (calculate_recipe_cost items w) = Returns total /\
    scaled_ingredients app1 = Some items /\
    output_cost_var app1 =
      "Final Estimated Cost: $" +:+ Py.format_2f (total * COST_MARKUP) /\
    recipe_var app1 = recipe_var app /\
    volume_entry app1 = volume_entry app.
Proof.
  unfold quote. unfold bind at 1.
  pose proof (scale_recipe_store (default 0 (current_recipe_id app))
                (current_recipe_volume app) nv w) as Hs.
  pose proof (scale_recipe_reachable (default 0 (current_recipe_id app))
                (current_recipe_volume app) nv w) as Hr.
  destruct (scale_recipe (default 0 (current_recipe_id app))
              (current_recipe_volume app) nv w) as [[[items sf]|e] w'];
    [|discriminate].
  simpl in Hs, Hr. unfold bind at 1.
  pose proof (calculate_recipe_cost_env items w' w Hr Hs) as Henv.
  destruct (calculate_recipe_cost items w') as [[total|e] w'']; [|discriminate].
  unfold ret. intros [= <- <-]. exists items, sf, total. simpl in *.
  repeat split; auto.
Qed.

Lemma show_dialogs d app : dialogs (show d app) <> dialogs app.
Proof.
  simpl. intros H. apply (f_equal (@length Dialog)) in H.
  rewrite length_app in H. simpl in H. lia.
Qed.

(** A call of [_scale_and_cost] that shows no dialog is a successful
    quote. *)
Lemma scale_and_cost_quiet app w app1 w1 :
  _scale_and_cost app w = (Returns app1, w1) ->
  dialogs app1 = dialogs app ->
  exists nv, volume_entry app = Some nv /\ quote app nv w = (Returns app1, w1).
Proof.
  unfold _scale_and_cost. intros Hrun Hquiet.
  destruct (no_recipe (current_recipe_id app)).
  { injection Hrun as <- <-. now apply show_dialogs in Hquiet. }
  destruct (volume_entry app) as [nv|].
  2: { injection Hrun as <- <-. now apply show_dialogs in Hquiet. }
  destruct (Qle_bool nv MIN_VOLUME_BBL).
  { injection Hrun as <- <-. now apply show_dialogs in Hquiet. }
  exists nv. split; [reflexivity|].
  destruct (quote app nv w) as [[a|[m|m|m]] w']; injection Hrun as <- <-;
    solve [reflexivity | now apply show_dialogs in Hquiet].
Qed.

(** What [_log_batch] writes when the cost display shows a quote of
    price [p]. *)
Lemma log_batch_records app p w app2 w2 :
  output_cost_var app = "Final Estimated Cost: $" +:+ Py.format_2f p ->
  _log_batch app w = (Returns app2, w2) ->
  Batch_Log (store w2) = Batch_Log (store w) \/
  exists id volume fc,
    (fc == round_2 p)%Q /\
    Batch_Log (store w2) =
    Batch_Log (store w) ++ [mkBatch id (recipe_var app) volume fc (clock w)].
Proof.
  intros Hvar. unfold _log_batch.
  destruct (scaled_ingredients app) as [items|].
  2: { intros [= <- <-]. now left. }
  destruct (volume_entry app) as [volume|]; [|discriminate].
  rewrite Hvar, displayed_price_text.
  destruct (float_format_2f p) as [fc [-> Hfc]].
  unfold bind at 1. destruct (reachable w) eqn:Hr.
  - rewrite (calculate_and_log_batch_up _ _ _ _ _ Hr).
    destruct (check_inventory items (connected w)) as [[[msg|]|e] w'].
    + intros [= <- <-]. now left.
    + intros [= <- <-]. right. exists (next_rowid (map batch_id (Batch_Log (store w)))),
        volume, fc. split; [exact Hfc|reflexivity].
    + discriminate.
  - rewrite (calculate_and_log_batch_down _ _ _ _ _ Hr).
    intros [= <- <-]. now left.
Qed.

(** C7, as amended.  A quote computes the price
    [total_cost * COST_MARKUP], with [COST_MARKUP] = 1.15 and
    [total_cost] the result of [calculate_recipe_cost] on the scaled
    items, and displays it rounded to two decimals.  The [final_cost] of
    a record that [_log_batch] then appends to the batch log is that
    displayed value: the marked-up price rounded to whole cents. *)
Theorem logged_cost_is_rounded_quote
    (app app1 app2 : BreweryApp) (w w1 w2 w3 : World) :
  _scale_and_cost app w = (Returns app1, w1) ->
  dialogs app1 = dialogs app ->
  COST_MARKUP = (115 # 100)%Q /\
  exists items total,
    scaled_ingredients app1 = Some items /\
    fst (calculate_recipe_cost items w) = Returns total /\
    output_cost_var app1 =
      "Final Estimated Cost: $" +:+ Py.format_2f (total * COST_MARKUP) /\
    (_log_batch app1 w2 = (Returns app2, w3) ->
     Batch_Log (store w3) = Batch_Log (store w2) \/
     exists id volume fc,
       (fc == round_2 (total * COST_MARKUP))%Q /\
       Batch_Log (store w3) =
       Batch_Log (store w2) ++
         [mkBatch id (recipe_var app1) volume fc (clock w2)]).
Proof.
  intros Hrun Hquiet. split; [reflexivity|].
  destruct (scale_and_cost_quiet _ _ _ _ Hrun Hquiet) as [nv [_ Hquote]].
  destruct (quote_success _ _ _ _ _ Hquote)
    as [items [sf [total [_ [Hcost [Hitems [Hvar _]]]]]]].
  exists items, total. repeat split; auto.
  intros Hlog. now apply (log_batch_records app1 _ w2 app2 w3).
Qed.

(** C7, counterexample.  In the example brewery the items of recipe 1
    cost 4.74; the quote is 4.74 * 1.15 = 5.451; the record appended by
    [_log_batch] carries 5.45, which is not that price. *)
Lemma logged_cost_drops_the_mills :
  fst (scale_recipe 1 15 15 brewery) = Returns (pale_ale_items, (15 / 15)%Q) /\
  fst (calculate_recipe_cost pale_ale_items brewery) = Returns (426600 # 90000) /\
  map final_cost (Batch_Log (store (snd (quote_then_log fresh_app brewery))))
    = [545 # 100] /\
  ~ (545 # 100 == (426600 # 90000) * COST_MARKUP)%Q.
Proof.
  split; [vm_compute; reflexivity|].
  split; [vm_compute; reflexivity|].
  split; [vm_compute; reflexivity|].
  intros H. vm_compute in H. discriminate.
Qed.

(* ===================================================================== *)
(** * The theorems at work on the example brewery *)
(* ===================================================================== *)



(** [scale_recipe_volume_guard] at concrete inputs. *)
Lemma scale_recipe_volume_guard_witness :
  scale_recipe 1 15 (1 # 2) brewery =
    (Raises (ValueError "Volumes must be greater than zero for scaling."),
     brewery) /\
  forall msg, fst (scale_recipe 1 15 30 brewery) <> Raises (ValueError msg).
Proof.
  split.
  - apply (proj1 (scale_recipe_volume_guard 1 15 (1 # 2) brewery)).
    right. qclosed.
  - apply (proj2 (scale_recipe_volume_guard 1 15 30 brewery)).
    split; reflexivity.
Defined.

(** [calculate_recipe_cost_is_sum] at concrete inputs. *)
Lemma calculate_recipe_cost_is_sum_witness :
  calculate_recipe_cost [] brewery = (Returns 0%Q, brewery) /\
  fst (calculate_recipe_cost [malt_item; hops_item 5] brewery) =
    Returns (cost_sum (store brewery) [malt_item; hops_item 5]) /\
  store (snd (calculate_recipe_cost [malt_item; hops_item 5] brewery)) =
    store brewery /\
  same_outcome (fst (calculate_recipe_cost [malt_item; hops_item 5] brewery))
               (fst (calculate_recipe_cost [hops_item 5; malt_item] brewery)).
Proof.
  destruct (calculate_recipe_cost_is_sum [malt_item; hops_item 5] brewery)
    as [Hnil [Hsum Hperm]].
  split; [exact Hnil|].
  destruct Hsum as [Hval Hstore].
  - reflexivity.
  - repeat constructor; eexists; reflexivity.
  - split; [exact Hval|]. split; [exact Hstore|].
    apply Hperm. apply perm_swap.
Defined.

(** [stock_floored_at_zero] at concrete inputs. *)
Lemma stock_floored_at_zero_witness :
  (exists row',
     Ingredients (store (snd (update_inventory_qty 1 (-12) brewery))) !! 1
       = Some row' /\
     (inventory_qty row' == Qmax 0 (10 + -12))%Q /\
     inventory_qty row' = 0%Q) /\
  (forall row',
     Ingredients (store (perform (AdjustStock 1 (-12)) brewery)) !! 1 = Some row' ->
     (0 <= inventory_qty row')%Q) /\
  stock_nonneg
    (store (perform_all
              [AdjustStock 1 (-12);
               AddIngredient "Citra Hops" "Hop" 2 12 "oz" 0;
               CommitBatch "Pale Ale" 15 (23 # 2) [hops_item 5]]
              brewery)) /\
  (exists q,
     snd (Ieee.update_inventory_qty 1 (Ieee.Num (Ieee.Finite (-12)))
            (Ieee.stock_column (store brewery))) !! 1
       = Some (Some (Ieee.Finite q)) /\
     (q == Qmax 0 (10 + -12))%Q).
Proof.
  destruct (stock_floored_at_zero 1 (-12) (pale_malt 10)
              (AdjustStock 1 (-12))
              [AdjustStock 1 (-12);
               AddIngredient "Citra Hops" "Hop" 2 12 "oz" 0;
               CommitBatch "Pale Ale" 15 (23 # 2) [hops_item 5]]
              brewery) as [Hadj [Hone [Hall Hcol]]].
  split; [|split; [|split]].
  - destruct Hadj as [row' [Hrow [Hmax Hzero]]]; [reflexivity|].
    exists row'. split; [exact Hrow|]. split; [exact Hmax|].
    apply Hzero. reflexivity.
  - apply Hone; [reflexivity|]. qclosed.
  - apply Hall.
    + repeat constructor. qclosed.
    + intros id row Hrow.
      destruct (decide (id = 1)) as [->|H1].
      { vm_compute in Hrow. injection Hrow as <-. qclosed. }
      destruct (decide (id = 2)) as [->|H2].
      { vm_compute in Hrow. injection Hrow as <-. qclosed. }
      exfalso. unfold brewery, cellar in Hrow. simpl in Hrow.
      rewrite !lookup_insert_ne in Hrow by congruence.
      rewrite lookup_empty in Hrow. discriminate.
  - destruct Hcol as [q [Hq [Hmax _]]]; [reflexivity|].
    exists q. split; [exact Hq|exact Hmax].
Defined.

(** [logged_cost_is_rounded_quote] at concrete inputs. *)
Lemma logged_cost_is_rounded_quote_witness :
  COST_MARKUP = (115 # 100)%Q /\
  exists items total,
    scaled_ingredients quoted_app = Some items /\
    fst (calculate_recipe_cost items brewery) = Returns total /\
    output_cost_var quoted_app =
      "Final Estimated Cost: $" +:+ Py.format_2f (total * COST_MARKUP) /\
    (Batch_Log (store logged_world) = Batch_Log (store quoted_world) \/
     exists id volume fc,
       (fc == round_2 (total * COST_MARKUP))%Q /\
       Batch_Log (store logged_world) =
       Batch_Log (store quoted_world) ++
         [mkBatch id (recipe_var quoted_app) volume fc (clock quoted_world)]).
Proof.
  destruct (logged_cost_is_rounded_quote fresh_app quoted_app logged_app
              brewery quoted_world quoted_world logged_world)
    as [Hmark [items [total [Hitems [Hcost [Hvar Hlog]]]]]].
  - vm_compute. reflexivity.
  - reflexivity.
  - split; [exact Hmark|]. exists items, total.
    split; [exact Hitems|]. split; [exact Hcost|]. split; [exact Hvar|].
    apply Hlog. vm_compute. reflexivity.
Defined.

(** [unreachable_database] at concrete inputs. *)
Lemma unreachable_database_witness :
  (store (snd (scale_recipe 1 15 30 brewery_offline)) = store brewery_offline /\
   store (snd (calculate_recipe_cost [malt_item] brewery_offline))
     = store brewery_offline /\
   store (snd (calculate_and_log_batch "Pale Ale" 15 (23 # 2) [malt_item]
                 brewery_offline)) = store brewery_offline) /\
  calculate_and_log_batch "Pale Ale" 15 (23 # 2) [malt_item] brewery_offline =
    (Returns (false, "Database connection failed."), connected brewery_offline) /\
  scale_recipe 1 15 30 brewery_offline =
    (Returns ([], 0%Q), connected brewery_offline) /\
  calculate_recipe_cost [malt_item] brewery_offline =
    (Returns 0%Q, connected brewery_offline).
Proof.
  destruct (unreachable_database 1 15 30 "Pale Ale" 15 (23 # 2) [malt_item]
              brewery_offline) as [Hstores [Hcommit [Hscale Hcost]]].
  - reflexivity.
  - split; [exact Hstores|]. split; [exact Hcommit|]. split.
    + apply Hscale; reflexivity.
    + apply Hcost. discriminate.
Defined.


(** [calculate_recipe_cost_terminates] at concrete inputs. *)
Lemma calculate_recipe_cost_terminates_witness :
  (length (drop 1 [malt_item; hops_item 5]) < length [malt_item; hops_item 5])%nat /\
  calculate_recipe_cost_within 3 [malt_item; hops_item 5] brewery =
  Some (calculate_recipe_cost [malt_item; hops_item 5] brewery).
Proof.
  destruct (calculate_recipe_cost_terminates [malt_item; hops_item 5] brewery)
    as [Hlen Hrun].
  split; [apply Hlen; discriminate|exact Hrun].
Defined.

(* ===================================================================== *)
(** * The scenarios of the specification *)
(* ===================================================================== *)

(** Base volume 15, composition {MaltA: 600}, target 30: factor 2 and
    1200 of MaltA. *)
Example scenario_scale :
  exists qty sf,
    fst (scale_recipe 1 15 30 scenario) =
      Returns ([mkItem 1 "MaltA" qty "lb"], sf) /\
    (sf == 2)%Q /\ (qty == 1200)%Q.
Proof. eexists. eexists. split; [vm_compute; reflexivity|]. split; reflexivity. Qed.

(** Unit cost 1.00 and quantity 600: total cost 600, quoted 690.00. *)
Example scenario_cost :
  exists total,
    fst (calculate_recipe_cost [mkItem 1 "MaltA" 600 "lb"] scenario) =
      Returns total /\
    (total == 600)%Q /\
    Py.format_2f (total * COST_MARKUP) = "690.00".
Proof. eexists. split; [vm_compute; reflexivity|]. split; reflexivity. Qed.

(** On hand 500, required 600: the commit fails, reports both figures,
    and the stock remains 500. *)
Example scenario_shortfall :
  let out := calculate_and_log_batch "Stout" 15 690 [mkItem 1 "MaltA" 600 "lb"]
               scenario in
  fst out = Returns (false,
              "Insufficient inventory of MaltA! Needs 600.00, has 500.00.") /\
  Ingredients (store (snd out)) !! 1 = Some (malt_a 500) /\
  Batch_Log (store (snd out)) = [].
Proof. repeat split. Qed.

(* ===================================================================== *)
(** * The gateway: adding, deleting and adjusting ingredients *)
(* ===================================================================== *)

Lemma name_taken_spec name d :
  name_taken name d = true <->
  exists id row, Ingredients d !! id = Some row /\ ing_name row = name.
Proof.
  unfold name_taken. rewrite existsb_exists. split.
  - intros [[id row] [Hin Heq]]. exists id, row. split.
    + apply elem_of_map_to_list. now apply list_elem_of_In.
    + now apply String.eqb_eq.
  - intros [id [row [Hrow Heq]]]. exists (id, row). split.
    + apply list_elem_of_In. now apply elem_of_map_to_list.
    + now apply String.eqb_eq.
Qed.

Lemma name_free_spec name d :
  name_taken name d = false <->
  forall id row, Ingredients d !! id = Some row -> ing_name row <> name.
Proof.
  split.
  - intros Hfree id row Hrow Heq.
    assert (name_taken name d = true) by (apply name_taken_spec; eauto).
    congruence.
  - intros Hall. destruct (name_taken name d) eqn:E; [|reflexivity].
    apply name_taken_spec in E. destruct E as [id [row [Hrow Heq]]].
    now destruct (Hall id row Hrow).
Qed.

Lemma world_eta w :
  set_store (set_Ingredients (Ingredients (store w)) (store w)) w = w.
Proof. destruct w as [r [i rd bl] c k]. reflexivity. Qed.

(** [add_ingredient] keeps names unique and reads back what it stored.
    With a name already stored it returns ["DUPLICATE_NAME"] and leaves
    everything as it was.  With a new name it stores the row under a
    rowid that was not in use and returns that rowid; reading it back
    gives the row supplied, and nothing else in the database changes. *)
Theorem add_ingredient_round_trip
    (name ingredient_type unit : string) (cost detail qty : Q) (w : World) :
  ((exists id row, Ingredients (store w) !! id = Some row /\ ing_name row = name) ->
   add_ingredient name ingredient_type cost detail unit qty w =
   (Returns DUPLICATE_NAME, w)) /\
  ((forall id row, Ingredients (store w) !! id = Some row -> ing_name row <> name) ->
   exists id w',
     add_ingredient name ingredient_type cost detail unit qty w =
       (Returns (LastRowId id), w') /\
     Ingredients (store w) !! id = None /\
     Ingredients (store w') !! id =
       Some (mkIngredient name ingredient_type cost detail unit qty) /\
     (forall k, k <> id ->
        Ingredients (store w') !! k = Ingredients (store w) !! k) /\
     Recipe_Details (store w') = Recipe_Details (store w) /\
     Batch_Log (store w') = Batch_Log (store w)).
Proof.
  split.
  - intros Htaken. apply name_taken_spec in Htaken.
    unfold add_ingredient. unfold bind at 1. unfold query at 1.
    now rewrite Htaken.
  - intros Hfree. apply name_free_spec in Hfree.
    exists (next_rowid (ingredient_ids (store w))). eexists.
    unfold add_ingredient. unfold bind at 1. unfold query at 1.
    rewrite Hfree. munfold. simpl.
    split; [reflexivity|]. split; [apply next_rowid_fresh|].
    split; [apply lookup_insert_eq|].
    split; [|split; reflexivity].
    intros k Hk. now apply lookup_insert_ne.
Qed.

(** [delete_ingredient] refuses an ingredient a recipe uses: it raises
    the integrity error of [ON DELETE RESTRICT] and changes nothing.
    Otherwise it removes that row alone and returns how many rows went:
    1 when the ingredient was stored, 0 when it was not. *)
Theorem delete_ingredient_restricts (id : Z) (w : World) :
  (is_Some (Ingredients (store w) !! id) ->
   (exists r, In r (Recipe_Details (store w)) /\ ingredient_id r = id) ->
   delete_ingredient id w =
   (Raises (IntegrityError "FOREIGN KEY constraint failed"), w)) /\
  ((forall r, In r (Recipe_Details (store w)) -> ingredient_id r <> id) ->
   exists w',
     delete_ingredient id w =
       (Returns (match Ingredients (store w) !! id with
                 | Some _ => 1
                 | None => 0
                 end), w') /\
     Ingredients (store w') !! id = None /\
     (forall k, k <> id ->
        Ingredients (store w') !! k = Ingredients (store w) !! k) /\
     Recipe_Details (store w') = Recipe_Details (store w) /\
     Batch_Log (store w') = Batch_Log (store w)).
Proof.
  split.
  - intros [row Hrow] [r [Hin Hid]]. unfold delete_ingredient.
    unfold bind at 1. unfold query at 1. unfold bind at 1. unfold query at 1.
    subst id. rewrite (referenced_In r _ Hin).
    unfold rowcount. now rewrite Hrow.
  - intros Hfree. eexists. unfold delete_ingredient.
    unfold bind at 1. unfold query at 1. unfold bind at 1. unfold query at 1.
    assert (Href : referenced id (store w) = false).
    { unfold referenced. destruct (existsb _ _) eqn:E; [|reflexivity].
      apply existsb_exists in E. destruct E as [r [Hin Heq]].
      apply Z.eqb_eq in Heq. now destruct (Hfree r Hin). }
    rewrite Href, andb_false_r. munfold. simpl.
    split; [unfold rowcount; now destruct (Ingredients (store w) !! id)|].
    split; [apply lookup_delete_eq|].
    split; [|split; reflexivity].
    intros k Hk. now apply lookup_delete_ne.
Qed.

(** The row count returned by [update_inventory_qty] tells whether the
    ingredient exists: 1 for a stored id, and for an id that is not
    stored 0, with the world left exactly as it was. *)
Lemma update_inventory_qty_rowcount (id : Z) (delta : Q) (w : World) :
  (is_Some (Ingredients (store w) !! id) ->
   fst (update_inventory_qty id delta w) = Returns 1) /\
  (Ingredients (store w) !! id = None ->
   update_inventory_qty id delta w = (Returns 0, w)).
Proof.
  rewrite update_inventory_qty_run. unfold rowcount. split.
  - intros [row Hrow]. now rewrite Hrow.
  - intros Hnone. rewrite Hnone, alter_id' by exact Hnone.
    now rewrite world_eta.
Qed.

(** Taking [q] out of a stock and putting [q] back gives the larger of
    the old stock and [q]: the stock is restored exactly when it covered
    the withdrawal, and the overdraw absorbed by the zero floor is not
    taken back. *)
Theorem consume_then_restock (id : Z) (q : Q) (row : IngredientRow) (w : World) :
  Ingredients (store w) !! id = Some row ->
  (0 <= q)%Q ->
  let w1 := snd (update_inventory_qty id (- q) w) in
  let w2 := snd (update_inventory_qty id q w1) in
  exists row',
    Ingredients (store w2) !! id = Some row' /\
    (inventory_qty row' == Qmax (inventory_qty row) q)%Q.
Proof.
  intros Hrow Hq w1 w2. subst w1 w2. rewrite !update_inventory_qty_run. simpl.
  rewrite !lookup_alter_eq, Hrow. simpl. eexists. split; [reflexivity|].
  simpl. destruct (Qlt_le_dec (inventory_qty row + - q) 0) as [Hneg|Hpos].
  - rewrite (sql_max_neg _ Hneg). rewrite sql_max_nonneg by lra.
    rewrite Q.max_r by lra. ring.
  - rewrite (sql_max_nonneg _ Hpos). rewrite sql_max_nonneg by lra.
    rewrite Q.max_l by lra. ring.
Qed.

Lemma alter_keeps_name (f : IngredientRow -> IngredientRow) i
    (m : gmap Z IngredientRow) k r' :
  (forall r, ing_name (f r) = ing_name r) ->
  alter f i m !! k = Some r' ->
  exists r, m !! k = Some r /\ ing_name r' = ing_name r.
Proof.
  intros Hf. destruct (decide (i = k)) as [->|Hne].
  - rewrite lookup_alter_eq. destruct (m !! k) as [r0|]; simpl; [|discriminate].
    intros [= <-]. exists r0. split; [reflexivity|apply Hf].
  - rewrite lookup_alter_ne by exact Hne. intros H. exists r'. auto.
Qed.

Lemma consume_keeps_name items (m : gmap Z IngredientRow) k r' :
  consume items m !! k = Some r' ->
  exists r, m !! k = Some r /\ ing_name r' = ing_name r.
Proof.
  revert m. induction items as [|it items IH]; intros m.
  - intros H. exists r'. auto.
  - rewrite consume_cons. intros H. apply IH in H.
    destruct H as [r1 [H1 Hn1]].
    apply alter_keeps_name in H1; [|reflexivity].
    destruct H1 as [r [Hr Hn]]. exists r. split; [exact Hr|congruence].
Qed.

(** Where a row seen after an operation comes from: it was there before
    under the same name, or it is the row just added, under a name that
    was free and the next rowid. *)
Lemma perform_row_origin op w k r' :
  Ingredients (store (perform op w)) !! k = Some r' ->
  (exists r, Ingredients (store w) !! k = Some r /\ ing_name r' = ing_name r) \/
  (name_taken (ing_name r') (store w) = false /\
   k = next_rowid (ingredient_ids (store w))).
Proof.
  assert (Hsame : forall w', store w' = store w ->
            Ingredients (store w') !! k = Some r' ->
            (exists r, Ingredients (store w) !! k = Some r /\
                       ing_name r' = ing_name r) \/
            (name_taken (ing_name r') (store w) = false /\
             k = next_rowid (ingredient_ids (store w)))).
  { intros w' -> H. left. exists r'. auto. }
  destruct op as [rid ov nv|items|name v c items|id delta|id c
                 |n t c d u q|id]; simpl.
  - apply Hsame, scale_recipe_store.
  - apply Hsame, calculate_recipe_cost_reads.
  - destruct (reachable w) eqn:Hr.
    + rewrite (calculate_and_log_batch_up _ _ _ _ _ Hr).
      destruct (check_inventory items (connected w)) as [[[msg|]|e] w'];
        simpl; try (apply Hsame; reflexivity).
      intros H. left. now apply consume_keeps_name in H.
    + rewrite (calculate_and_log_batch_down _ _ _ _ _ Hr).
      apply Hsame. reflexivity.
  - destruct (reachable w) eqn:Hr.
    + rewrite (with_connection_up _ _ Hr), update_inventory_qty_run. simpl.
      intros H. left. now apply alter_keeps_name in H.
    + rewrite (with_connection_down _ _ Hr). apply Hsame. reflexivity.
  - destruct (reachable w) eqn:Hr.
    + rewrite (with_connection_up _ _ Hr). unfold update_cost, execute. simpl.
      intros H. left. now apply alter_keeps_name in H.
    + rewrite (with_connection_down _ _ Hr). apply Hsame. reflexivity.
  - destruct (reachable w) eqn:Hr.
    + rewrite (with_connection_up _ _ Hr). unfold add_ingredient.
      unfold bind at 1. unfold query at 1.
      destruct (name_taken n (store (connected w))) eqn:Htaken;
        [apply Hsame; reflexivity|].
      munfold. simpl.
      destruct (decide (next_rowid (ingredient_ids (store w)) = k)) as [<-|Hne].
      * rewrite lookup_insert_eq. intros [= <-]. right. simpl. auto.
      * rewrite lookup_insert_ne by exact Hne. intros H. left. exists r'. auto.
    + rewrite (with_connection_down _ _ Hr). apply Hsame. reflexivity.
  - destruct (reachable w) eqn:Hr.
    + rewrite (with_connection_up _ _ Hr). unfold delete_ingredient.
      unfold bind at 1. unfold query at 1. unfold bind at 1. unfold query at 1.
      destruct ((0 <? rowcount id (store (connected w))) &&
                referenced id (store (connected w)));
        [apply Hsame; reflexivity|].
      munfold. simpl.
      rewrite lookup_delete_Some. intros [_ Hk]. left. exists r'. auto.
    + rewrite (with_connection_down _ _ Hr). apply Hsame. reflexivity.
Qed.

(** Ingredient names stay unique across every operation of the system:
    the code never renames a row, and refuses to add a taken name. *)
Theorem perform_keeps_names_unique (op : Operation) (w : World) :
  names_unique (store w) -> names_unique (store (perform op w)).
Proof.
  intros Huniq i j ri rj Hi Hj Hname.
  apply perform_row_origin in Hi. apply perform_row_origin in Hj.
  destruct Hi as [[ri0 [Hi Hni]]|[Hfi Hki]],
           Hj as [[rj0 [Hj Hnj]]|[Hfj Hkj]].
  - apply (Huniq i j ri0 rj0 Hi Hj). congruence.
  - exfalso. rewrite name_free_spec in Hfj.
    apply (Hfj i ri0 Hi). congruence.
  - exfalso. rewrite name_free_spec in Hfi.
    apply (Hfi j rj0 Hj). congruence.
  - congruence.
Qed.

(* ===================================================================== *)
(** * The batch log *)
(* ===================================================================== *)

(** What an operation does to the batch log. *)
Lemma perform_batch_log (op : Operation) (w : World) :
  exists added,
    Batch_Log (store (perform op w)) = Batch_Log (store w) ++ added /\
    (added = [] \/
     exists name volume cost items,
       op = CommitBatch name volume cost items /\
       added = [mkBatch (next_rowid (map batch_id (Batch_Log (store w))))
                        name volume cost (clock w)]).
Proof.
  assert (Hsame : forall w', store w' = store w ->
            exists added,
              Batch_Log (store w') = Batch_Log (store w) ++ added /\
              (added = [] \/
               exists name volume cost items,
                 op = CommitBatch name volume cost items /\
                 added = [mkBatch (next_rowid (map batch_id (Batch_Log (store w))))
                                  name volume cost (clock w)])).
  { intros w' ->. exists []. rewrite app_nil_r. auto. }
  assert (Hings : forall m,
            exists added,
              Batch_Log (set_Ingredients m (store w)) = Batch_Log (store w) ++ added /\
              (added = [] \/
               exists name volume cost items,
                 op = CommitBatch name volume cost items /\
                 added = [mkBatch (next_rowid (map batch_id (Batch_Log (store w))))
                                  name volume cost (clock w)])).
  { intros m. exists []. simpl. rewrite app_nil_r. auto. }
  destruct op as [rid ov nv|items|name v c items|id delta|id c
                 |n t c d u q|id]; simpl.
  - apply Hsame, scale_recipe_store.
  - apply Hsame, calculate_recipe_cost_reads.
  - destruct (reachable w) eqn:Hr.
    + rewrite (calculate_and_log_batch_up _ _ _ _ _ Hr).
      destruct (check_inventory items (connected w)) as [[[msg|]|e] w'];
        simpl; try (apply Hsame; reflexivity).
      eexists. split; [reflexivity|]. right. eauto 10.
    + rewrite (calculate_and_log_batch_down _ _ _ _ _ Hr).
      apply Hsame. reflexivity.
  - destruct (reachable w) eqn:Hr.
    + rewrite (with_connection_up _ _ Hr), update_inventory_qty_run. apply Hings.
    + rewrite (with_connection_down _ _ Hr). apply Hsame. reflexivity.
  - destruct (reachable w) eqn:Hr.
    + rewrite (with_connection_up _ _ Hr). apply Hings.
    + rewrite (with_connection_down _ _ Hr). apply Hsame. reflexivity.
  - destruct (reachable w) eqn:Hr.
    + rewrite (with_connection_up _ _ Hr). unfold add_ingredient.
      unfold bind at 1. unfold query at 1.
      destruct (name_taken n (store (connected w)));
        [apply Hsame; reflexivity|apply Hings].
    + rewrite (with_connection_down _ _ Hr). apply Hsame. reflexivity.
  - destruct (reachable w) eqn:Hr.
    + rewrite (with_connection_up _ _ Hr). unfold delete_ingredient.
      unfold bind at 1. unfold query at 1. unfold bind at 1. unfold query at 1.
      destruct ((0 <? rowcount id (store (connected w))) &&
                referenced id (store (connected w)));
        [apply Hsame; reflexivity|apply Hings].
    + rewrite (with_connection_down _ _ Hr). apply Hsame. reflexivity.
Qed.

(** The batch log is append-only.  Every operation leaves the records
    already logged in place and in order; it adds at most one record,
    and only [calculate_and_log_batch] adds one: the record carrying its
    arguments, the clock and the next rowid. *)
Theorem batch_log_append_only (op : Operation) (w : World) :
  exists added,
    Batch_Log (store (perform op w)) = Batch_Log (store w) ++ added /\
    (added = [] \/
     exists name volume cost items,
       op = CommitBatch name volume cost items /\
       added = [mkBatch (next_rowid (map batch_id (Batch_Log (store w))))
                        name volume cost (clock w)]).
Proof. apply perform_batch_log. Qed.

Lemma next_rowid_after ids :
  StronglySorted Z.lt ids -> StronglySorted Z.lt (ids ++ [next_rowid ids]).
Proof.
  intros Hs. apply StronglySorted_app_2; [|exact Hs|repeat constructor].
  intros x1 x2 H1 H2. apply list_elem_of_singleton in H2. subst x2.
  apply next_rowid_above. now apply list_elem_of_In.
Qed.

(** The rowid given to a logged batch is larger than every id already
    in the log, so along every operation the ids of the log keep growing
    in storage order, and no two records ever share an id. *)
Theorem perform_keeps_log_ids_increasing (op : Operation) (w : World) :
  log_ids_increasing (store w) -> log_ids_increasing (store (perform op w)).
Proof.
  unfold log_ids_increasing. intros Hs.
  destruct (perform_batch_log op w)
    as [added [-> [->|[name [v [c [items [_ ->]]]]]]]].
  - now rewrite app_nil_r.
  - rewrite map_app. simpl. now apply next_rowid_after.
Qed.

Lemma increasing_ids_inj (l : list BatchRow) x y :
  StronglySorted Z.lt (map batch_id l) ->
  x ∈ l -> y ∈ l -> batch_id x = batch_id y -> x = y.
Proof.
  induction l as [|a l IH]; simpl; intros Hs Hx Hy Heq.
  - inversion Hx.
  - apply StronglySorted_inv in Hs. destruct Hs as [Hs Ha].
    rewrite Forall_forall in Ha.
    apply elem_of_cons in Hx. apply elem_of_cons in Hy.
    destruct Hx as [->|Hx], Hy as [->|Hy]; auto.
    + exfalso. assert (batch_id a < batch_id y); [|lia].
      apply Ha. apply list_elem_of_fmap. eauto.
    + exfalso. assert (batch_id a < batch_id x); [|lia].
      apply Ha. apply list_elem_of_fmap. eauto.
Qed.

Lemma increasing_ids_reverse (l : list BatchRow) :
  StronglySorted Z.lt (map batch_id l) -> StronglySorted newer (reverse l).
Proof.
  induction l as [|a l IH]; simpl; intros Hs; [constructor|].
  apply StronglySorted_inv in Hs. destruct Hs as [Hs Ha].
  rewrite reverse_cons. apply StronglySorted_app_2.
  - intros x1 x2 H1 H2. apply list_elem_of_singleton in H2. subst x2.
    rewrite elem_of_reverse in H1. rewrite Forall_forall in Ha.
    unfold newer. assert (batch_id a < batch_id x1); [|lia].
    apply Ha. apply list_elem_of_fmap. eauto.
  - now apply IH.
  - repeat constructor.
Qed.

Lemma newer_trans : Transitive newer.
Proof. intros a b c. unfold newer. lia. Qed.

Lemma newer_total : Total newer.
Proof. intros a b. unfold newer. lia. Qed.

(** [get_batch_log] returns every logged record once, latest id first;
    on a log whose ids grow in storage order, as the application keeps
    it, that is the log in reverse: the newest batch comes first. *)
Theorem get_batch_log_newest_first (d : Database) :
  Permutation (get_batch_log d) (Batch_Log d) /\
  StronglySorted newer (get_batch_log d) /\
  (log_ids_increasing d -> get_batch_log d = reverse (Batch_Log d)).
Proof.
  pose proof newer_trans as Htrans. pose proof newer_total as Htotal.
  unfold get_batch_log. split; [apply merge_sort_Permutation|].
  split; [apply StronglySorted_merge_sort; assumption|].
  intros Hs. apply (StronglySorted_unique_strong newer).
  - intros x1 x2 H1 H2 H12 H21.
    apply (increasing_ids_inj (Batch_Log d)); auto.
    + now rewrite merge_sort_Permutation in H1.
    + now rewrite elem_of_reverse in H2.
    + unfold newer in *. lia.
  - apply StronglySorted_merge_sort; assumption.
  - now apply increasing_ids_reverse.
  - rewrite merge_sort_Permutation. now rewrite reverse_Permutation.
Qed.

(* ===================================================================== *)
(** * Scaling: proportions *)
(* ===================================================================== *)

(** What [scale_recipe] returns on a reachable, consistent database. *)
Lemma scale_recipe_run rid ov nv w :
  reachable w = true ->
  foreign_keys_ok (store w) ->
  (MIN_VOLUME_BBL < ov)%Q ->
  (MIN_VOLUME_BBL < nv)%Q ->
  scale_recipe rid ov nv w =
  (Returns (map (scaled_item (store w) (nv / ov))
                (select_recipe_details rid (store w)), (nv / ov)%Q),
   connected w).
Proof.
  intros Hr Hfk Ho Hn. unfold scale_recipe.
  rewrite (volume_guard_passes _ _ Ho Hn).
  unfold bind at 1. rewrite (connect_db_up w Hr).
  unfold bind at 1. unfold query at 1. unfold bind at 1.
  rewrite scale_rows_known; [reflexivity|].
  now apply select_recipe_details_known.
Qed.

Lemma above_minimum_nonzero v : (MIN_VOLUME_BBL < v)%Q -> ~ (v == 0)%Q.
Proof. unfold MIN_VOLUME_BBL. intros Hv Hz. rewrite Hz in Hv. discriminate. Qed.

(** Scaling keeps the amount per barrel.  The items answer the rows of
    [Recipe_Details] with the recipe's id, each row once and by ascending
    ingredient id: for every such row the item has the row's ingredient
    and its scaled quantity is to the new volume as the row's quantity is
    to the original volume. *)
Theorem scale_recipe_keeps_proportions (rid : Z) (ov nv : Q) (w : World) :
  reachable w = true ->
  foreign_keys_ok (store w) ->
  (MIN_VOLUME_BBL < ov)%Q ->
  (MIN_VOLUME_BBL < nv)%Q ->
  exists items sf rows,
    fst (scale_recipe rid ov nv w) = Returns (items, sf) /\
    Permutation rows
      (List.filter (fun r => recipe_id r =? rid) (Recipe_Details (store w))) /\
    StronglySorted (fun a b => ingredient_id a <= ingredient_id b) rows /\
    Forall2 (fun r it =>
               item_id it = ingredient_id r /\
               (item_quantity it * ov == quantity r * nv)%Q)
            rows items.
Proof.
  intros Hr Hfk Ho Hn. rewrite (scale_recipe_run _ _ _ _ Hr Hfk Ho Hn).
  eexists. eexists.
  exists (merge_sort by_ingredient_id
            (List.filter (fun r => recipe_id r =? rid) (Recipe_Details (store w)))).
  split; [reflexivity|].
  split; [apply (merge_sort_Permutation by_ingredient_id)|].
  split.
  { pose proof by_ingredient_id_trans. pose proof by_ingredient_id_total.
    now apply (StronglySorted_merge_sort by_ingredient_id). }
  unfold select_recipe_details.
  apply Forall2_fmap_r, Forall2_fmap_r, Forall_Forall2_diag, Forall_forall.
  intros r _. split; [reflexivity|]. simpl.
  field. now apply above_minimum_nonzero.
Qed.

(** Scaling a recipe to its own base volume gives the factor 1 and the
    base quantities. *)
Lemma scale_recipe_identity (rid : Z) (ov nv : Q) (w : World) :
  reachable w = true ->
  foreign_keys_ok (store w) ->
  (MIN_VOLUME_BBL < ov)%Q ->
  (nv == ov)%Q ->
  exists items sf,
    fst (scale_recipe rid ov nv w) = Returns (items, sf) /\
    (sf == 1)%Q /\
    Forall2 (fun pair it =>
               item_id it = fst pair /\ (item_quantity it == snd pair)%Q)
            (select_recipe_details rid (store w)) items.
Proof.
  intros Hr Hfk Ho Heq.
  assert (Hn : (MIN_VOLUME_BBL < nv)%Q) by now rewrite Heq.
  assert (Hsf : (nv / ov == 1)%Q).
  { rewrite Heq. field. now apply above_minimum_nonzero. }
  rewrite (scale_recipe_run _ _ _ _ Hr Hfk Ho Hn).
  eexists. eexists. split; [reflexivity|]. split; [exact Hsf|].
  apply Forall2_fmap_r, Forall_Forall2_diag, Forall_forall.
  intros pair _. split; [reflexivity|]. simpl. rewrite Hsf. ring.
Qed.

(** A recipe id without composition rows, such as an id that names no
    recipe, is not an error: [scale_recipe] returns no items together
    with the factor. *)
Theorem scale_recipe_without_rows (rid : Z) (ov nv : Q) (w : World) :
  reachable w = true ->
  (MIN_VOLUME_BBL < ov)%Q ->
  (MIN_VOLUME_BBL < nv)%Q ->
  (forall r, In r (Recipe_Details (store w)) -> recipe_id r <> rid) ->
  scale_recipe rid ov nv w = (Returns ([], (nv / ov)%Q), connected w).
Proof.
  intros Hr Ho Hn Hnone. unfold scale_recipe.
  rewrite (volume_guard_passes _ _ Ho Hn).
  unfold bind at 1. rewrite (connect_db_up w Hr).
  unfold bind at 1. unfold query at 1.
  assert (Hsel : select_recipe_details rid (store (connected w)) = []).
  { unfold select_recipe_details. simpl.
    replace (List.filter (fun r => recipe_id r =? rid) (Recipe_Details (store w)))
      with (@nil DetailRow); [reflexivity|].
    induction (Recipe_Details (store w)) as [|r l IH]; [reflexivity|].
    simpl. destruct (recipe_id r =? rid) eqn:E.
    - apply Z.eqb_eq in E. now destruct (Hnone r (or_introl eq_refl)).
    - apply IH. intros r' Hin. apply Hnone. now right. }
  rewrite Hsel. reflexivity.
Qed.

(* ===================================================================== *)
(** * Costing: sums, proportions and connections *)
(* ===================================================================== *)

Lemma cost_sum_app d l1 l2 :
  (cost_sum d (l1 ++ l2) == cost_sum d l1 + cost_sum d l2)%Q.
Proof.
  induction l1 as [|it l1 IH]; simpl.
  - ring.
  - unfold cost_sum in *. simpl. rewrite IH. ring.
Qed.

(** The cost of two lists put end to end is the sum of their costs. *)
Theorem calculate_recipe_cost_app (l1 l2 : list Item) (w : World) :
  reachable w = true ->
  Forall (known (store w)) l1 ->
  Forall (known (store w)) l2 ->
  exists t1 t2 t,
    fst (calculate_recipe_cost l1 w) = Returns t1 /\
    fst (calculate_recipe_cost l2 w) = Returns t2 /\
    fst (calculate_recipe_cost (l1 ++ l2) w) = Returns t /\
    (t == t1 + t2)%Q.
Proof.
  intros Hr H1 H2.
  rewrite (calculate_recipe_cost_sum l1 w Hr H1),
          (calculate_recipe_cost_sum l2 w Hr H2),
          (calculate_recipe_cost_sum (l1 ++ l2) w Hr)
    by (apply Forall_app; auto).
  do 3 eexists. repeat split. apply cost_sum_app.
Qed.

Lemma unit_cost_scaled_item d sf pair :
  unit_cost d (item_id (scaled_item d sf pair)) = unit_cost d (fst pair).
Proof. reflexivity. Qed.

Lemma cost_sum_scaled d sf pairs :
  (cost_sum d (map (scaled_item d sf) pairs) == sf * composition_cost d pairs)%Q.
Proof.
  induction pairs as [|pair pairs IH]; simpl.
  - ring.
  - unfold cost_sum in *. simpl. rewrite IH. ring.
Qed.

Lemma scaled_items_known d sf pairs :
  (forall pair, In pair pairs -> is_Some (Ingredients d !! fst pair)) ->
  Forall (known d) (map (scaled_item d sf) pairs).
Proof.
  intros Hk. apply Forall_forall. intros it Hin.
  apply list_elem_of_In, in_map_iff in Hin. destruct Hin as [pair [<- Hin]].
  unfold known. simpl. now apply Hk.
Qed.

(** The raw cost of a recipe is proportional to the volume it is scaled
    to: quoting the same recipe for two volumes gives costs in the ratio
    of the volumes. *)
Theorem cost_proportional_to_volume (rid : Z) (ov nv1 nv2 : Q) (w : World) :
  reachable w = true ->
  foreign_keys_ok (store w) ->
  (MIN_VOLUME_BBL < ov)%Q ->
  (MIN_VOLUME_BBL < nv1)%Q ->
  (MIN_VOLUME_BBL < nv2)%Q ->
  exists items1 sf1 items2 sf2 t1 t2,
    fst (scale_recipe rid ov nv1 w) = Returns (items1, sf1) /\
    fst (scale_recipe rid ov nv2 w) = Returns (items2, sf2) /\
    fst (calculate_recipe_cost items1 w) = Returns t1 /\
    fst (calculate_recipe_cost items2 w) = Returns t2 /\
    (t1 * nv2 == t2 * nv1)%Q.
Proof.
  intros Hr Hfk Ho H1 H2.
  rewrite (scale_recipe_run _ _ _ _ Hr Hfk Ho H1),
          (scale_recipe_run _ _ _ _ Hr Hfk Ho H2).
  pose proof (select_recipe_details_known rid _ Hfk) as Hk.
  set (pairs := select_recipe_details rid (store w)) in *.
  exists (map (scaled_item (store w) (nv1 / ov)) pairs), (nv1 / ov)%Q,
         (map (scaled_item (store w) (nv2 / ov)) pairs), (nv2 / ov)%Q,
         (cost_sum (store w) (map (scaled_item (store w) (nv1 / ov)) pairs)),
         (cost_sum (store w) (map (scaled_item (store w) (nv2 / ov)) pairs)).
  rewrite !(calculate_recipe_cost_sum _ w Hr)
    by now apply scaled_items_known.
  repeat split.
  rewrite !cost_sum_scaled. field. now apply above_minimum_nonzero.
Qed.

Lemma calculate_recipe_cost_connects_le items w :
  (connects (snd (calculate_recipe_cost items w)) <= length items + connects w)%nat.
Proof.
  revert w. induction items as [|it items IH]; intros w.
  - simpl. lia.
  - rewrite calculate_recipe_cost_cons.
    destruct (reachable w); [|simpl; lia].
    destruct (select_cost (item_id it) (store w)); [|simpl; lia].
    specialize (IH (connected w)).
    destruct (calculate_recipe_cost items (connected w)) as [[r|e] w'];
      simpl in *; lia.
Qed.

(** Connections opened.  [calculate_recipe_cost] opens one connection per
    item it reaches: never more than the list is long, exactly that many
    on a reachable database holding every ingredient, and a single
    attempt when the database is out of reach.
    [calculate_and_log_batch] makes exactly one attempt, whatever the
    outcome. *)
Lemma connections_opened
    (name : string) (volume cost : Q) (items : list Item) (w : World) :
  (connects (snd (calculate_recipe_cost items w)) <= length items + connects w)%nat /\
  (reachable w = true -> Forall (known (store w)) items ->
   connects (snd (calculate_recipe_cost items w)) = (length items + connects w)%nat) /\
  (reachable w = false -> items <> [] ->
   connects (snd (calculate_recipe_cost items w)) = S (connects w)) /\
  connects (snd (calculate_and_log_batch name volume cost items w)) = S (connects w).
Proof.
  split; [apply calculate_recipe_cost_connects_le|]. split; [|split].
  - intros Hr Hk. now rewrite (calculate_recipe_cost_sum items w Hr Hk).
  - intros Hr Hne. destruct items as [|it items]; [contradiction|].
    now rewrite (calculate_recipe_cost_down _ _ _ Hr).
  - destruct (reachable w) eqn:Hr.
    + rewrite (calculate_and_log_batch_up _ _ _ _ _ Hr).
      now destruct (check_inventory items (connected w)) as [[[msg|]|e] w'].
    + now rewrite (calculate_and_log_batch_down _ _ _ _ _ Hr).
Qed.

(* ===================================================================== *)
(** * Batch commit: repeated ingredients and the direction of change *)
(* ===================================================================== *)

Lemma total_required_cons id it items :
  total_required id (it :: items) =
  if item_id it =? id then (item_quantity it + total_required id items)%Q
  else total_required id items.
Proof. reflexivity. Qed.






Lemma consume_decreases items (m : gmap Z IngredientRow) k r r' :
  Forall (fun it => (0 <= item_quantity it)%Q) items ->
  m !! k = Some r ->
  (0 <= inventory_qty r)%Q ->
  consume items m !! k = Some r' ->
  (inventory_qty r' <= inventory_qty r)%Q.
Proof.
  intros Hnn. revert m r.
  induction Hnn as [|it items Hit _ IH]; intros m r Hr Hpos.
  - simpl. intros Hk. rewrite Hr in Hk. injection Hk as <-. apply Qle_refl.
  - rewrite consume_cons. destruct (decide (item_id it = k)) as [Heq|Hne].
    + intros Hk.
      apply Qle_trans with
        (inventory_qty (adjust_row (- item_quantity it) r)).
      * apply (IH (alter (adjust_row (- item_quantity it)) (item_id it) m));
          [| |exact Hk].
        -- rewrite Heq, lookup_alter_eq, Hr. reflexivity.
        -- simpl. apply sql_max_floor.
      * simpl. unfold sql_max.
        destruct (Qle_bool 0 (inventory_qty r + - item_quantity it)); lra.
    + apply IH; [|exact Hpos]. now rewrite lookup_alter_ne.
Qed.

(** A commit never raises a stock: when no quantity in the list is
    negative, every ingredient whose stock was at or above zero has, after
    the call and whatever its outcome, at most the stock it had. *)
Theorem commit_never_adds_stock
    (name : string) (volume cost : Q) (items : list Item) (w : World)
    (id : Z) (row row' : IngredientRow) :
  Forall (fun it => (0 <= item_quantity it)%Q) items ->
  Ingredients (store w) !! id = Some row ->
  (0 <= inventory_qty row)%Q ->
  Ingredients (store (snd (calculate_and_log_batch name volume cost items w))) !! id
    = Some row' ->
  (inventory_qty row' <= inventory_qty row)%Q.
Proof.
  intros Hnn Hrow Hpos.
  assert (Hsame : forall w', store w' = store w ->
            Ingredients (store w') !! id = Some row' ->
            (inventory_qty row' <= inventory_qty row)%Q).
  { intros w' -> H. rewrite Hrow in H. injection H as <-. apply Qle_refl. }
  destruct (reachable w) eqn:Hr.
  - rewrite (calculate_and_log_batch_up _ _ _ _ _ Hr).
    destruct (check_inventory items (connected w)) as [[[msg|]|e] w'];
      simpl; try (apply Hsame; reflexivity).
    now apply consume_decreases.
  - rewrite (calculate_and_log_batch_down _ _ _ _ _ Hr).
    apply Hsame. reflexivity.
Qed.

(* ===================================================================== *)
(** * Costing after a change of price *)
(* ===================================================================== *)

Lemma update_cost_run id c w :
  update_cost id c w =
  (Returns tt,
   set_store (set_Ingredients
                (alter (set_ing_cost c) id (Ingredients (store w))) (store w)) w).
Proof. reflexivity. Qed.

Lemma unit_cost_after_update id c w row j :
  Ingredients (store w) !! id = Some row ->
  unit_cost (store (snd (update_cost id c w))) j =
  if decide (j = id) then c else unit_cost (store w) j.
Proof.
  intros Hrow. rewrite update_cost_run. unfold unit_cost. simpl.
  destruct (decide (j = id)) as [->|Hne].
  - now rewrite lookup_alter_eq, Hrow.
  - rewrite lookup_alter_ne by congruence. reflexivity.
Qed.

Lemma cost_sum_cons d it items :
  cost_sum d (it :: items) =
  (unit_cost d (item_id it) * item_quantity it + cost_sum d items)%Q.
Proof. reflexivity. Qed.

Lemma cost_sum_price_change d d' id c old items :
  (forall j, unit_cost d' j = if decide (j = id) then c else unit_cost d j) ->
  unit_cost d id = old ->
  (cost_sum d' items - cost_sum d items == (c - old) * total_required id items)%Q.
Proof.
  intros Hd' Hold. induction items as [|it items IH].
  - simpl. ring.
  - rewrite !cost_sum_cons, total_required_cons, Hd'.
    destruct (decide (item_id it = id)) as [Heq|Hne].
    + rewrite Heq, Z.eqb_refl, Hold, Qmult_plus_distr_r, <- IH. ring.
    + apply Z.eqb_neq in Hne. rewrite Hne, <- IH. ring.
Qed.

(** Costs are read when the cost is computed.  After the cost of an
    ingredient is changed, the total for a list moves by the change in
    unit cost times the quantity of that ingredient in the list. *)
Theorem cost_follows_price_update
    (id : Z) (c : Q) (row : IngredientRow) (items : list Item) (w : World) :
  reachable w = true ->
  Ingredients (store w) !! id = Some row ->
  Forall (known (store w)) items ->
  exists t t',
    fst (calculate_recipe_cost items w) = Returns t /\
    fst (calculate_recipe_cost items (snd (update_cost id c w))) = Returns t' /\
    (t' - t == (c - ing_cost row) * total_required id items)%Q.
Proof.
  intros Hr Hrow Hknown.
  assert (Hr' : reachable (snd (update_cost id c w)) = true) by exact Hr.
  assert (Hknown' : Forall (known (store (snd (update_cost id c w)))) items).
  { apply Forall_forall. intros it Hin. rewrite Forall_forall in Hknown.
    specialize (Hknown it Hin). unfold known in *. rewrite update_cost_run.
    simpl. now apply lookup_alter_is_Some. }
  rewrite (calculate_recipe_cost_sum items w Hr Hknown).
  rewrite (calculate_recipe_cost_sum items _ Hr' Hknown').
  do 2 eexists. split; [reflexivity|]. split; [reflexivity|].
  apply cost_sum_price_change.
  - intros j. now apply (unit_cost_after_update id c w row).
  - unfold unit_cost. now rewrite Hrow.
Qed.

(* ===================================================================== *)
(** * The two callbacks *)
(* ===================================================================== *)

Lemma quote_store app nv w : store (snd (quote app nv w)) = store w.
Proof.
  unfold quote. unfold bind at 1.
  pose proof (scale_recipe_store (default 0 (current_recipe_id app))
                (current_recipe_volume app) nv w) as Hs.
  destruct (scale_recipe (default 0 (current_recipe_id app))
              (current_recipe_volume app) nv w) as [[[items sf]|e] w'];
    [|exact Hs].
  simpl in Hs. unfold bind at 1.
  pose proof (proj1 (calculate_recipe_cost_reads items w')) as Hc.
  destruct (calculate_recipe_cost items w') as [[total|e] w''];
    simpl in *; congruence.
Qed.

Lemma quote_sets_items app nv w app1 w1 :
  quote app nv w = (Returns app1, w1) ->
  dialogs app1 = dialogs app /\ is_Some (scaled_ingredients app1).
Proof.
  intros H. destruct (quote_success _ _ _ _ _ H)
    as [items [sf [total [_ [_ [Hitems _]]]]]].
  split; [|rewrite Hitems; eauto].
  revert H. unfold quote. unfold bind at 1.
  destruct (scale_recipe _ _ _ w) as [[[its f]|e] w']; [|discriminate].
  unfold bind at 1.
  destruct (calculate_recipe_cost its w') as [[t|e] w'']; [|discriminate].
  unfold ret. now intros [= <- <-].
Qed.

(** "Scale & Estimate Cost" never raises and never writes: every failure
    inside it, from a missing selection to an exception of the services,
    ends in one dialog with the application otherwise as it was; without
    a dialog the application holds freshly scaled items.  The database is
    the same afterwards in every case. *)
Theorem scale_and_cost_is_safe (app : BreweryApp) (w : World) :
  exists app',
    fst (_scale_and_cost app w) = Returns app' /\
    store (snd (_scale_and_cost app w)) = store w /\
    ((exists d, app' = show d app) \/
     (dialogs app' = dialogs app /\ is_Some (scaled_ingredients app'))).
Proof.
  unfold _scale_and_cost.
  destruct (no_recipe (current_recipe_id app)); [simpl; eauto 10|].
  destruct (volume_entry app) as [nv|]; [|simpl; eauto 10].
  destruct (Qle_bool nv MIN_VOLUME_BBL); [simpl; eauto 10|].
  pose proof (quote_store app nv w) as Hs.
  pose proof (quote_sets_items app nv w) as Hq.
  destruct (quote app nv w) as [[a|[m|m|m]] w']; simpl in *;
    [|eauto 10..].
  exists a. split; [reflexivity|]. split; [exact Hs|]. right.
  now apply (Hq a w').
Qed.

(** "Log as Completed Batch" writes only when it reports success, as
    long as the numbers involved are finite: the volume entry and the
    cost display hold a finite number or a text that [float] refuses,
    and the quantities of the scaled items are finite.  Then either the
    database is as before, or the callback returns having shown the
    Success dialog and the batch log has grown by one record.  A volume
    or cost that [float] reads as not-a-number is outside this
    statement. *)
Theorem log_batch_writes_only_on_success (app : BreweryApp) (w : World) :
  store (snd (_log_batch app w)) = store w \/
  exists app' record,
    fst (_log_batch app w) = Returns app' /\
    dialogs app' = dialogs app ++
      [showinfo "Success" "Batch successfully logged and inventory updated."] /\
    Batch_Log (store (snd (_log_batch app w))) = Batch_Log (store w) ++ [record].
Proof.
  destruct (_log_batch app w) as [out w1] eqn:Hrun. simpl.
  unfold _log_batch in Hrun.
  destruct (scaled_ingredients app) as [items|];
    [|injection Hrun as <- <-; now left].
  destruct (volume_entry app) as [volume|];
    [|injection Hrun as <- <-; now left].
  destruct (Py.float _) as [fc|]; [|injection Hrun as <- <-; now left].
  unfold bind at 1 in Hrun. destruct (reachable w) eqn:Hr.
  - rewrite (calculate_and_log_batch_up _ _ _ _ _ Hr) in Hrun.
    destruct (check_inventory items (connected w)) as [[[msg|]|e] w'];
      try (injection Hrun as <- <-; now left).
    injection Hrun as <- <-. right. eexists. eexists.
    split; [reflexivity|]. split; reflexivity.
  - rewrite (calculate_and_log_batch_down _ _ _ _ _ Hr) in Hrun.
    injection Hrun as <- <-. now left.
Qed.

(** With the cost display at its reset text, which the constructor and
    the recipe menu set, "Log as Completed Batch" on items scaled earlier
    raises [ValueError] from [float], before any connection is opened:
    the world is untouched. *)
Theorem log_batch_stale_display
    (app : BreweryApp) (items : list Item) (w : World) :
  scaled_ingredients app = Some items ->
  output_cost_var app = "Final Cost: $0.00" ->
  _log_batch app w = (Raises (ValueError "could not convert string to float"), w).
Proof.
  intros Hitems Hvar. unfold _log_batch. rewrite Hitems, Hvar.
  destruct (volume_entry app); reflexivity.
Qed.

Lemma volume_above_minimum v :
  (MIN_VOLUME_BBL < v)%Q -> Qle_bool v MIN_VOLUME_BBL = false.
Proof.
  intros Hv. destruct (Qle_bool v MIN_VOLUME_BBL) eqn:E; [|reflexivity].
  apply Qle_bool_iff in E. exfalso. apply (Qlt_not_le _ _ Hv E).
Qed.

(** A quote made while the database is out of reach shows no error: it
    stores an empty list of items and displays the cost 0.00.  Logging
    that quote once the database is back succeeds: it appends a record
    with final cost 0 and leaves every stock as it was. *)
Theorem offline_quote_then_log
    (app : BreweryApp) (nv : Q) (w w2 : World) :
  reachable w = false ->
  no_recipe (current_recipe_id app) = false ->
  volume_entry app = Some nv ->
  (MIN_VOLUME_BBL < nv)%Q ->
  (MIN_VOLUME_BBL < current_recipe_volume app)%Q ->
  reachable w2 = true ->
  exists app1 app2 w3 id fc,
    _scale_and_cost app w = (Returns app1, connected w) /\
    dialogs app1 = dialogs app /\
    scaled_ingredients app1 = Some [] /\
    output_cost_var app1 = "Final Estimated Cost: $0.00" /\
    _log_batch app1 w2 = (Returns app2, w3) /\
    Ingredients (store w3) = Ingredients (store w2) /\
    Batch_Log (store w3) =
      Batch_Log (store w2) ++ [mkBatch id (recipe_var app) nv fc (clock w2)] /\
    (fc == 0)%Q.
Proof.
  intros Hdown Hsel Hentry Hnv Hov Hup.
  assert (Hquote : _scale_and_cost app w =
    (Returns (mkApp (current_recipe_id app) (current_recipe_volume app)
                (recipe_var app) (Some nv)
                "Final Estimated Cost: $0.00"
                "Scaling Factor: 0.00 | Raw Ingredient Cost: $0.00"
                ("Ingredient Requirements:" +:+ newline)
                (Some []) (dialogs app)),
     connected w)).
  { unfold _scale_and_cost, quote.
    rewrite Hsel, Hentry, (volume_above_minimum _ Hnv).
    unfold bind at 1.
    rewrite (scale_recipe_down _ _ _ _ Hdown Hov Hnv). reflexivity. }
  do 5 eexists. split; [exact Hquote|]. split; [reflexivity|].
  split; [reflexivity|]. split; [reflexivity|].
  unfold _log_batch. cbn [scaled_ingredients volume_entry output_cost_var recipe_var].
  change (Py.float _) with (Some (inject_Z 0 + (0 # 100))%Q).
  unfold bind at 1. rewrite (calculate_and_log_batch_up _ _ _ _ _ Hup). simpl.
  split; [reflexivity|]. split; [reflexivity|]. split; reflexivity.
Qed.

(* ===================================================================== *)
(** * The inventory list box: reading a line back *)
(* ===================================================================== *)

Lemma string_app_assoc (a b c : string) : (a +:+ b) +:+ c = a +:+ (b +:+ c).
Proof.
  induction a as [|x a IH]; [reflexivity|].
  change (String x ((a +:+ b) +:+ c) = String x (a +:+ (b +:+ c))).
  now rewrite IH.
Qed.

Lemma string_app_nil_r (a : string) : a +:+ EmptyString = a.
Proof.
  induction a as [|x a IH]; [reflexivity|].
  change (String x (a +:+ EmptyString) = String x a). now rewrite IH.
Qed.

Lemma before_app sep a b :
  all_chars (fun c => negb (Ascii.eqb c sep)) a = true ->
  PyStr.before sep (a +:+ b) = a +:+ PyStr.before sep b.
Proof.
  induction a as [|x a IH]; simpl; [reflexivity|].
  intros H. apply andb_true_iff in H. destruct H as [Hx Ha].
  apply negb_true_iff in Hx. now rewrite Hx, (IH Ha).
Qed.

Lemma after_app sep a b :
  all_chars (fun c => negb (Ascii.eqb c sep)) a = true ->
  PyStr.after sep (a +:+ b) = PyStr.after sep b.
Proof.
  induction a as [|x a IH]; simpl; [reflexivity|].
  intros H. apply andb_true_iff in H. destruct H as [Hx Ha].
  apply negb_true_iff in Hx. now rewrite Hx, (IH Ha).
Qed.

Lemma spaces_chars (f : ascii -> bool) n :
  f " "%char = true -> all_chars f (PyStr.spaces n) = true.
Proof. intros Hf. induction n as [|n IH]; simpl; [reflexivity|now rewrite Hf, IH]. Qed.

Lemma ljust_chars (f : ascii -> bool) n s :
  f " "%char = true -> all_chars f s = true ->
  all_chars f (PyStr.ljust n s) = true.
Proof.
  intros Hf Hs. unfold PyStr.ljust.
  now rewrite all_chars_app, Hs, spaces_chars.
Qed.

Lemma int_str_chars z : all_chars price_char (PyStr.int_str z) = true.
Proof.
  unfold PyStr.int_str. destruct (z <? 0); simpl.
  - apply (all_chars_impl is_digit); [|apply dec_digits].
    intros c Hc. unfold price_char. now rewrite Hc.
  - apply (all_chars_impl is_digit); [|apply dec_digits].
    intros c Hc. unfold price_char. now rewrite Hc.
Qed.

Lemma price_char_facts c :
  price_char c = true ->
  PyStr.is_space c = false /\ Ascii.eqb c "|" = false /\
  Ascii.eqb c "I" = false /\ Ascii.eqb c "(" = false.
Proof.
  destruct c as [[] [] [] [] [] [] [] []]; vm_compute; intros H;
    solve [repeat split | discriminate].
Qed.

(** Blanks at the right end go; a text without blanks stays. *)
Lemma rstrip_app_spaces s n : PyStr.rstrip (s +:+ PyStr.spaces n) = PyStr.rstrip s.
Proof.
  assert (Hsp : PyStr.rstrip (PyStr.spaces n) = EmptyString).
  { induction n as [|n IH]; simpl; [reflexivity|now rewrite IH]. }
  induction s as [|c s IH]; simpl; [exact Hsp|now rewrite IH].
Qed.

Lemma rstrip_no_space s :
  all_chars (fun c => negb (PyStr.is_space c)) s = true -> PyStr.rstrip s = s.
Proof.
  induction s as [|c s IH]; simpl; [reflexivity|].
  intros H. apply andb_true_iff in H. destruct H as [Hc Hs].
  apply negb_true_iff in Hc. rewrite (IH Hs), Hc. now destruct s.
Qed.

Lemma spaces_snoc n : PyStr.spaces (S n) = PyStr.spaces n +:+ " ".
Proof.
  induction n as [|n IH]; [reflexivity|].
  change (String " " (PyStr.spaces (S n)) = String " " (PyStr.spaces n +:+ " ")).
  now rewrite IH.
Qed.

Lemma lstrip_spaces n s : PyStr.lstrip (PyStr.spaces n +:+ s) = PyStr.lstrip s.
Proof. induction n as [|n IH]; simpl; [reflexivity|exact IH]. Qed.

Lemma lstrip_head c s :
  PyStr.is_space c = false -> PyStr.lstrip (String c s) = String c s.
Proof. intros H. simpl. now rewrite H. Qed.

Lemma int_int_str z : PyStr.int (PyStr.int_str z) = Some z.
Proof.
  unfold PyStr.int_str. destruct (z <? 0) eqn:Hneg.
  - apply Z.ltb_lt in Hneg. simpl.
    destruct (dec_head (- z)) as [c [s [Hdec _]]].
    pose proof (dec_value (- z)) as Hv. rewrite Hdec in *. rewrite Hv.
    simpl. f_equal. rewrite Z2N.id by lia. lia.
  - apply Z.ltb_ge in Hneg.
    destruct (dec_head z) as [c [s [Hdec Hdig]]].
    pose proof (dec_value z) as Hv. rewrite Hdec in *.
    unfold PyStr.int. destruct (digit_not_sign c Hdig) as [-> ->].
    rewrite Hv. simpl. f_equal. now rewrite Z2N.id.
Qed.

Lemma int_str_head z :
  exists c s, PyStr.int_str z = String c s /\ PyStr.is_space c = false.
Proof.
  pose proof (int_str_chars z) as Hc.
  unfold PyStr.int_str in *. destruct (z <? 0).
  - eexists. eexists. split; reflexivity.
  - destruct (dec_head z) as [c [s [Hdec Hdig]]]. rewrite Hdec in *.
    exists c, s. split; [reflexivity|].
    simpl in Hc. apply andb_true_iff in Hc.
    now apply price_char_facts.
Qed.

(** The text before the first bar of a line: the label, the id and its
    padding. *)
Lemma display_str_first_field id name type_str cost unit qty :
  PyStr.before "|" (display_str id name type_str cost unit qty) =
  "ID:" +:+ PyStr.ljust 3 (PyStr.int_str id) +:+ " ".
Proof.
  unfold display_str.
  change ("ID:" +:+ ?x) with (String "I" (String "D" (String ":" x))).
  cbn [PyStr.before Ascii.eqb Bool.eqb]. do 3 f_equal.
  rewrite before_app; [reflexivity|].
  apply ljust_chars; [reflexivity|].
  apply (all_chars_impl price_char); [|apply int_str_chars].
  intros c Hc. apply price_char_facts in Hc. destruct Hc as [_ [-> _]].
  reflexivity.
Qed.

Lemma selected_id_display_str
    (id : Z) (name type_str unit : string) (cost qty : Q) :
  selected_id (display_str id name type_str cost unit qty) = Some id.
Proof.
  unfold selected_id. rewrite display_str_first_field.
  unfold Py.replace.
  rewrite (replace_from_prefix "I" "D:" EmptyString).
  change (EmptyString +:+ ?x) with x.
  rewrite replace_from_absent.
  - unfold PyStr.strip, PyStr.ljust. rewrite string_app_assoc.
    destruct (int_str_head id) as [c [s [Hhead Hc]]].
    rewrite Hhead at 1. change (String c s +:+ ?x) with (String c (s +:+ x)).
    rewrite (lstrip_head _ _ Hc).
    change (String c (s +:+ ?x)) with (String c s +:+ x).
    rewrite <- Hhead.
    rewrite <- spaces_snoc.
    rewrite rstrip_app_spaces, rstrip_no_space; [apply int_int_str|].
    apply (all_chars_impl price_char); [|apply int_str_chars].
    intros x Hx. apply price_char_facts in Hx. destruct Hx as [-> _].
    reflexivity.
  - rewrite all_chars_app. rewrite ljust_chars; [reflexivity|reflexivity|].
    apply (all_chars_impl price_char); [|apply int_str_chars].
    intros x Hx. apply price_char_facts in Hx. destruct Hx as [_ [_ [-> _]]].
    reflexivity.
Qed.

(** The id read back from a line of the inventory list is the id the
    line was built from, whatever the other columns hold. *)
Theorem selected_id_round_trip
    (id : Z) (name type_str unit : string) (cost qty : Q) :
  selected_id (display_str id name type_str cost unit qty) = Some id.
Proof. apply selected_id_display_str. Qed.

Lemma length_lstrip s : (String.length (PyStr.lstrip s) <= String.length s)%nat.
Proof.
  induction s as [|c s IH]; simpl; [lia|].
  destruct (PyStr.is_space c); simpl; lia.
Qed.

Lemma length_rstrip s : (String.length (PyStr.rstrip s) <= String.length s)%nat.
Proof.
  induction s as [|c s IH]; simpl; [lia|].
  destruct (PyStr.rstrip s); [destruct (PyStr.is_space c)|]; simpl in *; lia.
Qed.

(** A text that [strip] leaves alone is empty, or begins with a
    character that is not blank and is left alone by [rstrip]. *)
Lemma strip_fixed s :
  PyStr.strip s = s ->
  s = EmptyString \/
  exists c s', s = String c s' /\ PyStr.is_space c = false /\ PyStr.rstrip s = s.
Proof.
  destruct s as [|c s']; [now left|]. intros H. right. exists c, s'.
  split; [reflexivity|]. unfold PyStr.strip in H. simpl in H.
  destruct (PyStr.is_space c) eqn:Hc.
  - exfalso. apply (f_equal String.length) in H.
    pose proof (length_rstrip (PyStr.lstrip s')).
    pose proof (length_lstrip s'). simpl in H. lia.
  - split; [reflexivity|exact H].
Qed.

Lemma rstrip_bracket t : exists x, PyStr.rstrip (String "(" t) = String "(" x.
Proof.
  simpl. destruct (PyStr.rstrip t).
  - now exists EmptyString.
  - eexists. reflexivity.
Qed.

(** [rstrip] only looks at the end: what comes before a part that does
    not vanish is kept. *)
Lemma rstrip_app_keep a b :
  PyStr.rstrip b <> EmptyString ->
  PyStr.rstrip (a +:+ b) = a +:+ PyStr.rstrip b.
Proof.
  intros Hb. induction a as [|c a IH]; [reflexivity|].
  change (String c a +:+ b) with (String c (a +:+ b)).
  cbn [PyStr.rstrip]. rewrite IH.
  change (String c a +:+ PyStr.rstrip b) with (String c (a +:+ PyStr.rstrip b)).
  destruct (a +:+ PyStr.rstrip b) eqn:E; [|reflexivity].
  exfalso. destruct a; simpl in E; [contradiction|discriminate].
Qed.

(** The shape of a line: the first field, a bar, and a second field that
    starts with the padded name and an opening bracket. *)
Lemma display_str_shape id name type_str cost unit qty :
  exists tail,
    display_str id name type_str cost unit qty =
    ("ID:" +:+ PyStr.ljust 3 (PyStr.int_str id) +:+ " ") +:+
    String "|" (String " " (PyStr.ljust 20 name +:+
                            String " " (String "(" tail))).
Proof.
  eexists. unfold display_str. rewrite !string_app_assoc. reflexivity.
Qed.

Lemma first_field_no_bar id :
  all_chars (fun c => negb (Ascii.eqb c "|"))
            ("ID:" +:+ PyStr.ljust 3 (PyStr.int_str id) +:+ " ") = true.
Proof.
  rewrite !all_chars_app. rewrite ljust_chars; [reflexivity|reflexivity|].
  apply (all_chars_impl price_char); [|apply int_str_chars].
  intros c Hc. apply price_char_facts in Hc. destruct Hc as [_ [-> _]].
  reflexivity.
Qed.

(** The name read back from a line of the inventory list is the
    ingredient's name, provided the name holds neither a bar nor an
    opening bracket and has no blank at either end. *)
Theorem selected_name_round_trip
    (id : Z) (name type_str unit : string) (cost qty : Q) :
  all_chars (fun c => negb (Ascii.eqb c "|") && negb (Ascii.eqb c "(")) name = true ->
  PyStr.strip name = name ->
  selected_name (display_str id name type_str cost unit qty) = Some name.
Proof.
  intros Hchars Hstrip.
  assert (Hbar : all_chars (fun c => negb (Ascii.eqb c "|"))
                   (PyStr.ljust 20 name) = true).
  { apply ljust_chars; [reflexivity|].
    apply (all_chars_impl _ _ _ (fun c H => proj1 (proj1 (andb_true_iff _ _) H)) Hchars). }
  assert (Hbra : forall n, all_chars (fun c => negb (Ascii.eqb c "("))
                   (name +:+ PyStr.spaces n) = true).
  { intros n. rewrite all_chars_app, spaces_chars by reflexivity.
    rewrite (all_chars_impl _ _ _ (fun c H => proj2 (proj1 (andb_true_iff _ _) H)) Hchars).
    reflexivity. }
  destruct (display_str_shape id name type_str cost unit qty) as [tail ->].
  unfold selected_name, PyStr.second_field.
  rewrite after_app by apply first_field_no_bar.
  cbn [PyStr.after Ascii.eqb Bool.eqb option_map PyStr.before].
  rewrite before_app by exact Hbar.
  cbn [PyStr.before Ascii.eqb Bool.eqb]. f_equal.
  set (rest := PyStr.before "|" tail).
  unfold PyStr.strip at 2. cbn [PyStr.lstrip]. change (PyStr.is_space " ") with true.
  cbv iota. unfold PyStr.ljust.
  destruct (rstrip_bracket rest) as [x Hx].
  destruct (strip_fixed name Hstrip) as [->|[c [s' [Hname [Hc Hr]]]]].
  - (* an empty name: the field is all blanks up to the bracket *)
    change ((EmptyString +:+ PyStr.spaces (20 - String.length EmptyString)) +:+
            String " " (String "(" rest))
      with (PyStr.spaces 20 +:+ String " " (String "(" rest)).
    rewrite lstrip_spaces.
    change (PyStr.lstrip (String " " (String "(" rest))) with (String "(" rest).
    rewrite Hx. reflexivity.
  - (* the name starts the field *)
    rewrite string_app_assoc. rewrite Hname at 1.
    change (String c s' +:+ ?y) with (String c (s' +:+ y)).
    rewrite (lstrip_head _ _ Hc).
    change (String c (s' +:+ ?y)) with (String c s' +:+ y).
    rewrite <- Hname.
    replace (name +:+ PyStr.spaces (20 - String.length name) +:+
             String " " (String "(" rest))
      with ((name +:+ PyStr.spaces (S (20 - String.length name))) +:+
            String "(" rest)
      by (rewrite spaces_snoc, !string_app_assoc; reflexivity).
    rewrite rstrip_app_keep by (rewrite Hx; discriminate).
    rewrite Hx. rewrite before_app by apply Hbra.
    cbn [PyStr.before Ascii.eqb Bool.eqb]. rewrite string_app_nil_r.
    unfold PyStr.strip. rewrite Hname at 1.
    change (String c s' +:+ ?y) with (String c (s' +:+ y)).
    rewrite (lstrip_head _ _ Hc).
    change (String c (s' +:+ ?y)) with (String c s' +:+ y).
    rewrite <- Hname. rewrite rstrip_app_spaces. exact Hr.
Qed.

(* ===================================================================== *)
(** * The dialogs of the inventory tab *)
(* ===================================================================== *)

Lemma Qle_bool_false_lt a b : Qle_bool a b = false -> (b < a)%Q.
Proof.
  intros H. apply Qnot_le_lt. intros Hle. apply Qle_bool_iff in Hle. congruence.
Qed.

Lemma is_empty_false s : is_empty s = false -> s <> EmptyString.
Proof. destruct s; [discriminate|]. intros _. discriminate. Qed.

Lemma database_eta d : set_Ingredients (Ingredients d) d = d.
Proof. now destruct d. Qed.

(** The two ways "Save" can end. *)
Lemma save_ingredient_cases (e : AddDialog) (w : World) :
  let out := _save_ingredient e w in
  store (snd out) = store w \/
  exists id row,
    Ingredients (store w) !! id = None /\
    store (snd out) =
      set_Ingredients (<[id := row]> (Ingredients (store w))) (store w) /\
    (0 < ing_cost row)%Q /\
    (0 <= inventory_qty row)%Q /\
    In (ing_type row) ingredient_types /\
    ing_name row = PyStr.strip (entry_Name e) /\
    ing_name row <> EmptyString /\
    ing_unit row <> EmptyString /\
    (forall j r, Ingredients (store w) !! j = Some r -> ing_name r <> ing_name row) /\
    fst out = Returns (Some (info_box "Success"
                 ("Ingredient '" +:+ ing_name row +:+ "' added successfully."))).
Proof.
  intros out. subst out.
  destruct (_save_ingredient e w) as [o w1] eqn:Hrun. simpl.
  unfold _save_ingredient in Hrun.
  destruct (entry_Cost e) as [cost|]; [|injection Hrun as <- <-; now left].
  destruct (entry_Detail e) as [detail|]; [|injection Hrun as <- <-; now left].
  destruct (entry_Qty e) as [qty|]; [|injection Hrun as <- <-; now left].
  destruct (is_empty (PyStr.strip (entry_Name e)) ||
            is_empty (PyStr.strip (entry_Unit e)) ||
            is_empty (PyStr.strip (entry_Type e))) eqn:Hempty;
    [injection Hrun as <- <-; now left|].
  apply orb_false_iff in Hempty. destruct Hempty as [Hempty Htype].
  apply orb_false_iff in Hempty. destruct Hempty as [Hname Hunit].
  destruct (Qle_bool cost 0 || negb (Qle_bool 0 qty)) eqn:Hnum;
    [injection Hrun as <- <-; now left|].
  apply orb_false_iff in Hnum. destruct Hnum as [Hcost Hqty].
  apply negb_false_iff in Hqty.
  destruct (negb (existsb _ ingredient_types)) eqn:Hlist;
    [injection Hrun as <- <-; now left|].
  apply negb_false_iff, existsb_exists in Hlist.
  destruct Hlist as [t [Hin Heq]]. apply String.eqb_eq in Heq.
  unfold bind at 1 in Hrun. unfold connect_db in Hrun.
  destruct (reachable w) eqn:Hr; [|injection Hrun as <- <-; now left].
  unfold bind at 1 in Hrun. unfold add_ingredient in Hrun.
  unfold bind at 1 in Hrun. unfold query at 1 in Hrun.
  destruct (name_taken (PyStr.strip (entry_Name e)) (store (connected w)))
    eqn:Htaken; [injection Hrun as <- <-; now left|].
  unfold _display_inventory, connect_db in Hrun. munfold_in Hrun.
  simpl in Hrun. rewrite Hr in Hrun. injection Hrun as <- <-.
  right. eexists. eexists. simpl.
  split; [apply next_rowid_fresh|]. split; [reflexivity|]. simpl.
  split; [now apply Qle_bool_false_lt|].
  split; [now apply Qle_bool_iff|].
  split; [now rewrite Heq|].
  split; [reflexivity|].
  split; [now apply is_empty_false|].
  split; [now apply is_empty_false|].
  split; [|reflexivity].
  now apply name_free_spec.
Qed.

Lemma alter_alter_insert (f g : IngredientRow -> IngredientRow)
    (m : gmap Z IngredientRow) id row :
  m !! id = Some row ->
  alter f id (alter g id m) = <[id := f (g row)]> m.
Proof.
  intros Hrow. apply map_eq. intros k. destruct (decide (id = k)) as [->|Hne].
  - now rewrite !lookup_alter_eq, Hrow, lookup_insert_eq.
  - now rewrite !lookup_alter_ne, lookup_insert_ne by exact Hne.
Qed.

(** The two ways "Update Inventory & Cost" can end. *)
Lemma update_ingredient_cases (e : EditDialog) (w : World) :
  let out := _update_ingredient e w in
  store (snd out) = store w \/
  exists new_cost delta_qty row,
    cost_entry e = Some new_cost /\
    delta_entry e = Some delta_qty /\
    (0 < new_cost)%Q /\
    Ingredients (store w) !! ing_id e = Some row /\
    store (snd out) =
      set_Ingredients
        (<[ing_id e := mkIngredient (ing_name row) (ing_type row) new_cost
                         (ing_detail1 row) (ing_unit row)
                         (sql_max 0 (inventory_qty row + delta_qty))]>
           (Ingredients (store w))) (store w) /\
    fst out = Returns (info_box "Success"
                ("Ingredient ID " +:+ PyStr.int_str (ing_id e) +:+
                 " updated successfully.")).
Proof.
  intros out. subst out.
  destruct (_update_ingredient e w) as [o w1] eqn:Hrun. simpl.
  unfold _update_ingredient in Hrun.
  destruct (cost_entry e) as [new_cost|]; [|injection Hrun as <- <-; now left].
  destruct (delta_entry e) as [delta_qty|]; [|injection Hrun as <- <-; now left].
  destruct (Qle_bool new_cost 0) eqn:Hcost; [injection Hrun as <- <-; now left|].
  unfold bind at 1 in Hrun. unfold connect_db in Hrun.
  destruct (reachable w) eqn:Hr; [|injection Hrun as <- <-; now left].
  unfold bind at 1 in Hrun. rewrite update_cost_run in Hrun.
  unfold bind at 1 in Hrun. rewrite update_inventory_qty_run in Hrun.
  simpl in Hrun. unfold bind at 1 in Hrun. unfold close_db, ret at 1 in Hrun.
  unfold rowcount in Hrun. cbn [Ingredients set_Ingredients] in Hrun.
  rewrite lookup_alter_eq in Hrun.
  destruct (Ingredients (store w) !! ing_id e) as [row|] eqn:Hrow;
    simpl in Hrun.
  - unfold _display_inventory, connect_db in Hrun. munfold_in Hrun.
    simpl in Hrun. rewrite Hr in Hrun. injection Hrun as <- <-.
    right. exists new_cost, delta_qty, row.
    split; [reflexivity|]. split; [reflexivity|].
    split; [now apply Qle_bool_false_lt|]. split; [reflexivity|].
    simpl. split; [|reflexivity].
    now rewrite (alter_alter_insert _ _ _ _ _ Hrow).
  - injection Hrun as <- <-. left. simpl.
    rewrite !alter_id' by (try rewrite alter_id'; assumption).
    now rewrite !database_eta.
Qed.

(** [AddDialog] writes only valid rows, for entries that are empty,
    malformed or finite numbers.  Either "Save" leaves the
    database as it was, or it has added exactly one ingredient under an
    unused id and reports success; the row added has a positive cost, a
    quantity that is not negative, one of the three type names, and a
    name and unit that are not empty, the name being the entry without
    the blanks around it and not the name of any ingredient stored
    before. *)
Theorem save_ingredient_stores_valid_rows (e : AddDialog) (w : World) :
  let out := _save_ingredient e w in
  store (snd out) = store w \/
  exists id row,
    Ingredients (store w) !! id = None /\
    store (snd out) =
      set_Ingredients (<[id := row]> (Ingredients (store w))) (store w) /\
    (0 < ing_cost row)%Q /\
    (0 <= inventory_qty row)%Q /\
    In (ing_type row) ingredient_types /\
    ing_name row = PyStr.strip (entry_Name e) /\
    ing_name row <> EmptyString /\
    ing_unit row <> EmptyString /\
    (forall j r, Ingredients (store w) !! j = Some r -> ing_name r <> ing_name row) /\
    fst out = Returns (Some (info_box "Success"
                 ("Ingredient '" +:+ ing_name row +:+ "' added successfully."))).
Proof. apply save_ingredient_cases. Qed.

(** [EditDialog] writes only on success.  Either "Update Inventory &
    Cost" leaves the database as it was, or both entries were numbers,
    the new cost positive and the ingredient stored, and then exactly
    that row has the new cost and the stock [MAX(0, old + delta)], and
    the dialog reports success. *)
Theorem update_ingredient_writes_on_success (e : EditDialog) (w : World) :
  let out := _update_ingredient e w in
  store (snd out) = store w \/
  exists new_cost delta_qty row,
    cost_entry e = Some new_cost /\
    delta_entry e = Some delta_qty /\
    (0 < new_cost)%Q /\
    Ingredients (store w) !! ing_id e = Some row /\
    store (snd out) =
      set_Ingredients
        (<[ing_id e := mkIngredient (ing_name row) (ing_type row) new_cost
                         (ing_detail1 row) (ing_unit row)
                         (sql_max 0 (inventory_qty row + delta_qty))]>
           (Ingredients (store w))) (store w) /\
    fst out = Returns (info_box "Success"
                ("Ingredient ID " +:+ PyStr.int_str (ing_id e) +:+
                 " updated successfully.")).
Proof. apply update_ingredient_cases. Qed.

(** Through the two dialogs every cost stays positive and every stock
    stays at or above zero. *)
Lemma dialogs_keep_rows_valid (a : AddDialog) (e : EditDialog) (w : World) :
  costs_positive (store w) ->
  stock_nonneg (store w) ->
  (costs_positive (store (snd (_save_ingredient a w))) /\
   stock_nonneg (store (snd (_save_ingredient a w)))) /\
  (costs_positive (store (snd (_update_ingredient e w))) /\
   stock_nonneg (store (snd (_update_ingredient e w)))).
Proof.
  intros Hcost Hstock. split.
  - destruct (save_ingredient_cases a w)
      as [->|[id [row [_ [-> [Hc [Hq _]]]]]]]; [now split|].
    split; intros k r; simpl; destruct (decide (id = k)) as [->|Hne].
    + rewrite lookup_insert_eq. now intros [= <-].
    + rewrite lookup_insert_ne by exact Hne. apply Hcost.
    + rewrite lookup_insert_eq. now intros [= <-].
    + rewrite lookup_insert_ne by exact Hne. apply Hstock.
  - destruct (update_ingredient_cases e w)
      as [->|[c [d [row [_ [_ [Hc [_ [-> _]]]]]]]]]; [now split|].
    split; intros k r; simpl; destruct (decide (ing_id e = k)) as [<-|Hne].
    + rewrite lookup_insert_eq. now intros [= <-].
    + rewrite lookup_insert_ne by exact Hne. apply Hcost.
    + rewrite lookup_insert_eq. intros [= <-]. simpl. apply sql_max_floor.
    + rewrite lookup_insert_ne by exact Hne. apply Hstock.
Qed.

(** Refreshing the list changes nothing but the count of connections. *)
Lemma display_then_ret {A} (x : A) w :
  (let* _ := _display_inventory in ret x) w = (Returns x, connected w).
Proof.
  unfold _display_inventory, connect_db. munfold.
  destruct (reachable w); reflexivity.
Qed.

Lemma delete_ingredient_blocked id w :
  is_Some (Ingredients (store w) !! id) ->
  referenced id (store w) = true ->
  delete_ingredient id w =
  (Raises (IntegrityError "FOREIGN KEY constraint failed"), w).
Proof.
  intros [row Hrow] Href. unfold delete_ingredient.
  unfold bind at 1. unfold query at 1. unfold bind at 1. unfold query at 1.
  rewrite Href. unfold rowcount. now rewrite Hrow.
Qed.

Lemma delete_ingredient_free id w :
  referenced id (store w) = false ->
  delete_ingredient id w =
  (Returns (rowcount id (store w)),
   set_store (set_Ingredients (delete id (Ingredients (store w))) (store w)) w).
Proof.
  intros Href. unfold delete_ingredient.
  unfold bind at 1. unfold query at 1. unfold bind at 1. unfold query at 1.
  now rewrite Href, andb_false_r.
Qed.

Lemma selected_name_is_Some id name type_str cost unit qty :
  is_Some (selected_name (display_str id name type_str cost unit qty)).
Proof.
  destruct (display_str_shape id name type_str cost unit qty) as [tail ->].
  unfold selected_name, PyStr.second_field.
  rewrite after_app by apply first_field_no_bar.
  cbn [PyStr.after Ascii.eqb Bool.eqb option_map]. eauto.
Qed.

(** Deleting from the list acts on the ingredient whose line is
    selected.  Declining the confirmation does nothing.  Once confirmed,
    on a reachable database: an ingredient that a recipe uses stays, and
    the dialog shows the integrity error; an ingredient no recipe uses is
    removed, it alone, with a success message; and for an id no longer
    stored nothing changes and a warning is shown. *)
Theorem delete_selected_acts_on_shown_id
    (id : Z) (name type_str unit : string) (cost qty : Q) (w : World) :
  let line := display_str id name type_str cost unit qty in
  _delete_selected_ingredient (Some line) false w = (Returns None, w) /\
  (reachable w = true ->
   let out := _delete_selected_ingredient (Some line) true w in
   (is_Some (Ingredients (store w) !! id) ->
    referenced id (store w) = true ->
    out = (Returns (Some (error_box "Error"
             "An error occurred during deletion: FOREIGN KEY constraint failed")),
           connected w)) /\
   (is_Some (Ingredients (store w) !! id) ->
    referenced id (store w) = false ->
    (exists text, fst out = Returns (Some (info_box "Success" text))) /\
    store (snd out) =
      set_Ingredients (delete id (Ingredients (store w))) (store w)) /\
   (Ingredients (store w) !! id = None ->
    fst out = Returns (Some (warning_box "Failed"
                "Ingredient not found or could not be deleted.")) /\
    store (snd out) = store w)).
Proof.
  intros line. subst line.
  destruct (selected_name_is_Some id name type_str cost unit qty) as [n Hn].
  split.
  { unfold _delete_selected_ingredient.
    now rewrite selected_id_display_str, Hn. }
  intros Hr. cbv zeta.
  assert (Hrun :
    _delete_selected_ingredient
      (Some (display_str id name type_str cost unit qty)) true w =
    match delete_ingredient id (connected w) with
    | (Raises e, w') =>
        (Returns (Some (error_box "Error"
           ("An error occurred during deletion: " +:+ exc_message e))), w')
    | (Returns rows_deleted, w') =>
        if 0 <? rows_deleted
        then (Returns (Some (info_box "Success" (n +:+ " deleted successfully."))),
              connected w')
        else (Returns (Some (warning_box "Failed"
                "Ingredient not found or could not be deleted.")), w')
    end).
  { unfold _delete_selected_ingredient.
    rewrite selected_id_display_str, Hn.
    unfold bind at 1. rewrite (connect_db_up w Hr).
    destruct (delete_ingredient id (connected w)) as [[k|e] w'];
      [|reflexivity].
    destruct (0 <? k); [apply display_then_ret | reflexivity]. }
  rewrite Hrun. clear Hrun. split; [|split].
  - intros Hsome Href.
    rewrite (delete_ingredient_blocked id (connected w)) by assumption.
    reflexivity.
  - intros [row Hrow] Href.
    rewrite (delete_ingredient_free id (connected w)) by assumption.
    unfold rowcount. simpl. rewrite Hrow. simpl. eauto.
  - intros Hnone.
    assert (Hdel : delete_ingredient id (connected w) = (Returns 0, connected w)).
    { unfold delete_ingredient.
      unfold bind at 1. unfold query at 1. unfold bind at 1. unfold query at 1.
      unfold rowcount. simpl. rewrite Hnone. simpl. munfold. simpl.
      rewrite delete_id by exact Hnone. now rewrite database_eta. }
    rewrite Hdel. split; reflexivity.
Qed.

(* ===================================================================== *)
(** * The inventory list *)
(* ===================================================================== *)

Lemma leb_cons c1 s1 c2 s2 :
  String.leb (String c1 s1) (String c2 s2) = true <->
  (N_of_ascii c1 < N_of_ascii c2)%N \/ (c1 = c2 /\ String.leb s1 s2 = true).
Proof.
  unfold String.leb. simpl. unfold Ascii.compare.
  destruct (N.compare_spec (N_of_ascii c1) (N_of_ascii c2)) as [Heq|Hlt|Hgt].
  - assert (c1 = c2) as ->.
    { rewrite <- (ascii_N_embedding c1), <- (ascii_N_embedding c2). now rewrite Heq. }
    split; [intros H; right; now split|].
    intros [H|[_ H]]; [lia|exact H].
  - split; [now left|reflexivity].
  - split; [discriminate|].
    intros [H|[-> _]]; lia.
Qed.

Lemma leb_trans a b c :
  String.leb a b = true -> String.leb b c = true -> String.leb a c = true.
Proof.
  revert b c. induction a as [|x a IH]; intros b c Hab Hbc.
  - now destruct c.
  - destruct b as [|y b]; [discriminate|].
    destruct c as [|z c]; [discriminate|].
    apply leb_cons in Hab. apply leb_cons in Hbc. apply leb_cons.
    destruct Hab as [Hab|[-> Hab]], Hbc as [Hbc|[-> Hbc]].
    + left. lia.
    + now left.
    + now left.
    + right. split; [reflexivity|]. now apply (IH b).
Qed.

Lemma by_name_trans : Transitive by_name.
Proof. intros a b c. unfold by_name. apply leb_trans. Qed.

Lemma by_name_total : Total by_name.
Proof. intros a b. unfold by_name. apply String.leb_total. Qed.

Lemma read_ingredients_rows d id row :
  In (id, row) (read_ingredients d) <-> Ingredients d !! id = Some row.
Proof.
  unfold read_ingredients. rewrite <- list_elem_of_In.
  rewrite (merge_sort_Permutation by_name).
  apply elem_of_map_to_list.
Qed.

(** [read_ingredients] returns every stored ingredient once, and nothing
    else, in the order of the names: a row never comes before one whose
    name is smaller. *)
Theorem read_ingredients_sorted_by_name (d : Database) :
  StronglySorted
    (fun a b => String.leb (ing_name (snd a)) (ing_name (snd b)) = true)
    (read_ingredients d) /\
  NoDup (map fst (read_ingredients d)) /\
  (forall id row,
     In (id, row) (read_ingredients d) <-> Ingredients d !! id = Some row).
Proof.
  split; [|split].
  - pose proof by_name_trans. pose proof by_name_total.
    unfold read_ingredients. now apply (StronglySorted_merge_sort by_name).
  - unfold read_ingredients.
    rewrite (merge_sort_Permutation by_name).
    apply NoDup_fst_map_to_list.
  - apply read_ingredients_rows.
Qed.



(* ===================================================================== *)
(** * Recipes and seeding *)
(* ===================================================================== *)

Lemma recipe_name_taken_spec name c :
  recipe_name_taken name c = true <->
  exists id row, Recipes c !! id = Some row /\ recipe_row_name row = name.
Proof.
  unfold recipe_name_taken. rewrite existsb_exists. split.
  - intros [[id row] [Hin Heq]]. exists id, row. split.
    + apply elem_of_map_to_list. now apply list_elem_of_In.
    + now apply String.eqb_eq.
  - intros [id [row [Hrow Heq]]]. exists (id, row). split.
    + apply list_elem_of_In. now apply elem_of_map_to_list.
    + now apply String.eqb_eq.
Qed.

Lemma recipe_name_free_spec name c :
  recipe_name_taken name c = false <->
  forall id row, Recipes c !! id = Some row -> recipe_row_name row <> name.
Proof.
  split.
  - intros Hfree id row Hrow Heq.
    assert (recipe_name_taken name c = true)
      by (apply recipe_name_taken_spec; eauto).
    congruence.
  - intros Hall. destruct (recipe_name_taken name c) eqn:E; [|reflexivity].
    apply recipe_name_taken_spec in E. destruct E as [id [row [Hrow Heq]]].
    now destruct (Hall id row Hrow).
Qed.

(** The rowid given to a new recipe is not in use. *)
Lemma next_recipe_id_fresh c : Recipes c !! next_rowid (recipe_ids c) = None.
Proof.
  destruct (Recipes c !! next_rowid (recipe_ids c)) as [r|] eqn:E;
    [|reflexivity].
  exfalso. apply elem_of_map_to_list in E.
  assert (Hin : In (next_rowid (recipe_ids c)) (recipe_ids c)).
  { unfold recipe_ids at 2. apply in_map_iff.
    exists (next_rowid (recipe_ids c), r). split; [reflexivity|].
    now apply list_elem_of_In. }
  apply next_rowid_above in Hin. lia.
Qed.

(** What the loop of [add_recipe] has done when it runs to its end. *)
Lemma insert_details_inr rid details d d' :
  insert_details rid details d = inr d' ->
  d' = set_Recipe_Details
         (Recipe_Details d ++
          map (fun p => mkDetail rid (fst p) (snd p)) details) d /\
  Forall (fun p => is_Some (Ingredients d !! fst p)) details /\
  NoDup (map fst details).
Proof.
  revert d d'. induction details as [|[id q] rest IH]; intros d d' H; simpl in H.
  - injection H as <-. split; [|split; constructor].
    destruct d. unfold set_Recipe_Details. simpl. now rewrite app_nil_r.
  - destruct (existsb _ (Recipe_Details d)) eqn:Hex; [discriminate|].
    destruct (Ingredients d !! id) as [row|] eqn:Hid; [|discriminate].
    assert (Hlater : forall q', In (id, q') rest -> False).
    { clear IH. intros q' Hin.
      remember (set_Recipe_Details (Recipe_Details d ++ [mkDetail rid id q]) d)
        as d1 eqn:Hd1.
      assert (Hrow : existsb (fun r => (recipe_id r =? rid) && (ingredient_id r =? id))
                       (Recipe_Details d1) = true).
      { subst d1. simpl. rewrite existsb_app. simpl.
        rewrite !Z.eqb_refl. simpl. apply orb_true_r. }
      clear Hd1 Hex Hid. revert d1 H Hrow.
      induction rest as [|[id2 q2] rest IH]; intros d1 H Hrow; [destruct Hin|].
      simpl in H. destruct Hin as [Heq|Hin].
      - injection Heq as -> ->. now rewrite Hrow in H.
      - destruct (existsb _ (Recipe_Details d1)); [discriminate|].
        destruct (Ingredients d1 !! id2); [|discriminate].
        apply (IH Hin _ H). simpl. rewrite existsb_app, Hrow. reflexivity. }
    apply IH in H. destruct H as (-> & Hst & Hnd). simpl in Hst.
    split; [|split].
    + unfold set_Recipe_Details. simpl. now rewrite <- app_assoc.
    + constructor; [simpl; rewrite Hid; eauto|exact Hst].
    + simpl. constructor; [|exact Hnd].
      rewrite list_elem_of_In, in_map_iff. intros [[id' q'] [Heq Hin]].
      simpl in Heq. subst id'. exact (Hlater q' Hin).
Qed.

(** When the loop of [add_recipe] runs to its end. *)
Lemma insert_details_succeeds rid details d :
  (forall r, In r (Recipe_Details d) ->
             recipe_id r = rid -> ~ In (ingredient_id r) (map fst details)) ->
  NoDup (map fst details) ->
  Forall (fun p => is_Some (Ingredients d !! fst p)) details ->
  exists d', insert_details rid details d = inr d'.
Proof.
  revert d. induction details as [|[id q] rest IH]; intros d Hfree Hnd Hst.
  - eexists. reflexivity.
  - simpl. inversion Hnd as [|? ? Hnotin Hnd']; subst.
    inversion Hst as [|? ? [row Hrow] Hst']; subst. simpl in Hrow.
    destruct (existsb _ (Recipe_Details d)) eqn:Hex.
    { exfalso. apply existsb_exists in Hex. destruct Hex as [r [Hin Hr]].
      apply andb_true_iff in Hr. destruct Hr as [H1 H2].
      apply Z.eqb_eq in H1. apply Z.eqb_eq in H2.
      apply (Hfree r Hin H1). simpl. now left. }
    rewrite Hrow. apply IH; [|exact Hnd'|exact Hst'].
    simpl. intros r Hin Hrid Hmem. apply in_app_iff in Hin.
    destruct Hin as [Hin|[<-|[]]].
    + apply (Hfree r Hin Hrid). simpl. now right.
    + simpl in Hmem. apply Hnotin. now apply list_elem_of_In.
Qed.

Lemma select_new_details rid details :
  List.filter (fun r => recipe_id r =? rid)
    (map (fun p => mkDetail rid (fst p) (snd p)) details) =
  map (fun p => mkDetail rid (fst p) (snd p)) details.
Proof.
  induction details as [|p rest IH]; [reflexivity|].
  simpl. rewrite Z.eqb_refl. now rewrite IH.
Qed.

Lemma select_other_details rid r details :
  r <> rid ->
  List.filter (fun x => recipe_id x =? r)
    (map (fun p => mkDetail rid (fst p) (snd p)) details) = [].
Proof.
  intros Hne. induction details as [|p rest IH]; [reflexivity|].
  simpl. destruct (rid =? r) eqn:E; [apply Z.eqb_eq in E; congruence|exact IH].
Qed.

Lemma select_fresh_recipe rid d :
  (forall r, In r (Recipe_Details d) -> recipe_id r <> rid) ->
  List.filter (fun r => recipe_id r =? rid) (Recipe_Details d) = [].
Proof.
  induction (Recipe_Details d) as [|x l IH]; [reflexivity|].
  intros Hall. simpl. destruct (recipe_id x =? rid) eqn:E.
  - apply Z.eqb_eq in E. exfalso. apply (Hall x); [now left|exact E].
  - apply IH. intros r Hin. apply Hall. now right.
Qed.

(** The ways [add_recipe] can end. *)
Lemma add_recipe_cases name volume cost details c :
  recipe_keys_ok c ->
  (add_recipe name volume cost details c =
     (Returns (next_rowid (recipe_ids c)),
      mkCatalog
        (<[next_rowid (recipe_ids c) := mkRecipeRow name volume cost]> (Recipes c))
        (set_store
           (set_Recipe_Details
              (Recipe_Details (store (file c)) ++
               map (fun p => mkDetail (next_rowid (recipe_ids c)) (fst p) (snd p))
                   details)
              (store (file c)))
           (file c))) /\
   recipe_name_taken name c = false /\
   NoDup (map fst details) /\
   Forall (fun p => is_Some (Ingredients (store (file c)) !! fst p)) details) \/
  ((exists e, add_recipe name volume cost details c = (Raises e, c)) /\
   ~ (recipe_name_taken name c = false /\
      NoDup (map fst details) /\
      Forall (fun p => is_Some (Ingredients (store (file c)) !! fst p)) details)).
Proof.
  intros Hkeys. unfold add_recipe.
  destruct (recipe_name_taken name c) eqn:Htaken.
  { right. split; [eauto|]. intros [H _]. discriminate. }
  destruct (insert_details (next_rowid (recipe_ids c)) details (store (file c)))
    as [e|d'] eqn:Hins.
  - right. split; [eauto|]. intros (_ & Hnd & Hst).
    destruct (insert_details_succeeds (next_rowid (recipe_ids c)) details
                (store (file c))) as [d' Hd']; [|exact Hnd|exact Hst|congruence].
    intros r Hin Hrid _. destruct (Hkeys r Hin) as [row Hrow].
    rewrite Hrid, next_recipe_id_fresh in Hrow. discriminate.
  - left. apply insert_details_inr in Hins. destruct Hins as (-> & Hst & Hnd).
    repeat split; assumption.
Qed.

(** [add_recipe] is all or nothing, and what it stores reads back.  It
    returns exactly when the name is not yet a recipe's, the dict names no
    ingredient twice and every ingredient it names is stored; otherwise it
    raises and the database is as before.  When it returns, the new id was
    not in use, the master row is stored under it, and [Recipe_Details]
    has gained one row per item of the dict, in the dict's order.  The
    composition [scale_recipe] then selects for the recipe is the dict's
    items, each once, but by ascending ingredient id, whatever the order
    of the dict.  The compositions of the other recipes, the ingredients
    and the batch log are untouched; rows still belong to stored
    recipes. *)
Theorem add_recipe_round_trip
    (name : string) (volume cost : Q) (details : list (Z * Q)) (c : Catalog) :
  recipe_keys_ok c ->
  let out := add_recipe name volume cost details c in
  ((exists rid, fst out = Returns rid) <->
   (forall id row, Recipes c !! id = Some row -> recipe_row_name row <> name) /\
   NoDup (map fst details) /\
   Forall (fun p => is_Some (Ingredients (store (file c)) !! fst p)) details) /\
  recipe_keys_ok (snd out) /\
  match fst out with
  | Raises _ => snd out = c
  | Returns rid =>
      Recipes c !! rid = None /\
      Recipes (snd out) = <[rid := mkRecipeRow name volume cost]> (Recipes c) /\
      Recipe_Details (store (file (snd out))) =
        Recipe_Details (store (file c)) ++
        map (fun p => mkDetail rid (fst p) (snd p)) details /\
      Permutation (select_recipe_details rid (store (file (snd out)))) details /\
      StronglySorted (fun a b => fst a <= fst b)
        (select_recipe_details rid (store (file (snd out)))) /\
      (forall r, r <> rid ->
         select_recipe_details r (store (file (snd out))) =
         select_recipe_details r (store (file c))) /\
      Ingredients (store (file (snd out))) = Ingredients (store (file c)) /\
      Batch_Log (store (file (snd out))) = Batch_Log (store (file c))
  end.
Proof.
  intros Hkeys out. subst out.
  destruct (add_recipe_cases name volume cost details c Hkeys)
    as [(-> & Hname & Hnd & Hst)|[[e ->] Hnot]]; simpl.
  - split; [|split].
    + split; [intros _|eauto].
      split; [now apply recipe_name_free_spec|now split].
    + intros r Hin. simpl in Hin. apply in_app_iff in Hin.
      cbn [Recipes snd]. destruct Hin as [Hin|Hin].
      * destruct (Hkeys r Hin) as [row Hrow].
        destruct (decide (next_rowid (recipe_ids c) = recipe_id r)) as [Heq|Hne].
        -- rewrite <- Heq, next_recipe_id_fresh in Hrow. discriminate.
        -- rewrite lookup_insert_ne by exact Hne. eauto.
      * apply in_map_iff in Hin. destruct Hin as [p [<- _]]. simpl.
        rewrite lookup_insert_eq. eauto.
    + split; [apply next_recipe_id_fresh|]. split; [reflexivity|].
      split; [reflexivity|].
      split; [|split; [apply select_recipe_details_sorted|]].
      * rewrite select_recipe_details_rows. simpl.
        rewrite List.filter_app, select_new_details, select_fresh_recipe.
        { simpl. rewrite map_map. simpl.
          replace (map (fun x : Z * Q => (fst x, snd x)) details) with details;
            [reflexivity|].
          clear. induction details as [|[id q] rest IH]; [reflexivity|].
          simpl. now rewrite <- IH. }
        intros r Hin Heq. destruct (Hkeys r Hin) as [row Hrow].
        rewrite Heq, next_recipe_id_fresh in Hrow. discriminate.
      * split; [|split; reflexivity].
        intros r Hne. unfold select_recipe_details. simpl.
        rewrite List.filter_app, select_other_details by exact Hne.
        now rewrite app_nil_r.
  - split; [|split; [exact Hkeys|reflexivity]].
    split; [intros [rid Hrid]; discriminate|].
    intros (Hname & Hnd & Hst). exfalso. apply Hnot.
    split; [now apply recipe_name_free_spec|now split].
Qed.

Lemma add_ingredient_run n t c d u q w :
  add_ingredient n t c d u q w =
  if name_taken n (store w) then (Returns DUPLICATE_NAME, w)
  else (Returns (LastRowId (next_rowid (ingredient_ids (store w)))),
        set_store
          (set_Ingredients
             (<[next_rowid (ingredient_ids (store w)) := mkIngredient n t c d u q]>
                (Ingredients (store w))) (store w)) w).
Proof.
  unfold add_ingredient. munfold. destruct (name_taken n (store w)); reflexivity.
Qed.

Lemma add_ingredient_keeps n t c d u q w id :
  is_Some (Ingredients (store w) !! id) ->
  is_Some (Ingredients (store (snd (add_ingredient n t c d u q w))) !! id).
Proof.
  intros Hsome. rewrite add_ingredient_run.
  destruct (name_taken n (store w)); [exact Hsome|]. simpl.
  destruct (decide (next_rowid (ingredient_ids (store w)) = id)) as [->|Hne].
  - rewrite lookup_insert_eq. eauto.
  - now rewrite lookup_insert_ne by exact Hne.
Qed.

Lemma add_ingredient_leaves_one n t c d u q w :
  exists id, is_Some (Ingredients (store (snd (add_ingredient n t c d u q w))) !! id).
Proof.
  rewrite add_ingredient_run. destruct (name_taken n (store w)) eqn:Htaken.
  - apply name_taken_spec in Htaken. destruct Htaken as [id [row [Hrow _]]].
    exists id. simpl. rewrite Hrow. eauto.
  - exists (next_rowid (ingredient_ids (store w))). simpl.
    rewrite lookup_insert_eq. eauto.
Qed.

Lemma add_ingredient_returns n t c d u q w :
  exists r, fst (add_ingredient n t c d u q w) = Returns r.
Proof.
  rewrite add_ingredient_run. destruct (name_taken n (store w)); simpl; eauto.
Qed.

Lemma seed_ingredients_cons ing rest m w :
  seed_ingredients (ing :: rest) m w =
  let '(name, type_str, cost, detail, unit) := models.get_details ing in
  match add_ingredient name type_str cost detail unit
          (if String.eqb type_str "Base" then 20.0%Q else 10.0%Q) w with
  | (Returns DUPLICATE_NAME, w') => seed_ingredients rest m w'
  | (Returns (LastRowId id), w') => seed_ingredients rest (<[name := id]> m) w'
  | (Raises e, w') => (Raises e, w')
  end.
Proof.
  simpl. destruct (models.get_details ing) as [[[[name type_str] cost] detail] unit].
  unfold bind.
  destruct (add_ingredient name type_str cost detail unit _ w) as [[[id|]|e] w'];
    reflexivity.
Qed.

Lemma seed_ingredients_keeps l m w id :
  is_Some (Ingredients (store w) !! id) ->
  is_Some (Ingredients (store (snd (seed_ingredients l m w))) !! id).
Proof.
  revert m w. induction l as [|ing rest IH]; intros m w Hsome; [exact Hsome|].
  rewrite seed_ingredients_cons.
  destruct (models.get_details ing) as [[[[name type_str] cost] detail] unit].
  pose proof (add_ingredient_keeps name type_str cost detail unit
                (if String.eqb type_str "Base" then 20.0%Q else 10.0%Q) w id Hsome)
    as Hkeep.
  destruct (add_ingredient name type_str cost detail unit _ w) as [[[k|]|e] w'];
    simpl in Hkeep; [now apply IH|now apply IH|exact Hkeep].
Qed.

Lemma seed_ingredients_leaves_one ing rest m w :
  exists id,
    is_Some (Ingredients (store (snd (seed_ingredients (ing :: rest) m w))) !! id).
Proof.
  rewrite seed_ingredients_cons.
  destruct (models.get_details ing) as [[[[name type_str] cost] detail] unit].
  destruct (add_ingredient_leaves_one name type_str cost detail unit
              (if String.eqb type_str "Base" then 20.0%Q else 10.0%Q) w)
    as [id Hid].
  exists id.
  destruct (add_ingredient name type_str cost detail unit _ w) as [[[k|]|e] w'];
    simpl in Hid; [now apply seed_ingredients_keeps..|exact Hid].
Qed.

Lemma sum_base_cost_world items acc w : snd (sum_base_cost items acc w) = w.
Proof.
  revert acc. induction items as [|[id q] rest IH]; intros acc; [reflexivity|].
  simpl. unfold bind, query. destruct (select_cost id (store w)); [apply IH|reflexivity].
Qed.

Lemma insert_details_Ingredients rid details d d' :
  insert_details rid details d = inr d' -> Ingredients d' = Ingredients d.
Proof.
  intros H. apply insert_details_inr in H. now destruct H as [-> _].
Qed.

Lemma add_recipe_Ingredients name volume cost details c :
  Ingredients (store (file (snd (add_recipe name volume cost details c)))) =
  Ingredients (store (file c)).
Proof.
  unfold add_recipe. destruct (recipe_name_taken name c); [reflexivity|].
  destruct (insert_details _ details (store (file c))) as [e|d'] eqn:Hins;
    [reflexivity|].
  simpl. now apply insert_details_Ingredients in Hins.
Qed.

Lemma seed_recipes_Ingredients recipes c :
  Ingredients (store (file (snd (seed_recipes recipes c)))) =
  Ingredients (store (file c)).
Proof.
  revert c. induction recipes as [|recipe rest IH]; intros c; [reflexivity|].
  simpl.
  pose proof (sum_base_cost_world (models.get_ingredients recipe) 0 (file c)) as Hw.
  destruct (sum_base_cost (models.get_ingredients recipe) 0 (file c)) as [[b|e] w];
    simpl in Hw; subst w; [|now destruct c].
  replace (set_file (file c) c) with c by now destruct c.
  pose proof (add_recipe_Ingredients (models.Recipe_get_name recipe)
                (models.get_target_volume recipe) b
                (models.get_ingredients recipe) c) as Hadd.
  destruct (add_recipe _ _ b _ c) as [[rid|e] c']; simpl in Hadd;
    [rewrite IH|]; exact Hadd.
Qed.

Lemma read_ingredients_nil d : read_ingredients d = [] <-> Ingredients d = ∅.
Proof.
  unfold read_ingredients. split; intros H.
  - apply map_to_list_empty_iff. apply Permutation_nil.
    rewrite <- H. apply (merge_sort_Permutation by_name).
  - apply Permutation_nil. rewrite (merge_sort_Permutation by_name).
    now rewrite H, map_to_list_empty.
Qed.

(** Seeding happens once.  Whatever the database holds, after
    [seed_initial_data] has run, with or without an error, the table of
    ingredients is not empty, and running it again returns at once and
    changes nothing. *)
Theorem seed_initial_data_once (c : Catalog) :
  let seeded := snd (seed_initial_data c) in
  Ingredients (store (file seeded)) <> ∅ /\
  seed_initial_data seeded = (ReturnsNone, seeded).
Proof.
  intros seeded.
  assert (Hne : Ingredients (store (file seeded)) <> ∅).
  { subst seeded. unfold seed_initial_data.
    destruct (read_ingredients (store (file c))) as [|x l] eqn:Hread.
    - assert (Hsome : exists id,
        is_Some (Ingredients (store (file (snd
          (match seed_ingredients models.create_initial_ingredients ∅ (file c) with
           | (Raises e, w) => (SeedRaises e, set_file w c)
           | (Returns ingredient_id_map, w) =>
               match models.create_initial_recipes ingredient_id_map with
               | inl key => (SeedKeyError key, set_file w c)
               | inr initial_recipes => seed_recipes initial_recipes (set_file w c)
               end
           end)))) !! id)).
      { destruct (seed_ingredients_leaves_one
                    (models.Fermentable "Pilsner Malt" "lb" 1.00 2.0)
                    (tl models.create_initial_ingredients) ∅ (file c))
          as [id Hid].
        exists id.
        change (models.Fermentable "Pilsner Malt" "lb" 1.00 2.0
                :: tl models.create_initial_ingredients)
          with models.create_initial_ingredients in Hid.
        destruct (seed_ingredients models.create_initial_ingredients ∅ (file c))
          as [[m|e] w]; simpl in Hid; [|exact Hid].
        destruct (models.create_initial_recipes m) as [key|recipes];
          [exact Hid|].
        now rewrite seed_recipes_Ingredients. }
      destruct Hsome as [id [row Hrow]]. intros Hempty.
      rewrite Hempty, lookup_empty in Hrow. discriminate.
    - simpl. intros Hempty. apply read_ingredients_nil in Hempty. congruence. }
  split; [exact Hne|].
  unfold seed_initial_data at 1.
  destruct (read_ingredients (store (file seeded))) as [|x l] eqn:Hread;
    [|reflexivity].
  apply read_ingredients_nil in Hread. contradiction.
Qed.

(** On a new database the run of [seed_initial_data] does not depend on
    the batch log, the clock or the connection count. *)
Lemma seed_new_database_run c :
  new_database c ->
  seed_initial_data c =
  (ReturnsNone,
   mkCatalog (Recipes seeded_catalog)
     (set_store
        (mkDatabase (Ingredients (store (file seeded_catalog)))
                    (Recipe_Details (store (file seeded_catalog)))
                    (Batch_Log (store (file c))))
        (file c))).
Proof.
  destruct c as [R [r [I RD BL] n k]]. intros (H1 & H2 & H3).
  simpl in H1, H2, H3. subst R I RD. vm_compute. reflexivity.
Qed.

Lemma rows_forallb {A} (f : Z * A -> bool) (m : gmap Z A) id row :
  forallb f (map_to_list m) = true -> m !! id = Some row -> f (id, row) = true.
Proof.
  intros Hall Hrow. rewrite forallb_forall in Hall. apply Hall.
  apply list_elem_of_In. now apply elem_of_map_to_list.
Qed.

Lemma names_unique_by_list (m : gmap Z IngredientRow) :
  NoDup (map (fun kr => ing_name (snd kr)) (map_to_list m)) ->
  forall i j ri rj,
    m !! i = Some ri -> m !! j = Some rj -> ing_name ri = ing_name rj -> i = j.
Proof.
  intros Hnd i j ri rj Hi Hj Heq.
  apply elem_of_map_to_list in Hi. apply elem_of_map_to_list in Hj.
  assert (H : (i, ri) = (j, rj)); [|now injection H].
  revert Hnd Hi Hj. generalize (map_to_list m). intros l Hnd Hi Hj.
  induction l as [|x l IH]; [now apply elem_of_nil in Hi|].
  simpl in Hnd. apply NoDup_cons in Hnd. destruct Hnd as [Hx Hnd].
  apply elem_of_cons in Hi. apply elem_of_cons in Hj.
  destruct Hi as [Hi|Hi], Hj as [Hj|Hj].
  - congruence.
  - exfalso. apply Hx. subst x. simpl. rewrite Heq.
    apply (list_elem_of_fmap_2 (fun kr : Z * IngredientRow => ing_name (snd kr)) l (j, rj)).
    exact Hj.
  - exfalso. apply Hx. subst x. simpl. rewrite <- Heq.
    apply (list_elem_of_fmap_2 (fun kr : Z * IngredientRow => ing_name (snd kr)) l (i, ri)).
    exact Hi.
  - now apply IH.
Qed.

Lemma rows_existsb {A} (f : Z * A -> bool) (m : gmap Z A) :
  existsb f (map_to_list m) = true ->
  exists id row, m !! id = Some row /\ f (id, row) = true.
Proof.
  intros Hex. apply existsb_exists in Hex. destruct Hex as [[id row] [Hin Hf]].
  exists id, row. split; [|exact Hf].
  apply elem_of_map_to_list. now apply list_elem_of_In.
Qed.

Lemma is_Some_true {A} (o : option A) :
  match o with Some _ => true | None => false end = true -> is_Some o.
Proof. destruct o; [eauto|discriminate]. Qed.

Lemma seeded_foreign_keys bl :
  foreign_keys_ok
    (mkDatabase (Ingredients (store (file seeded_catalog)))
                (Recipe_Details (store (file seeded_catalog))) bl).
Proof.
  intros r Hin. cbn [Ingredients Recipe_Details] in *.
  assert (Hall : forallb (fun r =>
    match Ingredients (store (file seeded_catalog)) !! ingredient_id r with
    | Some _ => true | None => false end)
    (Recipe_Details (store (file seeded_catalog))) = true)
    by (vm_compute; reflexivity).
  rewrite forallb_forall in Hall. apply is_Some_true. now apply Hall.
Qed.

Lemma ingredient_named_Some name d id :
  ingredient_named name d = Some id ->
  exists row, Ingredients d !! id = Some row /\ ing_name row = name.
Proof.
  unfold ingredient_named. intros H.
  destruct (List.find _ (read_ingredients d)) as [[k row]|] eqn:Hfind;
    [|discriminate].
  injection H as <-. apply find_some in Hfind. destruct Hfind as [Hin Heq].
  exists row. split; [now apply read_ingredients_rows|now apply String.eqb_eq].
Qed.

Lemma named_pairs d (entries : list (string * Q)) :
  forallb (fun e => match ingredient_named (fst e) d with
                    | Some _ => true | None => false end) entries = true ->
  Forall2 (fun e p =>
             snd p = snd e /\
             exists irow, Ingredients d !! fst p = Some irow /\
                          ing_name irow = fst e)
          entries
          (map (fun e => (default 0 (ingredient_named (fst e) d), snd e)) entries).
Proof.
  intros Hall. apply Forall2_fmap_r, Forall_Forall2_diag, Forall_forall.
  intros e Hin. rewrite forallb_forall in Hall.
  specialize (Hall e (proj1 (list_elem_of_In _ _) Hin)). simpl.
  destruct (ingredient_named (fst e) d) as [id|] eqn:Hid; [|discriminate].
  split; [reflexivity|]. now apply ingredient_named_Some.
Qed.

(** Seeding a new database succeeds and sets up what the rest of the
    program relies on.  Each of the 24 ingredient objects is stored with
    its name, cost and unit, 20 units on hand for the plain [Ingredient]
    objects and 10 for the others.  Each of the 11 recipes of the menu is
    stored with a base volume of 15 and its composition: the rows of
    [Recipe_Details] under the recipe's id are, each once, the entries of
    the recipe's dict, every name replaced by the id of the ingredient
    stored under that name with the entry's quantity; and the base cost
    stored is the sum of cost times quantity over those entries.  Names
    are unique, costs positive, stocks not negative, and every
    composition row belongs to a stored recipe and names a stored
    ingredient.  The batch log is not touched. *)
Theorem seed_new_database (c : Catalog) :
  new_database c ->
  let out := seed_initial_data c in
  let d := store (file (snd out)) in
  fst out = ReturnsNone /\
  Batch_Log d = Batch_Log (store (file c)) /\
  size (Ingredients d) = length models.create_initial_ingredients /\
  Forall (fun ing =>
            exists id row,
              Ingredients d !! id = Some row /\
              ing_name row = models.get_name ing /\
              (ing_cost row == models.get_cost ing)%Q /\
              ing_unit row = models.get_unit ing /\
              (inventory_qty row ==
               match ing with models.Ingredient _ _ _ => 20 | _ => 10 end)%Q)
         models.create_initial_ingredients /\
  size (Recipes (snd out)) = length models.menu /\
  Forall (fun entry =>
            exists rid row pairs,
              Recipes (snd out) !! rid = Some row /\
              recipe_row_name row = fst entry /\
              Forall2 (fun e p =>
                         snd p = snd e /\
                         exists irow, Ingredients d !! fst p = Some irow /\
                                      ing_name irow = fst e)
                      (snd entry) pairs /\
              Permutation
                (map (fun r => (ingredient_id r, quantity r))
                     (List.filter (fun r => recipe_id r =? rid)
                                  (Recipe_Details d)))
                pairs /\
              (base_cost row == composition_cost d pairs)%Q)
         models.menu /\
  (forall rid row,
     Recipes (snd out) !! rid = Some row ->
     (target_volume_BBL row == 15)%Q /\
     (base_cost row == composition_cost d (select_recipe_details rid d))%Q) /\
  names_unique d /\ costs_positive d /\ stock_nonneg d /\
  foreign_keys_ok d /\ recipe_keys_ok (snd out).
Proof.
  intros Hnew out d. subst d out.
  rewrite (seed_new_database_run c Hnew).
  cbn [fst snd file store set_store Recipes].
  generalize (Batch_Log (store (file c))). intros bl.
  set (d := mkDatabase (Ingredients (store (file seeded_catalog)))
                       (Recipe_Details (store (file seeded_catalog))) bl).
  split; [reflexivity|]. split; [reflexivity|].
  split; [vm_compute; reflexivity|].
  split.
  { apply Forall_forall. intros ing Hin. apply list_elem_of_In in Hin.
    assert (Hall : forallb (fun ing =>
      existsb (fun kr : Z * IngredientRow =>
                 String.eqb (ing_name (snd kr)) (models.get_name ing) &&
                 Qeq_bool (ing_cost (snd kr)) (models.get_cost ing) &&
                 String.eqb (ing_unit (snd kr)) (models.get_unit ing) &&
                 Qeq_bool (inventory_qty (snd kr))
                   match ing with models.Ingredient _ _ _ => 20 | _ => 10 end)
              (map_to_list (Ingredients (store (file seeded_catalog)))))
      models.create_initial_ingredients = true) by (vm_compute; reflexivity).
    rewrite forallb_forall in Hall. specialize (Hall ing Hin).
    apply rows_existsb in Hall. destruct Hall as [id [row [Hrow Htest]]].
    cbn [snd] in Htest.
    apply andb_true_iff in Htest. destruct Htest as [Htest Hqty].
    apply andb_true_iff in Htest. destruct Htest as [Htest Hunit].
    apply andb_true_iff in Htest. destruct Htest as [Hname Hcost].
    exists id, row. split; [exact Hrow|].
    split; [now apply String.eqb_eq|]. split; [now apply Qeq_bool_iff|].
    split; [now apply String.eqb_eq|now apply Qeq_bool_iff]. }
  split; [vm_compute; reflexivity|].
  split.
  { apply Forall_forall. intros entry Hin. apply list_elem_of_In in Hin.
    assert (Hall : forallb (fun entry : string * list (string * Q) =>
      existsb (fun kr : Z * RecipeRow =>
                 String.eqb (recipe_row_name (snd kr)) (fst entry) &&
                 forallb (fun e : string * Q =>
                            match ingredient_named (fst e) d with
                            | Some _ => true | None => false end) (snd entry) &&
                 bool_decide
                   (select_recipe_details (fst kr) d =
                    @merge_sort (Z * Q) (fun a b => fst a <= fst b)
                      (fun a b => decide (fst a <= fst b))
                      (map (fun e : string * Q =>
                              (default 0 (ingredient_named (fst e) d), snd e))
                           (snd entry))) &&
                 Qeq_bool (base_cost (snd kr))
                   (composition_cost d
                      (map (fun e : string * Q =>
                              (default 0 (ingredient_named (fst e) d), snd e))
                           (snd entry))))
              (map_to_list (Recipes seeded_catalog)))
      models.menu = true) by (vm_compute; reflexivity).
    rewrite forallb_forall in Hall. specialize (Hall entry Hin).
    apply rows_existsb in Hall. destruct Hall as [rid [row [Hrow Htest]]].
    cbn [fst snd] in Htest.
    apply andb_true_iff in Htest. destruct Htest as [Htest Hcost].
    apply andb_true_iff in Htest. destruct Htest as [Htest Hsel].
    apply andb_true_iff in Htest. destruct Htest as [Hname Hfound].
    apply bool_decide_eq_true_1 in Hsel.
    exists rid, row,
      (map (fun e : string * Q =>
              (default 0 (ingredient_named (fst e) d), snd e)) (snd entry)).
    split; [exact Hrow|]. split; [now apply String.eqb_eq|].
    split; [now apply named_pairs|].
    split; [|now apply Qeq_bool_iff].
    rewrite <- (select_recipe_details_rows rid d), Hsel.
    apply (merge_sort_Permutation (fun a b : Z * Q => fst a <= fst b)
             (H := fun a b => decide (fst a <= fst b))). }
  split.
  { intros rid row Hrow.
    assert (Hall : forallb (fun kr : Z * RecipeRow =>
      Qeq_bool (target_volume_BBL (snd kr)) 15 &&
      Qeq_bool (base_cost (snd kr))
        (composition_cost d (select_recipe_details (fst kr) d)))
      (map_to_list (Recipes seeded_catalog)) = true) by (vm_compute; reflexivity).
    pose proof (rows_forallb _ _ rid row Hall Hrow) as Htest.
    cbn [fst snd] in Htest.
    apply andb_true_iff in Htest. destruct Htest as [Hvol Hcost].
    split; now apply Qeq_bool_iff. }
  split.
  { unfold names_unique. cbn [Ingredients]. apply names_unique_by_list.
    apply (bool_decide_unpack _). vm_compute. exact I. }
  split.
  { intros id row Hrow. cbn [Ingredients] in Hrow.
    assert (Hall : forallb (fun kr : Z * IngredientRow =>
                              negb (Qle_bool (ing_cost (snd kr)) 0))
      (map_to_list (Ingredients (store (file seeded_catalog)))) = true)
      by (vm_compute; reflexivity).
    pose proof (rows_forallb _ _ id row Hall Hrow) as Htest.
    apply negb_true_iff in Htest. now apply Qle_bool_false_lt. }
  split.
  { intros id row Hrow. cbn [Ingredients] in Hrow.
    assert (Hall : forallb (fun kr : Z * IngredientRow =>
                              Qle_bool 0 (inventory_qty (snd kr)))
      (map_to_list (Ingredients (store (file seeded_catalog)))) = true)
      by (vm_compute; reflexivity).
    pose proof (rows_forallb _ _ id row Hall Hrow) as Htest.
    now apply Qle_bool_iff. }
  split; [apply seeded_foreign_keys|].
  { intros r Hin. cbn [Recipes file store set_store Recipe_Details] in *.
    assert (Hall : forallb (fun r =>
      match Recipes seeded_catalog !! recipe_id r with
      | Some _ => true | None => false end)
      (Recipe_Details (store (file seeded_catalog))) = true)
      by (vm_compute; reflexivity).
    rewrite forallb_forall in Hall. apply is_Some_true. now apply Hall. }
Qed.

Lemma short_of_a_large_row (q nv ov stock : Q) :
  (400 <= q)%Q -> (MIN_VOLUME_BBL < nv)%Q -> (ov == 15)%Q -> (stock <= 10)%Q ->
  (stock < q * (nv / ov))%Q.
Proof.
  intros Hq Hnv Hov Hstock. rewrite Hov. unfold MIN_VOLUME_BBL in Hnv.
  apply Qle_lt_trans with (y := 10%Q); [exact Hstock|].
  unfold Qdiv. change (/ 15)%Q with (1 # 15)%Q. nra.
Qed.

(** A list of stored items with a shortfall somewhere splits at its
    first shortfall. *)
Lemma first_shortfall d items it row :
  Forall (known d) items ->
  In it items ->
  Ingredients d !! item_id it = Some row ->
  (inventory_qty row < item_quantity it)%Q ->
  exists pre short post irow,
    items = pre ++ short :: post /\
    Forall (covered d) pre /\
    Ingredients d !! item_id short = Some irow /\
    (inventory_qty irow < item_quantity short)%Q.
Proof.
  intros Hknown Hin Hrow Hlt.
  induction items as [|p items IH]; [destruct Hin|].
  inversion Hknown as [|? ? [prow Hp] Hknown']; subst.
  destruct (Qlt_le_dec (inventory_qty prow) (item_quantity p)) as [Hshort|Hok].
  - exists [], p, items, prow. repeat split; [constructor|assumption..].
  - destruct Hin as [->|Hin].
    + rewrite Hrow in Hp. injection Hp as <-.
      exfalso. apply (Qlt_not_le _ _ Hlt Hok).
    + destruct (IH Hknown' Hin) as (pre & short & post & irow & -> & Hpre & Hs & Hq).
      exists (p :: pre), short, post, irow.
      repeat split; [|assumption..].
      constructor; [|exact Hpre]. exists prow. now split.
Qed.

(** Right after seeding no recipe can be brewed.  On a newly seeded
    database every recipe of the menu, scaled from its base volume to any
    volume above the minimum, asks for more of one of its ingredients
    than is on hand: [calculate_and_log_batch] reports the shortfall of
    the first such item of the scaled list, and no stock changes and
    nothing is logged. *)
Theorem seeded_recipes_cannot_be_brewed
    (c : Catalog) (rid : Z) (row : RecipeRow) (nv cost : Q) :
  new_database c ->
  reachable (file c) = true ->
  Recipes (snd (seed_initial_data c)) !! rid = Some row ->
  (MIN_VOLUME_BBL < nv)%Q ->
  let w := file (snd (seed_initial_data c)) in
  exists pre it post irow,
    scale_recipe rid (target_volume_BBL row) nv w =
      (Returns (pre ++ it :: post, (nv / target_volume_BBL row)%Q),
       connected w) /\
    Forall (covered (store w)) pre /\
    Ingredients (store w) !! item_id it = Some irow /\
    (inventory_qty irow < item_quantity it)%Q /\
    calculate_and_log_batch (recipe_row_name row) nv cost (pre ++ it :: post)
                            (connected w) =
      (Returns (false,
                insufficient_message (item_name it) (item_quantity it)
                                     (inventory_qty irow)),
       connected (connected w)).
Proof.
  intros Hnew Hr Hrow Hnv w. subst w. revert Hrow.
  rewrite (seed_new_database_run c Hnew). cbn [snd file Recipes].
  generalize (Batch_Log (store (file c))). intros bl Hrow.
  set (d := mkDatabase (Ingredients (store (file seeded_catalog)))
                       (Recipe_Details (store (file seeded_catalog))) bl).
  assert (Hall : forallb (fun kr : Z * RecipeRow =>
      negb (Qle_bool (target_volume_BBL (snd kr)) MIN_VOLUME_BBL) &&
      Qeq_bool (target_volume_BBL (snd kr)) 15 &&
      existsb (fun pair : Z * Q =>
                 Qle_bool 400 (snd pair) &&
                 match Ingredients d !! fst pair with
                 | Some r0 => Qle_bool (inventory_qty r0) 10
                 | None => false
                 end)
              (select_recipe_details (fst kr) d))
    (map_to_list (Recipes seeded_catalog)) = true) by (vm_compute; reflexivity).
  pose proof (rows_forallb _ _ rid row Hall Hrow) as Htest. clear Hall.
  cbn [fst snd] in Htest.
  apply andb_true_iff in Htest. destruct Htest as [Htest Hlarge].
  apply andb_true_iff in Htest. destruct Htest as [Hmin Hov].
  apply negb_true_iff, Qle_bool_false_lt in Hmin. apply Qeq_bool_iff in Hov.
  apply existsb_exists in Hlarge. destruct Hlarge as [[id q] [Hin Hlarge]].
  cbn [fst snd] in Hlarge.
  apply andb_true_iff in Hlarge. destruct Hlarge as [Hq Hstock].
  apply Qle_bool_iff in Hq.
  destruct (Ingredients d !! id) as [r0|] eqn:Hr0; [|discriminate].
  apply Qle_bool_iff in Hstock.
  pose proof (seeded_foreign_keys bl) as Hfk. fold d in Hfk.
  destruct (first_shortfall d
              (map (scaled_item d (nv / target_volume_BBL row))
                   (select_recipe_details rid d))
              (scaled_item d (nv / target_volume_BBL row) (id, q)) r0)
    as (pre & it & post & irow & Hsplit & Hpre & Hit & Hshort).
  - apply scaled_items_known. now apply select_recipe_details_known.
  - now apply in_map.
  - exact Hr0.
  - cbn [item_quantity scaled_item snd]. now apply short_of_a_large_row.
  - exists pre, it, post, irow.
    split; [|split; [exact Hpre|split; [exact Hit|split; [exact Hshort|]]]].
    + rewrite scale_recipe_run;
        [|exact Hr|exact Hfk|exact Hmin|exact Hnv].
      cbn [store set_store]. fold d. now rewrite Hsplit.
    + rewrite calculate_and_log_batch_up by exact Hr.
      pose proof (check_inventory_first_short pre it post irow
                    (connected (connected (set_store d (file c))))
                    Hpre Hit Hshort) as Hstop.
      rewrite Hstop. reflexivity.
Qed.

(* ===================================================================== *)
(** * The further properties at concrete inputs *)
(* ===================================================================== *)

Lemma cellar_rows id row :
  Ingredients cellar !! id = Some row ->
  (id = 1 /\ row = pale_malt 10) \/ (id = 2 /\ row = cascade 5).
Proof.
  unfold cellar. simpl. intros Hrow.
  destruct (decide (id = 1)) as [->|H1].
  { rewrite lookup_insert_eq in Hrow. injection Hrow as <-. now left. }
  rewrite lookup_insert_ne in Hrow by congruence.
  destruct (decide (id = 2)) as [->|H2].
  { rewrite lookup_insert_eq in Hrow. injection Hrow as <-. now right. }
  rewrite lookup_insert_ne in Hrow by congruence.
  rewrite lookup_empty in Hrow. discriminate.
Qed.

Lemma cellar_foreign_keys : foreign_keys_ok cellar.
Proof.
  intros r Hin. simpl in Hin.
  destruct Hin as [<-|[<-|[<-|[]]]]; eexists; reflexivity.
Qed.

Lemma cellar_names_unique : names_unique cellar.
Proof.
  unfold names_unique. apply names_unique_by_list.
  apply (bool_decide_unpack _). vm_compute. exact I.
Qed.

(** [add_ingredient_round_trip] at concrete inputs. *)
Lemma add_ingredient_round_trip_witness :
  add_ingredient "Pale Malt" "Fermentable" 1 4 "lb" 3 brewery =
    (Returns DUPLICATE_NAME, brewery) /\
  exists id w',
    add_ingredient "Citra Hops" "Hop" 2 12 "oz" 0 brewery =
      (Returns (LastRowId id), w') /\
    Ingredients (store w') !! id = Some (mkIngredient "Citra Hops" "Hop" 2 12 "oz" 0).
Proof.
  split.
  - apply (add_ingredient_round_trip "Pale Malt" "Fermentable" "lb" 1 4 3 brewery).
    exists 1, (pale_malt 10). split; reflexivity.
  - destruct (proj2 (add_ingredient_round_trip "Citra Hops" "Hop" "oz" 2 12 0 brewery))
      as [id [w' [Hrun [_ [Hrow _]]]]].
    + intros id row Hrow.
      destruct (cellar_rows id row Hrow) as [[_ ->]|[_ ->]]; discriminate.
    + exists id, w'. split; assumption.
Defined.

(** [delete_ingredient_restricts] at concrete inputs. *)
Lemma delete_ingredient_restricts_witness :
  delete_ingredient 1 pantry =
    (Raises (IntegrityError "FOREIGN KEY constraint failed"), pantry) /\
  exists w',
    delete_ingredient 3 pantry = (Returns 1, w') /\
    Ingredients (store w') !! 3 = None.
Proof.
  split.
  - apply (delete_ingredient_restricts 1 pantry).
    + eexists. reflexivity.
    + exists (mkDetail 1 1 1). split; [now left|reflexivity].
  - destruct (proj2 (delete_ingredient_restricts 3 pantry))
      as [w' [Hrun [Hgone _]]].
    + intros r Hin. simpl in Hin.
      destruct Hin as [<-|[<-|[<-|[]]]]; simpl; lia.
    + exists w'. split; [exact Hrun|exact Hgone].
Defined.

(** [consume_then_restock] at concrete inputs. *)
Lemma consume_then_restock_witness :
  exists row',
    Ingredients
      (store (snd (update_inventory_qty 1 12
                     (snd (update_inventory_qty 1 (- (12)) brewery))))) !! 1
      = Some row' /\
    (inventory_qty row' == Qmax (inventory_qty (pale_malt 10)) 12)%Q.
Proof.
  apply (consume_then_restock 1 12 (pale_malt 10) brewery);
    [reflexivity|qclosed].
Defined.

(** [perform_keeps_names_unique] at concrete inputs. *)
Lemma perform_keeps_names_unique_witness :
  names_unique
    (store (perform (AddIngredient "Citra Hops" "Hop" 2 12 "oz" 0) brewery)).
Proof.
  apply (perform_keeps_names_unique
           (AddIngredient "Citra Hops" "Hop" 2 12 "oz" 0) brewery).
  exact cellar_names_unique.
Defined.

(** [perform_keeps_foreign_keys] at concrete inputs. *)
Lemma perform_keeps_foreign_keys_witness :
  foreign_keys_ok (store (perform (DeleteIngredient 1) brewery)).
Proof.
  apply (perform_keeps_foreign_keys (DeleteIngredient 1) brewery).
  exact cellar_foreign_keys.
Defined.

(** [perform_keeps_log_ids_increasing] at concrete inputs. *)
Lemma perform_keeps_log_ids_increasing_witness :
  log_ids_increasing
    (store (perform (CommitBatch "Pale Ale" 15 (23 # 2) [hops_item 1])
                    logged_world)).
Proof.
  apply (perform_keeps_log_ids_increasing
           (CommitBatch "Pale Ale" 15 (23 # 2) [hops_item 1]) logged_world).
  unfold log_ids_increasing. vm_compute. repeat constructor.
Defined.

(** [get_batch_log_newest_first] at concrete inputs. *)
Lemma get_batch_log_newest_first_witness :
  let d := store (perform (CommitBatch "Pale Ale" 15 (23 # 2) [hops_item 1])
                          logged_world) in
  get_batch_log d = reverse (Batch_Log d) /\ map batch_id (get_batch_log d) = [2; 1].
Proof.
  intros d. split; [|reflexivity].
  apply (get_batch_log_newest_first d).
  unfold log_ids_increasing. vm_compute. repeat constructor.
Defined.

(** [scale_recipe_keeps_proportions] at concrete inputs. *)
Lemma scale_recipe_keeps_proportions_witness :
  exists items sf rows,
    fst (scale_recipe 1 15 30 brewery) = Returns (items, sf) /\
    Permutation rows [mkDetail 1 1 1; mkDetail 1 2 (5 # 2)] /\
    StronglySorted (fun a b => ingredient_id a <= ingredient_id b) rows /\
    Forall2 (fun r it =>
               item_id it = ingredient_id r /\
               (item_quantity it * 15 == quantity r * 30)%Q)
            rows items.
Proof.
  apply (scale_recipe_keeps_proportions 1 15 30 brewery);
    [reflexivity|exact cellar_foreign_keys|qclosed|qclosed].
Defined.

(** [scale_recipe_without_rows] at concrete inputs. *)
Lemma scale_recipe_without_rows_witness :
  scale_recipe 7 15 30 brewery = (Returns ([], (30 / 15)%Q), connected brewery).
Proof.
  apply (scale_recipe_without_rows 7 15 30 brewery);
    [reflexivity|qclosed|qclosed|].
  intros r Hin. simpl in Hin.
  destruct Hin as [<-|[<-|[<-|[]]]]; simpl; lia.
Defined.

(** [calculate_recipe_cost_app] at concrete inputs. *)
Lemma calculate_recipe_cost_app_witness :
  exists t1 t2 t,
    fst (calculate_recipe_cost [malt_item] brewery) = Returns t1 /\
    fst (calculate_recipe_cost [hops_item 5] brewery) = Returns t2 /\
    fst (calculate_recipe_cost ([malt_item] ++ [hops_item 5]) brewery) = Returns t /\
    (t == t1 + t2)%Q.
Proof.
  apply (calculate_recipe_cost_app [malt_item] [hops_item 5] brewery);
    [reflexivity| |]; repeat constructor; eexists; reflexivity.
Defined.

(** [cost_proportional_to_volume] at concrete inputs. *)
Lemma cost_proportional_to_volume_witness :
  exists items1 sf1 items2 sf2 t1 t2,
    fst (scale_recipe 1 15 30 brewery) = Returns (items1, sf1) /\
    fst (scale_recipe 1 15 45 brewery) = Returns (items2, sf2) /\
    fst (calculate_recipe_cost items1 brewery) = Returns t1 /\
    fst (calculate_recipe_cost items2 brewery) = Returns t2 /\
    (t1 * 45 == t2 * 30)%Q.
Proof.
  apply (cost_proportional_to_volume 1 15 30 45 brewery);
    [reflexivity|exact cellar_foreign_keys|qclosed|qclosed|qclosed].
Defined.


(** [commit_never_adds_stock] at concrete inputs. *)
Lemma commit_never_adds_stock_witness :
  Ingredients
    (store (snd (calculate_and_log_batch "Pale Ale" 15 (23 # 2) [malt_item] brewery)))
    !! 1 = Some (pale_malt 2) /\
  (inventory_qty (pale_malt 2) <= inventory_qty (pale_malt 10))%Q.
Proof.
  split; [reflexivity|].
  apply (commit_never_adds_stock "Pale Ale" 15 (23 # 2) [malt_item] brewery 1
           (pale_malt 10) (pale_malt 2)).
  - repeat constructor. qclosed.
  - reflexivity.
  - qclosed.
  - reflexivity.
Defined.

(** [cost_follows_price_update] at concrete inputs. *)
Lemma cost_follows_price_update_witness :
  exists t t',
    fst (calculate_recipe_cost [malt_item; hops_item 5] brewery) = Returns t /\
    fst (calculate_recipe_cost [malt_item; hops_item 5]
           (snd (update_cost 1 2 brewery))) = Returns t' /\
    (t' - t ==
     (2 - ing_cost (pale_malt 10)) * total_required 1 [malt_item; hops_item 5])%Q.
Proof.
  apply (cost_follows_price_update 1 2 (pale_malt 10) [malt_item; hops_item 5] brewery);
    [reflexivity|reflexivity|].
  repeat constructor; eexists; reflexivity.
Defined.

(** [log_batch_stale_display] at concrete inputs. *)
Lemma log_batch_stale_display_witness :
  _log_batch stale_app brewery =
  (Raises (ValueError "could not convert string to float"), brewery).
Proof.
  apply (log_batch_stale_display stale_app pale_ale_items brewery); reflexivity.
Defined.

(** [offline_quote_then_log] at concrete inputs. *)
Lemma offline_quote_then_log_witness :
  exists app1 app2 w3 id fc,
    _scale_and_cost fresh_app brewery_offline =
      (Returns app1, connected brewery_offline) /\
    dialogs app1 = dialogs fresh_app /\
    scaled_ingredients app1 = Some [] /\
    output_cost_var app1 = "Final Estimated Cost: $0.00" /\
    _log_batch app1 brewery = (Returns app2, w3) /\
    Ingredients (store w3) = Ingredients (store brewery) /\
    Batch_Log (store w3) =
      Batch_Log (store brewery) ++
      [mkBatch id (recipe_var fresh_app) 15 fc (clock brewery)] /\
    (fc == 0)%Q.
Proof.
  apply (offline_quote_then_log fresh_app 15 brewery_offline brewery);
    [reflexivity|reflexivity|reflexivity|qclosed|qclosed|reflexivity].
Defined.

(** [selected_name_round_trip] at concrete inputs. *)
Lemma selected_name_round_trip_witness :
  selected_name (display_str 1 "Pale Malt" "Fermentable" (99 # 100) "lb" 10) =
  Some "Pale Malt".
Proof.
  apply (selected_name_round_trip 1 "Pale Malt" "Fermentable" "lb" (99 # 100) 10);
    reflexivity.
Defined.

(** [save_ingredient_stores_valid_rows] at concrete inputs. *)
Lemma save_ingredient_stores_valid_rows_witness :
  exists id row,
    Ingredients (store brewery) !! id = None /\
    store (snd (_save_ingredient citra_dialog brewery)) =
      set_Ingredients (<[id := row]> (Ingredients (store brewery))) (store brewery) /\
    ing_name row = "Citra Hops".
Proof.
  destruct (save_ingredient_stores_valid_rows citra_dialog brewery)
    as [Hsame|(id & row & Hnew & Hstore & _ & _ & _ & Hname & _)].
  - exfalso.
    assert (Hrow : Ingredients (store (snd (_save_ingredient citra_dialog brewery)))
                     !! 3 = None) by (rewrite Hsame; reflexivity).
    vm_compute in Hrow. discriminate.
  - exists id, row. split; [exact Hnew|]. split; [exact Hstore|exact Hname].
Defined.

(** [update_ingredient_writes_on_success] at concrete inputs. *)
Lemma update_ingredient_writes_on_success_witness :
  exists row,
    Ingredients (store (snd (_update_ingredient malt_edit brewery))) !! 1
      = Some row /\
    (ing_cost row == 5 # 4)%Q /\ (inventory_qty row == 7)%Q.
Proof.
  destruct (update_ingredient_writes_on_success malt_edit brewery)
    as [Hsame|(c & delta & row & Hc & Hd & _ & Hrow & Hstore & _)].
  - exfalso.
    assert (Hrow : Ingredients (store (snd (_update_ingredient malt_edit brewery)))
                     !! 1 = Some (pale_malt 10)) by (rewrite Hsame; reflexivity).
    vm_compute in Hrow. discriminate.
  - injection Hc as <-. injection Hd as <-.
    assert (Hr : Some (pale_malt 10) = Some row) by exact Hrow.
    injection Hr as <-.
    eexists. rewrite Hstore. split; [apply lookup_insert_eq|]. split; qclosed.
Defined.

(** [delete_selected_acts_on_shown_id] at concrete inputs. *)
Lemma delete_selected_acts_on_shown_id_witness :
  let line := display_str 3 "Coriander" "Hop" (3 # 10) "oz" 2 in
  let out := _delete_selected_ingredient (Some line) true pantry in
  (exists text, fst out = Returns (Some (info_box "Success" text))) /\
  store (snd out) =
    set_Ingredients (delete 3 (Ingredients (store pantry))) (store pantry).
Proof.
  intros line out.
  destruct (delete_selected_acts_on_shown_id 3 "Coriander" "Hop" "oz" (3 # 10) 2 pantry)
    as [_ Hconfirmed].
  destruct (Hconfirmed eq_refl) as [_ [Hfree _]].
  apply Hfree; [eexists; reflexivity|reflexivity].
Defined.

(** [read_ingredients_sorted_by_name] at concrete inputs. *)
Lemma read_ingredients_sorted_by_name_witness :
  map fst (read_ingredients cellar) = [2; 1] /\
  In (2, cascade 5) (read_ingredients cellar).
Proof.
  split; [reflexivity|].
  apply (read_ingredients_sorted_by_name cellar). reflexivity.
Defined.

Lemma taproom_recipe_keys : recipe_keys_ok taproom.
Proof.
  intros r Hin. simpl in Hin.
  destruct Hin as [<-|[<-|[<-|[]]]]; eexists; reflexivity.
Qed.

(** [add_recipe_round_trip] at concrete inputs: a dict naming
    ingredient 2 before ingredient 1 is stored in that order and selected
    with ingredient 1 first. *)
Lemma add_recipe_round_trip_witness :
  let stout := add_recipe "Stout" 15 7 [(2, 3%Q); (1, 9%Q)] taproom in
  fst stout = Returns 3 /\
  Recipe_Details (store (file (snd stout))) =
    Recipe_Details (store (file taproom)) ++ [mkDetail 3 2 3; mkDetail 3 1 9] /\
  Permutation (select_recipe_details 3 (store (file (snd stout))))
              [(2, 3%Q); (1, 9%Q)] /\
  select_recipe_details 3 (store (file (snd stout))) = [(1, 9%Q); (2, 3%Q)] /\
  snd (add_recipe "Pale Ale" 15 7 [(2, 3%Q); (1, 9%Q)] taproom) = taproom /\
  snd (add_recipe "Stout" 15 7 [(2, 3%Q); (9, 9%Q)] taproom) = taproom.
Proof.
  intros stout.
  pose proof (add_recipe_round_trip "Stout" 15 7 [(2, 3%Q); (1, 9%Q)] taproom
                taproom_recipe_keys) as (_ & _ & Hok).
  pose proof (add_recipe_round_trip "Pale Ale" 15 7 [(2, 3%Q); (1, 9%Q)] taproom
                taproom_recipe_keys) as (_ & _ & Hname).
  pose proof (add_recipe_round_trip "Stout" 15 7 [(2, 3%Q); (9, 9%Q)] taproom
                taproom_recipe_keys) as (_ & _ & Hkey).
  split; [reflexivity|].
  split; [exact (proj1 (proj2 (proj2 Hok)))|].
  split; [exact (proj1 (proj2 (proj2 (proj2 Hok))))|].
  split; [reflexivity|].
  split; [exact Hname|exact Hkey].
Defined.

Lemma pristine_is_new : new_database pristine.
Proof. repeat split. Qed.

(** [seed_new_database] at concrete inputs. *)
Lemma seed_new_database_witness :
  fst (seed_initial_data pristine) = ReturnsNone /\
  size (Ingredients (store (file seeded_catalog))) = 24%nat /\
  size (Recipes seeded_catalog) = 11%nat /\
  Forall (fun entry =>
            exists rid row pairs,
              Recipes seeded_catalog !! rid = Some row /\
              recipe_row_name row = fst entry /\
              Forall2 (fun e p =>
                         snd p = snd e /\
                         exists irow,
                           Ingredients (store (file seeded_catalog)) !! fst p
                             = Some irow /\
                           ing_name irow = fst e)
                      (snd entry) pairs /\
              Permutation
                (map (fun r => (ingredient_id r, quantity r))
                     (List.filter (fun r => recipe_id r =? rid)
                        (Recipe_Details (store (file seeded_catalog)))))
                pairs /\
              (base_cost row ==
               composition_cost (store (file seeded_catalog)) pairs)%Q)
         models.menu /\
  select_recipe_details 8 (store (file seeded_catalog)) =
    [(1, 150.0%Q); (3, 750.0%Q); (11, 5.0%Q); (12, 8.0%Q); (19, 4.0%Q)] /\
  names_unique (store (file seeded_catalog)) /\
  foreign_keys_ok (store (file seeded_catalog)).
Proof.
  destruct (seed_new_database pristine pristine_is_new)
    as (Hret & _ & Hsize & _ & Hrecipes & Hmenu & _ & Hnames & _ & _ & Hfk & _).
  split; [exact Hret|]. split; [exact Hsize|]. split; [exact Hrecipes|].
  split; [exact Hmenu|]. split; [reflexivity|].
  split; [exact Hnames|exact Hfk].
Defined.

(** [seeded_recipes_cannot_be_brewed] at concrete inputs: the
    Oktoberfest at 2 barrels is short of its first item, at 0.8 barrels
    of its second. *)
Lemma seeded_recipes_cannot_be_brewed_witness :
  (exists pre it post irow,
     scale_recipe 8 15.0 2 (file seeded_catalog) =
       (Returns (pre ++ it :: post, (2 / 15.0)%Q), connected (file seeded_catalog)) /\
     Forall (covered (store (file seeded_catalog))) pre /\
     Ingredients (store (file seeded_catalog)) !! item_id it = Some irow /\
     (inventory_qty irow < item_quantity it)%Q /\
     calculate_and_log_batch "Oktoberfest" 2 100 (pre ++ it :: post)
                             (connected (file seeded_catalog)) =
       (Returns (false,
                 insufficient_message (item_name it) (item_quantity it)
                                      (inventory_qty irow)),
        connected (connected (file seeded_catalog)))) /\
  (forall items sf w,
     scale_recipe 8 15.0 2 (file seeded_catalog) = (Returns (items, sf), w) ->
     fst (calculate_and_log_batch "Oktoberfest" 2 100 items w) =
     Returns (false,
              "Insufficient inventory of Pilsner Malt! Needs 20.00, has 10.00.")) /\
  (forall items sf w,
     scale_recipe 8 15.0 (4 # 5) (file seeded_catalog) = (Returns (items, sf), w) ->
     fst (calculate_and_log_batch "Oktoberfest" (4 # 5) 100 items w) =
     Returns (false,
              "Insufficient inventory of Munich Malt! Needs 40.00, has 10.00.")).
Proof.
  split; [|split].
  - apply (seeded_recipes_cannot_be_brewed pristine 8
             (mkRecipeRow "Oktoberfest" 15.0 1078.100000000000000) 2 100).
    + exact pristine_is_new.
    + reflexivity.
    + vm_compute. reflexivity.
    + qclosed.
  - intros items sf w Hrun. vm_compute in Hrun.
    injection Hrun as <- _ <-. vm_compute. reflexivity.
  - intros items sf w Hrun. vm_compute in Hrun.
    injection Hrun as <- _ <-. vm_compute. reflexivity.
Defined.
